(** * LightwaveExplorer.py: result deserialisation and shard fusion

    A shallow embedding of the loader of [LightwaveExplorer.py]
    (class [lightwaveExplorerResult], [load], [loadSplit], [fuseBinaries],
    [fuseZips]) together with the parts of Python, [re], [os.path] and NumPy
    it relies on.

    Conventions of the embedding.
    - A Python exception is a value of [exn]; a computation that may raise
      has type [py A].
    - Python [float]s and NumPy [float64] scalars that the loader computes
      with (the manifest values, the scan axes, the sampling axes) are
      idealised as exact rationals [Q]: rounding error, overflow to
      infinity and NaN are outside the model.  [np.round] is
      round-half-to-even, [int] truncates towards zero.
    - The doubles stored in the two binaries are never computed with by the
      loader; they are kept as their raw 64-bit patterns and only moved.
    - Text is 8-bit ([string]); manifests are taken to be ASCII.
    - An instance of the result class is its attribute dictionary
      ([gmap string value]) plus the buffers of the float arrays it owns,
      so that two attributes can be views of one buffer. *)

From Stdlib Require Import ZArith QArith Qround Lia Lra Bool.
From Stdlib Require Import Strings.String Strings.Ascii Strings.Byte.
From stdpp Require Import base list sorting strings gmap.

Set Default Proof Using "Type".
Local Open Scope Z_scope.

(** ** Exceptions *)

Inductive exn :=
| IndexError
| ValueError
| AttributeError
| ZeroDivisionError
| KeyError
| TypeError
| FileNotFoundError
| BadZipFile
| NotModelled.

Inductive py (A : Type) :=
| Ok (a : A)
| Raise (e : exn).
Arguments Ok {A} a.
Arguments Raise {A} e.

Definition py_bind {A B} (m : py A) (k : A -> py B) : py B :=
  match m with
  | Ok a => k a
  | Raise e => Raise e
  end.

#[global] Instance py_mret : MRet py := fun A a => Ok a.
#[global] Instance py_mbind : MBind py := fun A B k m => py_bind m k.

Definition of_option {A} (e : exn) (o : option A) : py A :=
  match o with
  | Some a => Ok a
  | None => Raise e
  end.

Definition is_ok {A} (m : py A) : bool :=
  match m with Ok _ => true | Raise _ => false end.

(** [for x in l: body] threading a state. *)
Fixpoint py_foldl {A S} (body : S -> A -> py S) (s : S) (l : list A) : py S :=
  match l with
  | [] => Ok s
  | x :: l' => s' ← body s x; py_foldl body s' l'
  end.

(** ** Python strings *)

Module Str.

Local Open Scope string_scope.

Definition to_list : string -> list ascii := list_ascii_of_string.
Definition of_list : list ascii -> string := string_of_list_ascii.

(** [s.startswith(p)] *)
Definition startswith (s p : string) : bool := String.prefix p s.

(** [s.endswith(p)] *)
Definition endswith (s p : string) : bool :=
  String.prefix (String.rev p) (String.rev s).

(** [s.rfind(c)] for a one-character [c]: the index of the last
    occurrence, if any. *)
Fixpoint rfind (c : ascii) (s : string) : option nat :=
  match s with
  | EmptyString => None
  | String a s' =>
      match rfind c s' with
      | Some i => Some (S i)
      | None => if Ascii.eqb a c then Some O else None
      end
  end.

(** [s[:n]] and [s[n:]] for [0 <= n]. *)
Definition take (n : nat) (s : string) : string := String.substring 0 n s.
Definition drop (n : nat) (s : string) : string :=
  String.substring n (String.length s - n) s.

Definition is_digit (c : ascii) : bool :=
  let n := nat_of_ascii c in (48 <=? n)%nat && (n <=? 57)%nat.

Definition digit_val (c : ascii) : Z := Z.of_nat (nat_of_ascii c) - 48.

(** Decimal digits of a natural number, most significant first;
    [fuel] bounds the number of digits. *)
Fixpoint digits_fuel (fuel n : nat) (acc : string) : string :=
  match fuel with
  | O => acc
  | S fuel' =>
      let acc' := String (ascii_of_nat (48 + n mod 10)) acc in
      if (n <? 10)%nat then acc' else digits_fuel fuel' (n / 10) acc'
  end.

Definition digits (n : nat) : string := digits_fuel (S n) n "".

Fixpoint zeros (k : nat) : string :=
  match k with
  | O => ""
  | S k' => String "0" (zeros k')
  end.

(** The format specification [{i:04d}] for [0 <= i]. *)
Definition format_04d (i : nat) : string :=
  let d := digits i in zeros (4 - String.length d) ++ d.

End Str.

(** ** [os.path] (POSIX flavour) *)

Module OsPath.

Local Open Scope string_scope.

Definition sep : ascii := "/"%char.
Definition dot : ascii := "."%char.

(** [os.path.basename(p)]: what follows the last separator. *)
Definition basename (p : string) : string :=
  match Str.rfind sep p with
  | Some i => Str.drop (S i) p
  | None => p
  end.

(** All characters of [s] from position [from] up to (excluding) [to]
    are periods. *)
Definition only_dots (from to : nat) (s : string) : bool :=
  forallb (Ascii.eqb dot)
    (Str.to_list (String.substring from (to - from) s)).

(** [os.path.splitext(p)]: the extension starts at the last period of
    the last component, unless only periods precede it there. *)
Definition splitext (p : string) : string * string :=
  match Str.rfind dot p with
  | None => (p, "")
  | Some d =>
      let start := match Str.rfind sep p with
                   | Some i => S i
                   | None => O
                   end in
      if (start <=? d)%nat && negb (only_dots start d p)
      then (Str.take d p, Str.drop d p)
      else (p, "")
  end.

End OsPath.

(** ** The regular expression of [readLine] and [float]

    [re.findall] for the one pattern the loader uses,
    [[-+]?[.]?[\d]+(?:,\d\d\d)*[\.]?\d*(?:[eE][-+]?\d+)?].
    Every piece after the first run of digits can match the empty string,
    so the backtracking matcher's first success is the greedy one; the only
    places where it gives a character back are an exponent mark or a comma
    that is not followed by what its group needs. *)

Module Re.

Local Open Scope string_scope.

Definition is_sign (c : ascii) : bool :=
  Ascii.eqb c "-" || Ascii.eqb c "+".
Definition is_dot (c : ascii) : bool := Ascii.eqb c ".".
Definition is_comma (c : ascii) : bool := Ascii.eqb c ",".
Definition is_exp (c : ascii) : bool :=
  Ascii.eqb c "e" || Ascii.eqb c "E".

(** [c?] for a character class: what was consumed and what is left. *)
Definition opt_char (p : ascii -> bool) (s : string) : string * string :=
  match s with
  | String c s' => if p c then (String c "", s') else ("", s)
  | EmptyString => ("", s)
  end.

(** [\d*] *)
Fixpoint digits_star (s : string) : string * string :=
  match s with
  | String c s' =>
      if Str.is_digit c
      then let '(d, r) := digits_star s' in (String c d, r)
      else ("", s)
  | EmptyString => ("", s)
  end.

(** [(?:,\d\d\d)*] *)
Fixpoint groups_star (s : string) : string * string :=
  match s with
  | String c (String d1 (String d2 (String d3 s'))) =>
      if is_comma c && Str.is_digit d1 && Str.is_digit d2 && Str.is_digit d3
      then let '(g, r) := groups_star s' in
           (String c (String d1 (String d2 (String d3 g))), r)
      else ("", s)
  | _ => ("", s)
  end.

(** [(?:[eE][-+]?\d+)?] *)
Definition exponent_opt (s : string) : string * string :=
  match s with
  | String c s1 =>
      if is_exp c then
        let '(sg, s2) := opt_char is_sign s1 in
        let '(ds, s3) := digits_star s2 in
        match ds with
        | EmptyString => ("", s)
        | _ => (String c (sg ++ ds), s3)
        end
      else ("", s)
  | EmptyString => ("", s)
  end.

(** A match of the whole pattern at the start of [s]: the matched text
    and the remainder. *)
Definition match_here (s : string) : option (string * string) :=
  let '(sg, s1) := opt_char is_sign s in
  let '(d0, s2) := opt_char is_dot s1 in
  let '(ds, s3) := digits_star s2 in
  match ds with
  | EmptyString => None
  | _ =>
      let '(gs, s4) := groups_star s3 in
      let '(d1, s5) := opt_char is_dot s4 in
      let '(fs, s6) := digits_star s5 in
      let '(ex, s7) := exponent_opt s6 in
      Some (sg ++ d0 ++ ds ++ gs ++ d1 ++ fs ++ ex, s7)
  end.

(** [re.findall(pattern, s)]: leftmost matches, not overlapping.  [skip]
    counts the characters of [s] that the previous match still covers. *)
Fixpoint findall_from (skip : nat) (s : string) : list string :=
  match s with
  | EmptyString => []
  | String _ s' =>
      match skip with
      | S k => findall_from k s'
      | O =>
          match match_here s with
          | Some (tok, _) => tok :: findall_from (String.length tok - 1) s'
          | None => findall_from O s'
          end
      end
  end.

Definition findall (s : string) : list string := findall_from O s.

End Re.

(** [float(s)] for the strings [findall] can return (signs, digits,
    periods, commas and exponent marks): a decimal literal
    [[sign] (digits [. [digits]] | . digits) [(e|E) [sign] digits]] spanning
    the whole string, [ValueError] otherwise.  The value is exact. *)

Module PyFloat.

Local Open Scope string_scope.

Fixpoint digits_value (acc : Z) (s : string) : Z :=
  match s with
  | String c s' => digits_value (10 * acc + Str.digit_val c) s'
  | EmptyString => acc
  end.

Definition is_empty (s : string) : bool :=
  match s with EmptyString => true | _ => false end.

Definition signed (sg : string) (z : Z) : Z :=
  if String.eqb sg "-" then - z else z.

(** [m * 10^e] *)
Definition scale10 (m e : Z) : Q :=
  if (0 <=? e)%Z then inject_Z (m * 10 ^ e)
  else Qmake m (Z.to_pos (10 ^ (- e))).

Definition parse (s : string) : option Q :=
  let '(sg, s1) := Re.opt_char Re.is_sign s in
  let '(ip, s2) := Re.digits_star s1 in
  let '(dt, s3) := Re.opt_char Re.is_dot s2 in
  let '(fp, s4) := if is_empty dt then ("", s3) else Re.digits_star s3 in
  if is_empty ip && is_empty fp then None
  else
    let mant := digits_value 0 (ip ++ fp) in
    let shift := Z.of_nat (String.length fp) in
    match s4 with
    | EmptyString => Some (scale10 (signed sg mant) (- shift))
    | String c s5 =>
        if Re.is_exp c then
          let '(esg, s6) := Re.opt_char Re.is_sign s5 in
          let '(eds, s7) := Re.digits_star s6 in
          if is_empty eds || negb (is_empty s7) then None
          else Some (scale10 (signed sg mant)
                       (signed esg (digits_value 0 eds) - shift))
        else None
    end.

Definition float (s : string) : py Q := of_option ValueError (parse s).

(** [int(x)] for a float [x]: truncation towards zero. *)
Definition int (x : Q) : Z := Z.quot (Qnum x) (Zpos (Qden x)).

End PyFloat.

(** ** NumPy arrays

    An array is its shape and its elements in column-major order (the
    first index varies fastest), which is the order [np.reshape(...,
    order='F')] gives the loader's arrays.  Indexing operations are defined
    through the index they read: element [ix] of the result is element
    [f ix] of the source. *)

Module Np.

Local Open Scope nat_scope.

(** The raw 64-bit pattern of a stored double. *)
Definition f64 := N.

Definition le64 (bs : list byte) : f64 :=
  foldr (fun b acc => (Byte.to_N b + 256 * acc)%N) 0%N bs.

(** The complete 8-byte items of a byte sequence, in order; a trailing
    partial item is dropped. *)
Fixpoint items (bs : list byte) : list f64 :=
  match bs with
  | b0 :: b1 :: b2 :: b3 :: b4 :: b5 :: b6 :: b7 :: bs' =>
      le64 [b0; b1; b2; b3; b4; b5; b6; b7] :: items bs'
  | _ => []
  end.

(** [np.fromfile(path, dtype=np.double)] on the file's bytes: as many
    items as the file holds completely. *)
Definition fromfile (bs : list byte) : list f64 := items bs.

(** [np.frombuffer(bytes, dtype=np.double)]: the buffer size must be a
    multiple of the item size. *)
Definition frombuffer (bs : list byte) : py (list f64) :=
  if (length bs mod 8 =? 0) then Ok (items bs) else Raise ValueError.

(** [a[0:n]] on a one-dimensional array; a negative [n] counts from the
    end. *)
Definition slice_to {A} (n : Z) (l : list A) : list A :=
  if (0 <=? n)%Z then take (Z.to_nat n) l
  else take (length l - Z.to_nat (- n)) l.

Record ndarray := mk { shape : list nat; data : list f64 }.

(** Number of elements of a shape. *)
Definition size (sh : list nat) : nat := foldr Nat.mul 1 sh.

(** Column-major position of a multi-index. *)
Fixpoint offset (sh ix : list nat) : nat :=
  match sh, ix with
  | n :: sh', i :: ix' => i + n * offset sh' ix'
  | _, _ => 0
  end.

(** The multi-index at a column-major position. *)
Fixpoint unravel (sh : list nat) (j : nat) : list nat :=
  match sh with
  | [] => []
  | n :: sh' => j mod n :: unravel sh' (j / n)
  end.

Definition in_bounds (sh ix : list nat) : bool :=
  (length ix =? length sh) && forallb (fun p => fst p <? snd p) (zip ix sh).

(** [a[ix]] for a full multi-index. *)
Definition get (a : ndarray) (ix : list nat) : option f64 :=
  if in_bounds (shape a) ix then data a !! offset (shape a) ix else None.

(** The array of shape [sh] whose element [ix] is element [f ix] of [a]. *)
Definition gather (sh : list nat) (f : list nat -> list nat) (a : ndarray)
  : ndarray :=
  mk sh (map (fun j => nth (offset (shape a) (f (unravel sh j))) (data a) 0%N)
           (seq 0 (size sh))).

(** [np.reshape(v, newshape, order='F')] of a one-dimensional [v].  One
    extent may be negative and is then inferred. *)
Definition reshape (v : list f64) (newshape : list Z) : py ndarray :=
  let known := filter (fun d => (0 <=? d)%Z) newshape in
  let s_known := size (map Z.to_nat known) in
  match length newshape - length known with
  | 0 => if s_known =? length v
         then Ok (mk (map Z.to_nat newshape) v)
         else Raise ValueError
  | 1 => if (s_known =? 0) || negb (length v mod s_known =? 0)
         then Raise ValueError
         else Ok (mk (map (fun d => if (0 <=? d)%Z then Z.to_nat d
                                    else length v / s_known) newshape) v)
  | _ => Raise ValueError
  end.

(** The indices selected by the slice [start:stop:step], [0 < step], on
    an axis of extent [n] ([slice.indices]). *)
Definition clip (n : nat) (v : Z) : nat :=
  if (v <? 0)%Z then Z.to_nat (Z.max (v + Z.of_nat n) 0)
  else Nat.min (Z.to_nat v) n.

Definition slice_indices (start stop : Z) (step n : nat) : list nat :=
  let lo := clip n start in
  let hi := clip n stop in
  map (fun i => lo + step * i) (seq 0 ((hi - lo + (step - 1)) / step)).

Definition set_nth {A} (k : nat) (x : A) (l : list A) : list A :=
  take k l ++ x :: drop (S k) l.

(** [a[..., start:stop:step, ...]] with the slice on axis [ax] and [:] on
    every other axis. *)
Definition slice_axis (ax : nat) (start stop : Z) (step : nat) (a : ndarray)
  : ndarray :=
  let sel := slice_indices start stop step (nth ax (shape a) 0) in
  gather (set_nth ax (length sel) (shape a))
         (fun ix => set_nth ax (nth (nth ax ix 0) sel 0) ix) a.

(** [a[..., k, ...]] with the integer [0 <= k] on axis [ax] and [:] on
    every other axis; the axis disappears. *)
Definition index_axis (ax k : nat) (a : ndarray) : py ndarray :=
  if k <? nth ax (shape a) 0
  then Ok (gather (take ax (shape a) ++ drop (S ax) (shape a))
                  (fun ix => take ax ix ++ k :: drop ax ix) a)
  else Raise IndexError.

(** [np.squeeze(a)]: the axes of extent one are removed; they do not
    contribute to the position of an element. *)
Definition squeeze (a : ndarray) : ndarray :=
  mk (filter (fun n => negb (n =? 1)) (shape a)) (data a).

(** [a.T]: the axes are reversed. *)
Definition transpose (a : ndarray) : ndarray :=
  gather (rev (shape a)) (@rev nat) a.

(** [np.zeros(shape, dtype=float)]; the pattern of [0.0] is zero. *)
Definition zeros (sh : list nat) : ndarray := mk sh (repeat 0%N (size sh)).

(** Broadcasting of a value of shape [vsh] to a target of shape [tsh] in
    an assignment: surplus leading axes of the value must have extent
    one, the others are aligned at the end and must agree or be one. *)
Definition broadcastable (vsh tsh : list nat) : bool :=
  let extra := length vsh - length tsh in
  forallb (fun n => n =? 1) (take extra vsh) &&
  forallb (fun p => (fst p =? snd p) || (fst p =? 1))
          (zip (rev (drop extra vsh)) (rev tsh)).

(** The index of the value read for target index [ix]. *)
Definition broadcast_index (vsh tsh ix : list nat) : list nat :=
  let extra := length vsh - length tsh in
  let lead := length tsh - length vsh in
  repeat 0 extra ++
  map (fun p => if snd p =? 1 then 0 else fst p)
      (zip (drop lead ix) (drop extra vsh)).

(** [a[..., k, ...] = v] with the integer [k] on axis [ax]. *)
Definition assign_index_axis (ax k : nat) (v a : ndarray) : py ndarray :=
  let tsh := take ax (shape a) ++ drop (S ax) (shape a) in
  if negb (k <? nth ax (shape a) 0) then Raise IndexError
  else if negb (broadcastable (shape v) tsh) then Raise ValueError
  else Ok (mk (shape a)
             (map (fun j =>
                     let ix := unravel (shape a) j in
                     if nth ax ix 0 =? k
                     then nth (offset (shape v)
                                 (broadcast_index (shape v) tsh
                                    (take ax ix ++ drop (S ax) ix)))
                              (data v) 0%N
                     else nth j (data a) 0%N)
                  (seq 0 (size (shape a))))).

End Np.

(** ** The result class *)

Inductive value :=
| VFloat (x : Q)                (* a Python or NumPy float *)
| VInt (n : Z)                  (* a Python int *)
| VData (a : Np.ndarray)        (* an array of stored doubles *)
| VView (buf off len : nat).    (* a one-dimensional float array: [len]
                                   elements of buffer [buf] from [off] *)

(** An instance: the attribute dictionary and the buffers of its float
    arrays. *)
Record obj := mkobj { attrs : gmap string value; bufs : list (list Q) }.

(** A file is flat bytes or a zip archive with named entries.  The
    container bytes of an archive are not modelled. *)
Inductive file :=
| Plain (bs : list byte)
| Zip (entries : gmap string (list byte)).

Module LWE.

Local Open Scope string_scope.
Local Open Scope Q_scope.

(** *** Attribute access *)

Definition getattr (self : obj) (name : string) : py value :=
  of_option AttributeError (attrs self !! name).

Definition setattr (self : obj) (name : string) (v : value) : obj :=
  mkobj (<[name := v]> (attrs self)) (bufs self).

Definition as_float (v : value) : py Q :=
  match v with
  | VFloat x => Ok x
  | VInt n => Ok (inject_Z n)
  | _ => Raise TypeError
  end.

Definition as_int (v : value) : py Z :=
  match v with
  | VInt n => Ok n
  | _ => Raise TypeError
  end.

Definition as_data (v : value) : py Np.ndarray :=
  match v with
  | VData a => Ok a
  | _ => Raise TypeError
  end.

Definition get_float (self : obj) (name : string) : py Q :=
  v ← getattr self name; as_float v.
Definition get_int (self : obj) (name : string) : py Z :=
  v ← getattr self name; as_int v.
Definition get_data (self : obj) (name : string) : py Np.ndarray :=
  v ← getattr self name; as_data v.

(** A new float array holding [v]. *)
Definition new_array (self : obj) (name : string) (v : list Q) : obj :=
  mkobj (<[name := VView (length (bufs self)) 0 (length v)]> (attrs self))
        (bufs self ++ [v])%list.

(** The elements of a float array. *)
Definition view_elems (self : obj) (v : value) : py (list Q) :=
  match v with
  | VView b off len =>
      buf ← of_option NotModelled (bufs self !! b);
      Ok (take len (drop off buf))
  | _ => Raise TypeError
  end.

(** *** Files *)

(** [open(path, "r").read()] with universal newlines still to apply. *)
Definition read_text (fs : gmap string file) (path : string) : py string :=
  match fs !! path with
  | None => Raise FileNotFoundError
  | Some (Plain bs) => Ok (string_of_list_byte bs)
  | Some (Zip _) => Raise NotModelled
  end.

(** The bytes of a flat file. *)
Definition read_bytes (fs : gmap string file) (path : string)
  : py (list byte) :=
  match fs !! path with
  | None => Raise FileNotFoundError
  | Some (Plain bs) => Ok bs
  | Some (Zip _) => Raise NotModelled
  end.

(** [zipfile.ZipFile(path, 'r')] *)
Definition open_zip (fs : gmap string file) (path : string)
  : py (gmap string (list byte)) :=
  match fs !! path with
  | None => Raise FileNotFoundError
  | Some (Plain _) => Raise BadZipFile
  | Some (Zip entries) => Ok entries
  end.

(** [archive.open(name).read()] and [archive.read(name)] *)
Definition zip_read (archive : gmap string (list byte)) (name : string)
  : py (list byte) :=
  of_option KeyError (archive !! name).

(** [f.readlines()] in text mode: a line ends after its terminator, and
    the terminators CR LF and CR read as LF. *)
Fixpoint readlines (s : string) : list string :=
  match s with
  | EmptyString => []
  | String c s' =>
      if Ascii.eqb c "010" then String "010" "" :: readlines s'
      else if Ascii.eqb c "013" then
        match s' with
        | String c' s'' =>
            if Ascii.eqb c' "010" then String "010" "" :: readlines s''
            else String "010" "" :: readlines s'
        | EmptyString => [String "010" ""]
        end
      else
        match readlines s' with
        | [] => [String c ""]
        | l :: ls => String c l :: ls
        end
  end.

(** *** The manifest *)

Definition parameterNames : list string :=
  ["pulseEnergy1";
   "pulseEnergy2";
   "frequency1";
   "frequency2";
   "bandwidth1";
   "bandwidth2";
   "superGaussianOrder1";
   "superGaussianOrder2";
   "cePhase1";
   "cePhase2";
   "delay1";
   "delay2";
   "gdd1";
   "gdd2";
   "tod1";
   "tod2";
   "phaseMaterialIndex1";
   "phaseMaterialIndex2";
   "phaseMaterialThickness1";
   "phaseMaterialthickness2";
   "BeamModeParameter";
   "beamwaist1";
   "beamwaist2";
   "x01";
   "x02";
   "y01";
   "y02";
   "z01";
   "z02";
   "propagationAngle1";
   "propagationAngle2";
   "propagationAnglePhi1";
   "propagationAnglePhi2";
   "polarizationAngle1";
   "polarizationAngle2";
   "circularity1";
   "circularity2";
   "materialIndex";
   "materialIndexAlternate";
   "crystalTheta";
   "crystalPhi";
   "spatialWidth";
   "spatialHeight";
   "spatialStep";
   "timeSpan";
   "timeStep";
   "crystalThickness";
   "propagationStep";
   "nonlinearAbsorptionStrength";
   "bandGapElectronVolts";
   "effectiveMass";
   "drudeGamma";
   "symmetryType";
   "batchIndex";
   "batchDestination";
   "Nsims";
   "batchIndex2";
   "batchDestination2";
   "Nsims2"].

Definition readLine (line : string) : py Q :=
  let rr := Re.findall line in
  tok ← of_option IndexError (last rr);
  PyFloat.float tok.

(** [setattr(self, parameterNames[i], readLine(lines[i]))] *)
Definition read_parameter (lines : list string) (self : obj) (i : nat)
  : py obj :=
  name ← of_option IndexError (parameterNames !! i);
  line ← of_option IndexError (lines !! i);
  x ← readLine line;
  Ok (setattr self name (VFloat x)).

(** [for i in range(len(parameterNames)): ...] *)
Definition read_parameters (lines : list string) (self : obj) : py obj :=
  py_foldl (read_parameter lines) self (seq 0 (length parameterNames)).

(** [self.name = int(self.name)] *)
Definition cast_int (name : string) (self : obj) : py obj :=
  v ← getattr self name;
  match v with
  | VFloat x => Ok (setattr self name (VInt (PyFloat.int x)))
  | VInt n => Ok self
  | _ => Raise TypeError
  end.

Definition cast_ints (self : obj) : py obj :=
  self ← cast_int "Nsims" self;
  self ← cast_int "Nsims2" self;
  self ← cast_int "symmetryType" self;
  self ← cast_int "batchIndex" self;
  cast_int "batchIndex2" self.

(** The manifest part of the constructor. *)
Definition parse_manifest (lines : list string) : py obj :=
  self ← read_parameters lines (mkobj ∅ []);
  cast_ints self.

(** *** Derived grid dimensions *)

Definition MIN_GRIDDIM : Z := 8.

(** Division of Python floats. *)
Definition py_div (a b : Q) : py Q :=
  if Qeq_bool b 0 then Raise ZeroDivisionError else Ok (a / b).

(** [np.round(x)]: to the nearest integer, ties to the even one. *)
Definition np_round (x : Q) : Z :=
  let f := Qfloor x in
  match Qcompare (x - inject_Z f) (1 # 2) with
  | Lt => f
  | Gt => (f + 1)%Z
  | Eq => if Z.even f then f else (f + 1)%Z
  end.

(** [int(MIN_GRIDDIM * np.round(span / (MIN_GRIDDIM * step)))] *)
Definition grid_dim (span step : Q) : py Z :=
  q ← py_div span (inject_Z MIN_GRIDDIM * step);
  Ok (PyFloat.int (inject_Z MIN_GRIDDIM * inject_Z (np_round q))).

Definition is_volumetric (symmetryType : Z) : bool :=
  (symmetryType =? 2)%Z || (symmetryType =? 4)%Z.

Definition derive_grid (self : obj) : py obj :=
  timeSpan ← get_float self "timeSpan";
  timeStep ← get_float self "timeStep";
  Ntime ← grid_dim timeSpan timeStep;
  let self := setattr self "Ntime" (VInt Ntime) in
  let Nfreq := PyFloat.int (inject_Z Ntime / 2 + 1) in
  let self := setattr self "Nfreq" (VInt Nfreq) in
  fStep ← py_div 1 (inject_Z Ntime * timeStep);
  let self := setattr self "fStep" (VFloat fStep) in
  spatialWidth ← get_float self "spatialWidth";
  spatialStep ← get_float self "spatialStep";
  Nspace ← grid_dim spatialWidth spatialStep;
  let self := setattr self "Nspace" (VInt Nspace) in
  symmetryType ← get_int self "symmetryType";
  Nspace2 ← (if is_volumetric symmetryType
             then spatialHeight ← get_float self "spatialHeight";
                  grid_dim spatialHeight spatialStep
             else Ok 1%Z);
  let self := setattr self "Nspace2" (VInt Nspace2) in
  Ok (setattr self "Ngrid" (VInt (Ntime * Nspace * Nspace2))).

(** *** The binaries *)

(** The doubles of [fileBase + suffix]: of the archive entry through
    [np.frombuffer], of the flat file through [np.fromfile]. *)
Definition read_doubles (isZip : bool) (fs : gmap string file)
    (archive : gmap string (list byte)) (fileBase suffix : string)
  : py (list Np.f64) :=
  if isZip
  then bs ← zip_read archive (fileBase +:+ suffix); Np.frombuffer bs
  else bs ← read_bytes fs (fileBase +:+ suffix); Ok (Np.fromfile bs).

(** The shape the field blob is given, and the axis that interleaves the
    two polarisations. *)
Definition field_shape (volumetric : bool)
    (Ntime Nspace Nspace2 Nsims Nsims2 : Z) : list Z :=
  if volumetric then [Ntime; Nspace; Nspace2; 2 * Nsims; Nsims2]%Z
  else [Ntime; Nspace; 2 * Nsims; Nsims2]%Z.

Definition field_axis (volumetric : bool) : nat :=
  if volumetric then 3%nat else 2%nat.

(** [Ext], [Ext_x] and [Ext_y] from the doubles of the field blob. *)
Definition decode_field (volumetric : bool)
    (Ntime Nspace Nspace2 Ngrid Nsims Nsims2 : Z) (raw : list Np.f64)
  : py (Np.ndarray * Np.ndarray) :=
  Ext ← Np.reshape (Np.slice_to (2 * Ngrid * Nsims * Nsims2)%Z raw)
                   (field_shape volumetric Ntime Nspace Nspace2 Nsims Nsims2);
  let ax := field_axis volumetric in
  Ok (Np.squeeze (Np.slice_axis ax 0 (2 * Nsims)%Z 2 Ext),
      Np.squeeze (Np.slice_axis ax 1 (2 * Nsims + 1)%Z 2 Ext)).

Definition load_field (isZip : bool) (fs : gmap string file)
    (archive : gmap string (list byte)) (fileBase : string) (self : obj)
  : py obj :=
  symmetryType ← get_int self "symmetryType";
  raw ← read_doubles isZip fs archive fileBase "_Ext.dat";
  Ngrid ← get_int self "Ngrid";
  Nsims ← get_int self "Nsims";
  Nsims2 ← get_int self "Nsims2";
  Ntime ← get_int self "Ntime";
  Nspace ← get_int self "Nspace";
  Nspace2 ← get_int self "Nspace2";
  '(Ext_x, Ext_y) ← decode_field (is_volumetric symmetryType)
                       Ntime Nspace Nspace2 Ngrid Nsims Nsims2 raw;
  Ok (setattr (setattr self "Ext_x" (VData Ext_x)) "Ext_y" (VData Ext_y)).

(** [np.squeeze(RawSpectrum[:,c,:,:]).T] *)
Definition spectrum_channel (c : nat) (RawSpectrum : Np.ndarray)
  : py Np.ndarray :=
  a ← Np.index_axis 1 c RawSpectrum;
  Ok (Np.transpose (Np.squeeze a)).

(** [spectrumTotal], [spectrum_x] and [spectrum_y] from the doubles of
    the spectrum blob. *)
Definition decode_spectrum (Nfreq Nsims Nsims2 : Z) (raw : list Np.f64)
  : py (Np.ndarray * Np.ndarray * Np.ndarray) :=
  RawSpectrum ← Np.reshape (Np.slice_to (3 * Nfreq * Nsims * Nsims2)%Z raw)
                           [Nfreq; 3; Nsims; Nsims2]%Z;
  spectrumTotal ← spectrum_channel 2 RawSpectrum;
  spectrum_x ← spectrum_channel 0 RawSpectrum;
  spectrum_y ← spectrum_channel 1 RawSpectrum;
  Ok (spectrumTotal, spectrum_x, spectrum_y).

Definition load_spectrum (isZip : bool) (fs : gmap string file)
    (archive : gmap string (list byte)) (fileBase : string) (self : obj)
  : py obj :=
  raw ← read_doubles isZip fs archive fileBase "_spectrum.dat";
  Nfreq ← get_int self "Nfreq";
  Nsims ← get_int self "Nsims";
  Nsims2 ← get_int self "Nsims2";
  '(spectrumTotal, spectrum_x, spectrum_y) ←
      decode_spectrum Nfreq Nsims Nsims2 raw;
  let self := setattr self "spectrumTotal" (VData spectrumTotal) in
  let self := setattr self "spectrum_x" (VData spectrum_x) in
  Ok (setattr self "spectrum_y" (VData spectrum_y)).

(** *** The scan axes *)

(** [np.pi], the double nearest to pi. *)
Definition np_pi : Q := 884279719003555 # 281474976710656.

(** The branch of the [elif] chain for a batch index: the attribute that
    gives [batchStart] ([None] for the literal 0) and the factor
    [batchDestination] is multiplied by, if any. *)
Definition batch_branch (batchIndex : Z) : option (option string * option Q) :=
  match batchIndex with
  | 0%Z => Some (None, None)
  | 1%Z => Some (Some "pulseEnergy1", None)
  | 2%Z => Some (Some "pulseEnergy2", None)
  | 3%Z => Some (Some "frequency1", Some (inject_Z (10 ^ 12)))
  | 4%Z => Some (Some "frequency2", Some (inject_Z (10 ^ 12)))
  | 5%Z => Some (Some "frequency1", Some (inject_Z (10 ^ 12)))
  | 6%Z => Some (Some "frequency2", Some (inject_Z (10 ^ 12)))
  | 7%Z => Some (Some "cePhase1", Some np_pi)
  | 8%Z => Some (Some "cePhase2", Some np_pi)
  | 9%Z => Some (Some "delay1", Some (1 # 10 ^ 15))
  | 10%Z => Some (Some "delay2", Some (1 # 10 ^ 15))
  | 11%Z => Some (Some "gdd1", Some (1 # 10 ^ 30))
  | 12%Z => Some (Some "gdd2", Some (1 # 10 ^ 30))
  | 13%Z => Some (Some "tod1", Some (1 # 10 ^ 45))
  | 14%Z => Some (Some "tod2", Some (1 # 10 ^ 45))
  | 15%Z => Some (Some "phaseMaterialThickness1", Some (1 # 10 ^ 6))
  | 16%Z => Some (Some "phaseMaterialThickness2", Some (1 # 10 ^ 6))
  | 17%Z => Some (Some "beamwaist1", Some (1 # 10 ^ 6))
  | 18%Z => Some (Some "beamwaist2", Some (1 # 10 ^ 6))
  | 19%Z => Some (Some "x01", Some (1 # 10 ^ 6))
  | 20%Z => Some (Some "x02", Some (1 # 10 ^ 6))
  | 21%Z => Some (Some "z01", Some (1 # 10 ^ 6))
  | 22%Z => Some (Some "z02", Some (1 # 10 ^ 6))
  | 23%Z => Some (Some "propagationAngle1", Some (np_pi / 180))
  | 24%Z => Some (Some "propagationAngle2", Some (np_pi / 180))
  | 25%Z => Some (Some "polarizationAngle1", Some (np_pi / 180))
  | 26%Z => Some (Some "polarizationAngle2", Some (np_pi / 180))
  | 27%Z => Some (Some "circularity1", None)
  | 28%Z => Some (Some "circularity2", None)
  | 29%Z => Some (Some "crystalTheta", Some (np_pi / 180))
  | 30%Z => Some (Some "crystalPhi", Some (np_pi / 180))
  | 31%Z => Some (Some "nonlinearAbsorptionStrength", None)
  | 32%Z => Some (Some "drudeGamma", Some (inject_Z (10 ^ 12)))
  | 33%Z => Some (Some "effectiveMass", None)
  | 34%Z => Some (Some "crystalThickness", Some (1 # 10 ^ 6))
  | 35%Z => Some (Some "propagationStep", Some (1 # 10 ^ 9))
  | 36%Z => Some (None, None)
  | 37%Z => Some (None, None)
  | _ => None
  end.

(** [np.linspace(start, stop, num)] *)
Definition linspace (start stop : Q) (num : Z) : py (list Q) :=
  if (num <? 0)%Z then Raise ValueError
  else
    let n := Z.to_nat num in
    let div := (num - 1)%Z in
    let delta := stop - start in
    let y := map (fun k => inject_Z (Z.of_nat k)) (seq 0 n) in
    let y := if (0 <? div)%Z then
               let step := delta / inject_Z div in
               if Qeq_bool step 0
               then map (fun v => v / inject_Z div * delta) y
               else map (fun v => v * step) y
             else map (fun v => v * delta) y in
    let y := map (fun v => v + start) y in
    Ok (if (1 <? num)%Z then <[(n - 1)%nat := stop]> y else y).

(** The block that sets [batchStart], rescales [batchDestination] and
    builds [batchVector]; it appears twice in the source, for the
    attributes without suffix and for those with the suffix 2. *)
Definition batch_axis (sfx : string) (self : obj) : py obj :=
  batchIndex ← get_int self ("batchIndex" +:+ sfx);
  self ← match batch_branch batchIndex with
         | None => Ok self
         | Some (source, factor) =>
             start ← match source with
                     | None => Ok (VInt 0)
                     | Some name => getattr self name
                     end;
             let self := setattr self ("batchStart" +:+ sfx) start in
             match factor with
             | None => Ok self
             | Some c =>
                 d ← get_float self ("batchDestination" +:+ sfx);
                 Ok (setattr self ("batchDestination" +:+ sfx) (VFloat (d * c)))
             end
         end;
  batchStart ← get_float self ("batchStart" +:+ sfx);
  batchDestination ← get_float self ("batchDestination" +:+ sfx);
  Nsims ← get_int self ("Nsims" +:+ sfx);
  v ← linspace batchStart batchDestination Nsims;
  Ok (new_array self ("batchVector" +:+ sfx) v).

(** *** The sampling axes *)

(** [np.arange(0, n)] as floats. *)
Definition arange (n : Z) : list Q :=
  map (fun k => inject_Z (Z.of_nat k)) (seq 0 (Z.to_nat n)).

(** [np.fft.fftfreq(n, d)] *)
Definition fftfreq (n : Z) (d : Q) : py (list Q) :=
  val ← py_div 1 (inject_Z n * d);
  if (n <? 0)%Z then Raise ValueError
  else
    let N := ((n - 1) / 2 + 1)%Z in
    let p1 := map (fun k => Z.of_nat k) (seq 0 (Z.to_nat N)) in
    let p2 := map (fun k => (- (n / 2) + Z.of_nat k)%Z)
                  (seq 0 (Z.to_nat (n / 2))) in
    let results := take (Z.to_nat n) (p1 ++ p2)%list in
    Ok (map (fun k => inject_Z k * val) results).

(** [self.target = self.source[0:stop]]: a view of the same buffer. *)
Definition slice_view (source target : string) (stop : Z) (self : obj)
  : py obj :=
  v ← getattr self source;
  match v with
  | VView b off len =>
      Ok (setattr self target
            (VView b off (length (Np.slice_to stop (seq 0 len)))))
  | _ => Raise TypeError
  end.

(** [self.name[-1] *= c]: in place, in the buffer the array views. *)
Definition imul_last (name : string) (c : Q) (self : obj) : py obj :=
  v ← getattr self name;
  match v with
  | VView b off len =>
      if (len =? 0)%nat then Raise IndexError
      else
        buf ← of_option NotModelled (bufs self !! b);
        let i := (off + (len - 1))%nat in
        x ← of_option NotModelled (buf !! i);
        Ok (mkobj (attrs self) (<[b := <[i := x * c]> buf]> (bufs self)))
  | _ => Raise TypeError
  end.

Definition sampling_axes (self : obj) : py obj :=
  timeStep ← get_float self "timeStep";
  Ntime ← get_int self "Ntime";
  let self := new_array self "timeVector"
                (map (fun k => timeStep * k) (arange Ntime)) in
  fv ← fftfreq Ntime timeStep;
  let self := new_array self "frequencyVector" fv in
  Nfreq ← get_int self "Nfreq";
  self ← slice_view "frequencyVector" "frequencyVectorSpectrum" Nfreq self;
  self ← imul_last "frequencyVectorSpectrum" (-1) self;
  spatialStep ← get_float self "spatialStep";
  Nspace ← get_int self "Nspace";
  Ok (new_array self "spaceVector"
        (map (fun k => spatialStep * (k - inject_Z Nspace / 2)
                       + (1 # 4) * spatialStep) (arange Nspace))).

(** *** The constructor and [load] *)

Definition init (fs : gmap string file) (filePath : string)
    (loadFieldArray : bool) : py obj :=
  let isZip := Str.endswith filePath ".zip" in
  '(archive, fileBase, text) ←
      (if isZip then
         archive ← open_zip fs filePath;
         let archiveName := OsPath.basename filePath in
         let fileBase := fst (OsPath.splitext archiveName) in
         bs ← zip_read archive (fileBase +:+ ".txt");
         Ok (archive, fileBase, string_of_list_byte bs)
       else
         text ← read_text fs filePath;
         Ok (∅, fst (OsPath.splitext filePath), text));
  let lines := readlines text in
  self ← parse_manifest lines;
  self ← derive_grid self;
  self ← (if loadFieldArray
          then load_field isZip fs archive fileBase self
          else Ok self);
  self ← load_spectrum isZip fs archive fileBase self;
  self ← batch_axis "" self;
  self ← batch_axis "2" self;
  sampling_axes self.

Definition load (fs : gmap string file) (filePath : string)
    (loadFieldArray : bool) : py obj :=
  init fs filePath loadFieldArray.

(** *** [loadSplit] *)

(** The elements [np.append] takes from an argument. *)
Definition ravel (self : obj) (v : value) : py (list Q) :=
  match v with
  | VFloat x => Ok [x]
  | VInt n => Ok [inject_Z n]
  | VView _ _ _ => view_elems self v
  | VData _ => Raise NotModelled
  end.

(** [np.zeros(sh)] for a shape that ends with [Ntotal]. *)
Definition zeros_stack (sh : list nat) (Ntotal : Z) : py Np.ndarray :=
  if (Ntotal <? 0)%Z then Raise ValueError
  else Ok (Np.zeros (sh ++ [Z.to_nat Ntotal])%list).

(** [self.name[..., k] = v] on the last axis, [ax] the number of axes
    before it. *)
Definition assign_slot (name : string) (ax k : nat) (v : Np.ndarray)
    (self : obj) : py obj :=
  a ← get_data self name;
  a' ← Np.assign_index_axis ax k v a;
  Ok (setattr self name (VData a')).

(** The reallocation of [Ext_x] and [Ext_y] with the first shard in
    slot 0. *)
Definition stack_field (stackAxis : nat) (Ntotal : Z) (base : obj)
  : py obj :=
  tmp ← get_data base "Ext_x";
  let sh := Np.shape tmp in
  dims ← (if (stackAxis =? 2)%nat then
            s0 ← of_option IndexError (sh !! 0%nat);
            s1 ← of_option IndexError (sh !! 1%nat);
            Ok [s0; s1]
          else
            s0 ← of_option IndexError (sh !! 0%nat);
            s1 ← of_option IndexError (sh !! 1%nat);
            s2 ← of_option IndexError (sh !! 2%nat);
            Ok [s0; s1; s2]);
  z ← zeros_stack dims Ntotal;
  let base := setattr base "Ext_x" (VData z) in
  base ← assign_slot "Ext_x" (length dims) 0 tmp base;
  tmp ← get_data base "Ext_y";
  Ext_x ← get_data base "Ext_x";
  let base := setattr base "Ext_y" (VData (Np.zeros (Np.shape Ext_x))) in
  assign_slot "Ext_y" (length dims) 0 tmp base.

(** The reallocation of the three spectra with the first shard in
    row 0. *)
Definition stack_spectra (Ntotal : Z) (base : obj) : py obj :=
  tmp ← get_data base "spectrum_x";
  n ← of_option IndexError (Np.shape tmp !! 0%nat);
  z ← (if (Ntotal <? 0)%Z then Raise ValueError
       else Ok (Np.zeros [Z.to_nat Ntotal; n]));
  let base := setattr base "spectrum_x" (VData z) in
  base ← assign_slot "spectrum_x" 0 0 tmp base;
  spectrum_x ← get_data base "spectrum_x";
  tmp ← get_data base "spectrum_y";
  let base := setattr base "spectrum_y"
                (VData (Np.zeros (Np.shape spectrum_x))) in
  base ← assign_slot "spectrum_y" 0 0 tmp base;
  tmp ← get_data base "spectrumTotal";
  let base := setattr base "spectrumTotal"
                (VData (Np.zeros (Np.shape spectrum_x))) in
  assign_slot "spectrumTotal" 0 0 tmp base.

(** The body of [for i in range(1,Ntotal)]. *)
Definition add_shard (fs : gmap string file) (listOfFileNames : list string)
    (stackAxis : nat) (batchType : string) (base : obj) (i : nat) : py obj :=
  name ← of_option IndexError (listOfFileNames !! i);
  newStructure ← load fs name true;
  let ax := if (stackAxis =? 2)%nat then 2%nat else 3%nat in
  Ext_x ← get_data newStructure "Ext_x";
  base ← assign_slot "Ext_x" ax i Ext_x base;
  Ext_y ← get_data newStructure "Ext_y";
  base ← assign_slot "Ext_y" ax i Ext_y base;
  spectrum_x ← get_data newStructure "spectrum_x";
  base ← assign_slot "spectrum_x" 0 i spectrum_x base;
  spectrum_y ← get_data newStructure "spectrum_y";
  base ← assign_slot "spectrum_y" 0 i spectrum_y base;
  spectrumTotal ← get_data newStructure "spectrumTotal";
  base ← assign_slot "spectrumTotal" 0 i spectrumTotal base;
  batchVector ← getattr base "batchVector";
  old ← ravel base batchVector;
  v ← getattr base batchType;
  new ← ravel base v;
  Ok (new_array base "batchVector" (old ++ new)%list).

Definition loadSplit (fs : gmap string file) (baseName : string)
    (Ntotal : Z) (batchType : string) : py obj :=
  let listOfFileNames :=
    map (fun i => baseName +:+ Str.format_04d i +:+ ".txt")
        (seq 0 (Z.to_nat Ntotal)) in
  name ← of_option IndexError (listOfFileNames !! 0%nat);
  baseStructure ← load fs name true;
  Ext_x ← get_data baseStructure "Ext_x";
  let stackAxis := length (Np.shape Ext_x) in
  baseStructure ← stack_field stackAxis Ntotal baseStructure;
  baseStructure ← stack_spectra Ntotal baseStructure;
  v ← getattr baseStructure batchType;
  let baseStructure := setattr baseStructure "batchVector" v in
  batchVector ← getattr baseStructure "batchVector";
  let baseStructure := setattr baseStructure "batchStart" batchVector in
  py_foldl (add_shard fs listOfFileNames stackAxis batchType)
           baseStructure (seq 1 (Z.to_nat Ntotal - 1)).

(** *** [fuseBinaries] and [fuseZips] *)

(** [os.listdir()]: the names in the working directory, in no
    particular order. *)
Definition listdir (fs : gmap string file) : list string :=
  filter (fun name => Str.rfind OsPath.sep name = None)
         (map fst (map_to_list fs)).

(** [sorted(names)] *)
Definition sorted (names : list string) : list string :=
  merge_sort String.le names.

(** [current.read(n)]: up to [n] bytes and what is left to read. *)
Fixpoint read (n : N) (current : list byte) : list byte * list byte :=
  match current with
  | [] => ([], [])
  | b :: rest =>
      if (n =? 0)%N then ([], current)
      else let '(piece, rest') := read (N.pred n) rest in (b :: piece, rest')
  end.

(** [while True: piece = current.read(1024*1024*128); if not piece:
    break; output.write(piece)]; [fuel] bounds the iterations. *)
Fixpoint copy_pieces (fuel : nat) (current output : list byte) : list byte :=
  match fuel with
  | O => output
  | S fuel' =>
      let '(piece, rest) := read (1024 * 1024 * 128)%N current in
      match piece with
      | [] => output
      | _ => copy_pieces fuel' rest (output ++ piece)%list
      end
  end.

(** [[filename for filename in os.listdir() if
    filename.startswith(baseName) and filename.endswith(ending)]],
    sorted. *)
Definition select_files (fs : gmap string file) (baseName ending : string)
  : list string :=
  sorted (filter (fun filename =>
                    Str.startswith filename baseName
                    && Str.endswith filename ending)
                 (listdir fs)).

Definition fuseFile (baseName ending : string) (fs : gmap string file)
  : py (gmap string file) :=
  let output_name := baseName +:+ ending in
  let fs := delete output_name fs in
  let files := select_files fs baseName ending in
  output ← py_foldl (fun output file =>
                       current ← read_bytes fs file;
                       Ok (copy_pieces (S (length current)) current output))
                    [] files;
  Ok (<[output_name := Plain output]> fs).

Definition fuseBinaries (fs : gmap string file) (outputTextFile : string)
  : py (gmap string file) :=
  let base := fst (OsPath.splitext (OsPath.basename outputTextFile)) in
  fs ← fuseFile base "_Ext.dat" fs;
  fuseFile base "_spectrum.dat" fs.

(** The entries of the archive [zipfile.ZipFile(path, 'a')] starts
    from. *)
Definition open_zip_append (fs : gmap string file) (path : string)
  : gmap string (list byte) :=
  match fs !! path with
  | Some (Zip entries) => entries
  | _ => ∅
  end.

Definition fuseZips (fs : gmap string file) (outputFile : string)
  : py (gmap string file) :=
  let ending := ".zip" in
  let baseName := fst (OsPath.splitext (OsPath.basename outputFile)) in
  let destination := fst (OsPath.splitext outputFile) +:+ ending in
  let files := sorted (filter (fun filename =>
                                 Str.startswith filename baseName
                                 && Str.endswith filename ending
                                 && negb (String.eqb filename destination))
                              (listdir fs)) in
  let destinationZip := open_zip_append fs destination in
  '(Ext, spectrum) ←
      py_foldl (fun '(Ext, spectrum) sourceFile =>
                  let currentBase :=
                    fst (OsPath.splitext (OsPath.basename sourceFile)) in
                  sourceZip ← open_zip fs sourceFile;
                  s ← zip_read sourceZip (currentBase +:+ "_spectrum.dat");
                  e ← zip_read sourceZip (currentBase +:+ "_Ext.dat");
                  Ok ((Ext ++ e)%list, (spectrum ++ s)%list))
               ([], []) files;
  let destinationZip :=
    <[baseName +:+ "_spectrum.dat" := spectrum]> destinationZip in
  let destinationZip := <[baseName +:+ "_Ext.dat" := Ext]> destinationZip in
  Ok (<[destination := Zip destinationZip]> fs).

End LWE.

(** ** Vocabulary of the statements *)

Module Spec.

Local Open Scope nat_scope.
Local Open Scope string_scope.

(** The spatial grid of a run: two axes, or three in the volumetric
    symmetry modes. *)
Definition grid (volumetric : bool) (Ntime Nspace Nspace2 : nat) : list nat :=
  if volumetric then [Ntime; Nspace; Nspace2] else [Ntime; Nspace].

(** The index an element keeps once the axes of extent one are gone. *)
Definition squeeze_index (sh ix : list nat) : list nat :=
  map fst (filter (fun p => negb (snd p =? 1)%nat) (zip ix sh)).

(** The integer attributes the decoders read, for natural extents. *)
Definition has_grid (self : obj) (symmetryType : Z)
    (Ntime Nspace Nspace2 Nsims Nsims2 : nat) : Prop :=
  attrs self !! "symmetryType" = Some (VInt symmetryType) /\
  attrs self !! "Ntime" = Some (VInt (Z.of_nat Ntime)) /\
  attrs self !! "Nspace" = Some (VInt (Z.of_nat Nspace)) /\
  attrs self !! "Nspace2" = Some (VInt (Z.of_nat Nspace2)) /\
  attrs self !! "Nsims" = Some (VInt (Z.of_nat Nsims)) /\
  attrs self !! "Nsims2" = Some (VInt (Z.of_nat Nsims2)) /\
  attrs self !! "Ngrid" = Some (VInt (Z.of_nat (Ntime * Nspace * Nspace2))) /\
  attrs self !! "Nfreq" = Some (VInt (Z.of_nat (Ntime / 2 + 1))) /\
  (LWE.is_volumetric symmetryType = false -> Nspace2 = 1).

(** The parameters the constructor casts to [int]. *)
Definition int_names : list string :=
  ["Nsims"; "Nsims2"; "symmetryType"; "batchIndex"; "batchIndex2"].

(** The last numeric token of a line, and its value when [float]
    accepts it. *)
Definition last_token (line : string) : option string :=
  last (Re.findall line).

Definition line_value (line : string) (v : Q) : Prop :=
  exists tok, last_token line = Some tok /\ PyFloat.parse tok = Some v.

(** The attributes after the loop over the schema. *)
Definition bind_all (names : list string) (values : list Q) (self : obj)
  : obj :=
  foldl (fun o p => LWE.setattr o (fst p) (VFloat (snd p))) self
        (zip names values).

(** What the parser binds to a name whose line has the value [v]. *)
Definition bound_value (name : string) (v : Q) : value :=
  if bool_decide (name ∈ int_names) then VInt (PyFloat.int v) else VFloat v.

(** The attributes [loadSplit] assigns to. *)
Definition mutated_names : list string :=
  ["Ext_x"; "Ext_y"; "spectrum_x"; "spectrum_y"; "spectrumTotal";
   "batchVector"; "batchStart"].

(** [o'] is [o] up to the attributes in [names] and to new buffers. *)
Definition same_except (names : list string) (o o' : obj) : Prop :=
  (forall name, name ∉ names -> attrs o' !! name = attrs o !! name)
  /\ bufs o `prefix_of` bufs o'.

(** The attribute [name] is an array whose first extent is [n]. *)
Definition leading_extent (o : obj) (name : string) (n : nat) : Prop :=
  exists a rest, attrs o !! name = Some (VData a) /\ Np.shape a = n :: rest.

(** A shard of a split run: its name without extension and the bytes of
    its two binaries. *)
Record shard := mkshard {
  shard_name : string;
  shard_field : list byte;
  shard_spectrum : list byte
}.

(** The shard naming convention: the base name followed by an ordinal of
    [width] decimal digits. *)
Definition shard_named (baseName : string) (width : nat) (sh : shard) : Prop :=
  exists ordinal,
    shard_name sh = baseName +:+ ordinal
    /\ String.length ordinal = width
    /\ forallb Str.is_digit (Str.to_list ordinal) = true.

(** A file stem: not empty, without separator and without period. *)
Definition plain_stem (s : string) : Prop :=
  s <> "" /\ Str.rfind OsPath.sep s = None /\ Str.rfind OsPath.dot s = None.

(** The working directory holds the archives of the shards, and no other
    archive that [fuseZips] would take for one. *)
Definition archives_of (fs : gmap string file) (baseName : string)
    (shards : list shard) : Prop :=
  (forall sh, sh ∈ shards ->
     exists entries,
       fs !! (shard_name sh +:+ ".zip") = Some (Zip entries)
       /\ entries !! (shard_name sh +:+ "_Ext.dat") = Some (shard_field sh)
       /\ entries !! (shard_name sh +:+ "_spectrum.dat")
          = Some (shard_spectrum sh))
  /\ (forall name,
        is_Some (fs !! name) -> Str.rfind OsPath.sep name = None ->
        Str.startswith name baseName = true ->
        Str.endswith name ".zip" = true ->
        name <> baseName +:+ ".zip" ->
        exists sh, sh ∈ shards /\ name = shard_name sh +:+ ".zip").

(** The working directory holds the binaries extracted from the
    archives of the shards, and no other file that [fuseBinaries] would
    take for one. *)
Definition extracted_of (fs : gmap string file) (baseName : string)
    (shards : list shard) : Prop :=
  (forall sh, sh ∈ shards ->
     fs !! (shard_name sh +:+ "_Ext.dat") = Some (Plain (shard_field sh))
     /\ fs !! (shard_name sh +:+ "_spectrum.dat")
        = Some (Plain (shard_spectrum sh)))
  /\ (forall name ending,
        ending = "_Ext.dat" \/ ending = "_spectrum.dat" ->
        is_Some (fs !! name) -> Str.rfind OsPath.sep name = None ->
        Str.startswith name baseName = true ->
        Str.endswith name ending = true ->
        name <> baseName +:+ ending ->
        exists sh, sh ∈ shards /\ name = shard_name sh +:+ ending).



(** Where the constructor finds the bytes of a binary: an entry of the
    archive, or a flat file. *)
Definition blob_at (isZip : bool) (fs : gmap string file)
    (archive : gmap string (list byte)) (name : string) (bs : list byte)
  : Prop :=
  if isZip then archive !! name = Some bs
  else fs !! name = Some (Plain bs).

(** An array is well formed when it has as many elements as its shape
    says. *)
Definition wf (a : Np.ndarray) : Prop :=
  length (Np.data a) = Np.size (Np.shape a).

(** The array [Ext] of the constructor once the blob is long enough, for
    the grid [g]. *)
Definition Ext_of (g : list nat) (Nsims Nsims2 : nat) (raw : list Np.f64)
  : Np.ndarray :=
  Np.mk (g ++ [2 * Nsims; Nsims2])%list
        (take (Np.size g * (2 * Nsims * Nsims2)) raw).

(** The array [RawSpectrum] once the blob is long enough. *)
Definition RawSpectrum_of (Nfreq Nsims Nsims2 : nat) (raw : list Np.f64)
  : Np.ndarray :=
  Np.mk [Nfreq; 3; Nsims; Nsims2]
        (take (Nfreq * (3 * Nsims * Nsims2)) raw).

(** [np.squeeze(RawSpectrum[:,c,:,:]).T] for a channel [c < 3]. *)
Definition channel_of (c : nat) (RawSpectrum : Np.ndarray) : Np.ndarray :=
  Np.transpose
    (Np.squeeze
       (Np.gather (take 1 (Np.shape RawSpectrum)
                   ++ drop 2 (Np.shape RawSpectrum))%list
                  (fun ix => take 1 ix ++ c :: drop 1 ix)%list RawSpectrum)).

(** The part of a decoded array that belongs to batch index [k], for a
    batch of [N] on the last axis (the field arrays) or on the first
    (the spectra).  A batch of one has no batch axis left. *)
Definition batch_last (N k : nat) (a : Np.ndarray) : py Np.ndarray :=
  if (N =? 1)%nat then Ok a
  else Np.index_axis (length (Np.shape a) - 1) k a.

Definition batch_first (N k : nat) (a : Np.ndarray) : py Np.ndarray :=
  if (N =? 1)%nat then Ok a else Np.index_axis 0 k a.

End Spec.

(** ** Concrete runs *)

Module Ex.

Local Open Scope string_scope.




(** A manifest: one line per schema name, the value last on the line. *)
Definition manifest_line (v : string) : string :=
  "value 1: " +:+ v +:+ String "010" "".

Definition manifest_lines (f : string -> string) : list string :=
  map (fun name => manifest_line (f name)) LWE.parameterNames.

Definition manifest_text (f : string -> string) : string :=
  foldr String.append "" (manifest_lines f).

(** The parameters of a single point on an 8 by 8 planar grid; the
    value of [frequency1] and the primary batch index are left open. *)
Definition single_point (frequency1 batchIndex : string) (name : string)
  : string :=
  if String.eqb name "timeSpan" then "8e-15" else
  if String.eqb name "timeStep" then "1e-15" else
  if String.eqb name "spatialWidth" then "8e-6" else
  if String.eqb name "spatialStep" then "1e-6" else
  if String.eqb name "Nsims" then "1" else
  if String.eqb name "Nsims2" then "1" else
  if String.eqb name "batchIndex" then batchIndex else
  if String.eqb name "batchDestination" then "10" else
  if String.eqb name "frequency1" then frequency1 else
  if String.eqb name "delay1" then "5.0" else
  "0".

(** A manifest of 57 lines, each with a number. *)
Definition lines57 : list string := repeat (manifest_line "1") 57.

(** A blob of [n] doubles with the patterns [seed], [seed+1], ... *)
Definition byte_of (k : nat) : byte := default x00 (Byte.of_nat (k mod 256)).

Definition blob (seed n : nat) : list byte :=
  flat_map (fun k => byte_of (seed + k) :: repeat x00 7) (seq 0 n).

Definition manifest_file (frequency1 batchIndex : string) : file :=
  Plain (list_byte_of_string (manifest_text (single_point frequency1 batchIndex))).

(** Two single-point shards as flat files: 128 field doubles and 15
    spectrum doubles each, [frequency1] 100 and 200. *)
Definition shard0 : list byte * list byte := (blob 0 128, blob 100 15).
Definition shard1 : list byte * list byte := (blob 128 128, blob 200 15).

Definition flat_shards : gmap string file :=
  list_to_map
    [("R0000.txt", manifest_file "100" "9");
     ("R0000_Ext.dat", Plain (fst shard0));
     ("R0000_spectrum.dat", Plain (snd shard0));
     ("R0001.txt", manifest_file "200" "9");
     ("R0001_Ext.dat", Plain (fst shard1));
     ("R0001_spectrum.dat", Plain (snd shard1))].

(** The same with one double too many at the end of the first
    spectrum. *)
Definition shard0_long : list byte * list byte := (blob 0 128, blob 100 16).

Definition flat_shards_long : gmap string file :=
  <["R0000_spectrum.dat" := Plain (snd shard0_long)]> flat_shards.

(** The two shards as archives. *)
Definition entries_of (base : string) (frequency1 : string)
    (sh : list byte * list byte) : gmap string (list byte) :=
  list_to_map
    [(base +:+ ".txt",
      list_byte_of_string (manifest_text (single_point frequency1 "9")));
     (base +:+ "_Ext.dat", fst sh);
     (base +:+ "_spectrum.dat", snd sh)].

Definition archive_of (base : string) (frequency1 : string)
    (sh : list byte * list byte) : file :=
  Zip (entries_of base frequency1 sh).

Definition zip_shards : gmap string file :=
  list_to_map
    [("R0000.zip", archive_of "R0000" "100" shard0);
     ("R0001.zip", archive_of "R0001" "200" shard1)].

Definition shards : list Spec.shard :=
  [Spec.mkshard "R0000" (fst shard0) (snd shard0);
   Spec.mkshard "R0001" (fst shard1) (snd shard1)].

(** A single point whose primary scan is over batch index 16. *)
Definition scan16 : gmap string file :=
  list_to_map
    [("S.txt", manifest_file "100" "16");
     ("S_Ext.dat", Plain (fst shard0));
     ("S_spectrum.dat", Plain (snd shard0))].

(** The same for the secondary scan. *)
Definition scan16_second : gmap string file :=
  list_to_map
    [("S.txt",
      Plain (list_byte_of_string
               (manifest_text
                  (fun name => if String.eqb name "batchIndex2" then "16"
                               else single_point "100" "0" name))));
     ("S_Ext.dat", Plain (fst shard0));
     ("S_spectrum.dat", Plain (snd shard0))].

(** An object with the integer attributes of the 8 by 8 single point. *)
Definition grid8 : obj :=
  mkobj (list_to_map
           [("symmetryType", VInt 0); ("Ntime", VInt 8); ("Nspace", VInt 8);
            ("Nspace2", VInt 1); ("Nsims", VInt 1); ("Nsims2", VInt 1);
            ("Ngrid", VInt 64); ("Nfreq", VInt 5);
            ("timeStep", VFloat 1); ("spatialStep", VFloat 1)]) [].





End Ex.

(** * Further parts of the module

    The functions of [LightwaveExplorer.py] beside the loader that work
    on numbers alone.  A one-dimensional float array is a [list Q], a
    two-dimensional one the list of its rows. *)

From Stdlib Require Import Qminmax Qabs Lqa.

Module Tools.

Local Open Scope Q_scope.

(** [v.max()]: [ValueError] on an array without elements. *)
Definition np_max (v : list Q) : py Q :=
  match v with
  | [] => Raise ValueError
  | x :: l => Ok (foldl Qmax x l)
  end.

(** [v / m] for an array and a number.  NumPy divides by zero with a
    warning and gives [inf] or [nan], which are outside the model. *)
Definition np_divide (v : list Q) (m : Q) : py (list Q) :=
  if Qeq_bool m 0 then Raise NotModelled
  else Ok (map (fun x => x / m) v).

(** [norma(v)]: [v/v.max()] *)
Definition norma (v : list Q) : py (list Q) :=
  m ← np_max v;
  np_divide v m.

(** [normaM(v)] for a two-dimensional [v]: [out = np.zeros(np.shape(v))]
    and [out[i,:] = norma(v[i,:])] for every [i] below the first
    extent. *)
Definition normaM (v : list (list Q)) : py (list (list Q)) :=
  let out := map (fun row => map (fun _ => 0) row) v in
  py_foldl (fun out i =>
              row ← of_option IndexError (v !! i);
              r ← norma row;
              Ok (<[i := r]> out))
           out (seq 0 (length v)).

(** An index into an axis of extent [n]; negative indices count from
    the end. *)
Definition np_index (n : nat) (i : Z) : py nat :=
  if ((0 <=? i) && (i <? Z.of_nat n))%Z then Ok (Z.to_nat i)
  else if ((- Z.of_nat n <=? i) && (i <? 0))%Z
       then Ok (Z.to_nat (Z.of_nat n + i))
       else Raise IndexError.

Fixpoint py_mapM {A B} (f : A -> py B) (l : list A) : py (list B) :=
  match l with
  | [] => Ok []
  | a :: l' => b ← f a; bs ← py_mapM f l'; Ok (b :: bs)
  end.

(** [startingCoefficients[activeElements]], the point [sellmeierFit]
    starts the fit from. *)
Definition take_active (startingCoefficients : list Q)
    (activeElements : list Z) : py (list Q) :=
  py_mapM (fun a =>
             j ← np_index (length startingCoefficients) a;
             of_option IndexError (startingCoefficients !! j))
          activeElements.

(** [expandCoeffs(x)] of [sellmeierFit]: a copy of the starting
    coefficients with [x1[activeElements[i]] = x[i]] for every [i]. *)
Definition expandCoeffs (startingCoefficients : list Q)
    (activeElements : list Z) (x : list Q) : py (list Q) :=
  py_foldl (fun x1 i =>
              xi ← of_option IndexError (x !! i);
              a ← of_option IndexError (activeElements !! i);
              j ← np_index (length x1) a;
              Ok (<[j := xi]> x1))
           startingCoefficients (seq 0 (length activeElements)).

(** [range(a, b)] *)
Definition range (a b : Z) : list Z :=
  map (fun k => (a + Z.of_nat k)%Z) (seq 0 (Z.to_nat (b - a))).

(** [n0 = 2 * (int)(round(0.5 * x / h))] of [deviceDawson], with
    [h = 0.3]; [round] rounds halves to the even neighbour. *)
Definition dawson_h : Q := 3 # 10.

Definition dawson_n0 (x : Q) : Z :=
  (2 * LWE.np_round ((1 # 2) * x / dawson_h))%Z.

(** The series [deviceDawson] uses for small arguments. *)
Definition dawson_series (x : Q) : Q :=
  let x2 := x * x in
  let x4 := x2 * x2 in
  x * (1 - 2 * x2 / 3 + 4 * x4 / 15 - 8 * x2 * x4 / 105
       + (16 / 945) * x4 * x4 - (32 / 10395) * x4 * x4 * x2).

(** [deviceDawson(x)], with [np.exp] and the constant
    [np.sqrt(np.pi)] as parameters. *)
Definition deviceDawson (exp : Q -> Q) (sqrt_pi : Q) (x : Q) : Q :=
  let n := 15%Z in
  let h := dawson_h in
  if Qlt_le_dec (Qabs x) (2 # 10) then dawson_series x
  else
    let n0 := dawson_n0 x in
    let x0 := h * inject_Z n0 in
    let xp := x - x0 in
    let d :=
      foldl (fun d i =>
               if Z.eqb (i mod 2) 0 then d
               else d + exp (- (xp - inject_Z i * h) * (xp - inject_Z i * h))
                        / inject_Z (i + n0))
            0 (range (- n) n) in
    d / sqrt_pi.

End Tools.

(** ** Coefficients from refractiveindex.info

    [getSellmeierFromRII] after the download: its input is the list
    [RIIobj["DATA"]] of the parsed YAML document, every entry with its
    ["type"] and, where the entry has one, its ["coefficients"] as the
    numbers [np.fromstring(..., sep=' ')] reads from it. *)

Module RII.

Local Open Scope string_scope.

Record entry := mk_entry {
  type : string;
  coefficients : option (list Q)
}.

(** [a.cumsum()] *)
Fixpoint cumsum_from (acc : Z) (l : list Z) : list Z :=
  match l with
  | [] => []
  | x :: l' => (acc + x)%Z :: cumsum_from (acc + x) l'
  end.

Definition cumsum (l : list Z) : list Z := cumsum_from 0 l.

(** [a.argmax()] for an array of booleans: the first [True], 0
    without one, [ValueError] on an empty array. *)
Fixpoint first_true (l : list bool) : option nat :=
  match l with
  | [] => None
  | b :: l' => if b then Some 0%nat else S <$> first_true l'
  end.

Definition argmax (l : list bool) : py nat :=
  match l with
  | [] => Raise ValueError
  | _ => Ok (default 0%nat (first_true l))
  end.

(** [((types == t).cumsum().cumsum() == 1).argmax()] *)
Definition firstTrue (types : list string) (t : string) : py nat :=
  argmax (map (fun c => (c =? 1)%Z)
            (cumsum (cumsum (map (fun ty => if String.eqb ty t
                                            then 1%Z else 0%Z) types)))).

(** [RIIobj["DATA"][firstTrue]["coefficients"]] *)
Definition coefficients_at (DATA : list entry) (i : nat) : py (list Q) :=
  e ← of_option IndexError (DATA !! i);
  of_option KeyError (coefficients e).

(** [a[i]] and [a[i] = x] for [0 <= i]. *)
Definition item (a : list Q) (i : nat) : py Q :=
  of_option IndexError (a !! i).

Definition setitem (a : list Q) (i : nat) (x : Q) : py (list Q) :=
  if (i <? length a)%nat then Ok (<[i := x]> a) else Raise IndexError.

(** [int(np.floor((size - 1) / d))] *)
Definition resonances (size : nat) (d : Z) : Z :=
  ((Z.of_nat size - 1) / d)%Z.

(** The branches for the dispersion formulas 1 and 2; [square] tells
    them apart. *)
Definition from_formula12 (square : bool) (c : list Q) : py (list Q) :=
  let r := repeat 0%Q 22 in
  c0 ← item c 0;
  r ← setitem r 0 (c0 + 1)%Q;
  py_foldl (fun r i =>
              x ← item c (1 + 2 * i);
              r ← setitem r (i * 3 + 2) x;
              y ← item c (2 + 2 * i);
              setitem r (i * 3 + 3)
                (if square then - (y ^ 2) else - y)%Q)
           r (seq 0 (Z.to_nat (Z.min 7 (resonances (length c) 2)))).

(** The branch for the dispersion formula 4, with the power of two
    floats as a parameter. *)
Definition from_formula4 (pow : Q -> Q -> Q) (c : list Q) : py (list Q) :=
  let r := repeat 0%Q 22 in
  c0 ← item c 0;
  r ← setitem r 0 c0;
  r ← py_foldl (fun r i =>
                  z ← item c (2 + 4 * i);
                  x ← item c (1 + 4 * i);
                  r ← (if Qeq_bool z 0 then setitem r (i * 3 + 1) x
                       else setitem r (i * 3 + 2) x);
                  b ← item c (3 + 4 * i);
                  e ← item c (4 + 4 * i);
                  setitem r (i * 3 + 3) (- pow b e)%Q)
               r (seq 0 (Z.to_nat (Z.min (resonances (length c) 4) 2)));
  if (5 <? length c)%nat then
    py_foldl (fun r i =>
                p ← item c (5 + 2 * i + 1);
                r ← (if Qeq_bool p 2 then
                       x ← item c (5 + 2 * i); setitem r 13 x
                     else Ok r);
                p ← item c (5 + 2 * i + 1);
                r ← (if Qeq_bool p 4 then
                       x ← item c (5 + 2 * i); setitem r 14 x
                     else Ok r);
                p ← item c (5 + 2 * i + 1);
                if Qeq_bool p 6 then
                  x ← item c (5 + 2 * i); setitem r 15 x
                else Ok r)
             r (seq 0 (Z.to_nat ((Z.of_nat (length c) - 5) / 2)))
  else Ok r.

Definition has_type (types : list string) (t : string) : bool :=
  existsb (String.eqb t) types.

(** [getSellmeierFromRII] on the parsed document. *)
Definition getSellmeierFromRII (pow : Q -> Q -> Q) (DATA : list entry)
  : py (list Q) :=
  let types := map type DATA in
  if has_type types "formula 1" then
    i ← firstTrue types "formula 2";
    c ← coefficients_at DATA i;
    from_formula12 true c
  else if has_type types "formula 2" then
    i ← firstTrue types "formula 2";
    c ← coefficients_at DATA i;
    from_formula12 false c
  else if has_type types "formula 4" then
    i ← firstTrue types "formula 4";
    c ← coefficients_at DATA i;
    from_formula4 pow c
  else Ok (repeat 0%Q 22).

End RII.

(** ** Further vocabulary *)

Module Spec2.

Local Open Scope string_scope.

(** The attributes that hold the field. *)
Definition field_name (name : string) : Prop :=
  name = "Ext_x" \/ name = "Ext_y".

(** The object without its field arrays. *)
Definition without_field (o : obj) : obj :=
  mkobj (delete "Ext_y" (delete "Ext_x" (attrs o))) (bufs o).

(** The object has no field arrays. *)
Definition lacks_field (o : obj) : Prop :=
  attrs o !! "Ext_x" = None /\ attrs o !! "Ext_y" = None.

(** The value [batchStart] gets in a branch of the scan table: the
    attribute the branch names, or the literal 0. *)
Definition branch_start (self : obj) (source : option string)
    (start : value) : Prop :=
  match source with
  | Some name => attrs self !! name = Some start
  | None => start = VInt 0
  end.

(** [batchDestination] after the branch has rescaled it. *)
Definition scaled_destination (factor : option Q) (destination : Q) : Q :=
  match factor with
  | Some c => (destination * c)%Q
  | None => destination
  end.

(** What the loop of [loadSplit] keeps: the scanned attribute [v],
    [batchStart], and a batch vector of [j] entries that are all the
    number [x]. *)
Definition repeats (batchType : string) (v : value) (x : Q) (j : nat)
    (o : obj) : Prop :=
  attrs o !! batchType = Some v
  /\ attrs o !! "batchStart" = Some v
  /\ exists bv, attrs o !! "batchVector" = Some bv
                /\ LWE.ravel o bv = Ok (replicate j x).

(** [(2k+1)!!] *)
Fixpoint odd_factorial (k : nat) : Z :=
  match k with
  | O => 1
  | S k' => (2 * Z.of_nat k + 1) * odd_factorial k'
  end.

(** The Maclaurin series of the Dawson function up to [terms]
    terms: the sum of [(-2)^k / (2k+1)!! * x^(2k+1)]. *)
Definition dawson_maclaurin (terms : nat) (x : Q) : Q :=
  foldr (fun k acc =>
           (inject_Z ((-2) ^ Z.of_nat k) / inject_Z (odd_factorial k)
            * x ^ (2 * Z.of_nat k + 1) + acc)%Q)
        0%Q (seq 0 terms).

(** Every array of stored doubles of the instance has as many elements
    as its shape counts. *)
Definition data_wf (o : obj) : Prop :=
  forall name a, attrs o !! name = Some (VData a) -> Spec.wf a.

(** The arrays [loadSplit] stacks: the field on a new last axis, the
    spectra on a new first one. *)
Definition field_names : list string := ["Ext_x"; "Ext_y"].

Definition spectrum_names : list string :=
  ["spectrum_x"; "spectrum_y"; "spectrumTotal"].

(** The axis of the shards in the stacked array [name], for the array
    [v] of one shard, and the shape of the stacked array for [n]
    shards. *)
Definition stack_axis (name : string) (v : Np.ndarray) : nat :=
  if bool_decide (name ∈ field_names) then length (Np.shape v) else 0%nat.

Definition stacked_shape (name : string) (v : Np.ndarray) (n : nat)
  : list nat :=
  if bool_decide (name ∈ field_names) then (Np.shape v ++ [n])%list
  else n :: Np.shape v.

(** The axis the loop of [loadSplit] writes [name] on, and the number
    of axes the stacked array has. *)
Definition loop_axis (stackAxis : nat) (name : string) : nat :=
  if bool_decide (name ∈ field_names)
  then (if (stackAxis =? 2)%nat then 2%nat else 3%nat)
  else 0%nat.

Definition loop_rank (stackAxis : nat) (name : string) : nat :=
  if bool_decide (name ∈ field_names)
  then S (if (stackAxis =? 2)%nat then 2%nat else 3%nat)
  else 2%nat.

(** The slots below [j] of the stacked array [a] hold the arrays [name]
    of the shards that have the shape of a slot. *)
Definition slots_hold (fs : gmap string file) (names : list string)
    (name : string) (ax j : nat) (a : Np.ndarray) : Prop :=
  forall i fname shard v,
    (i < j)%nat -> names !! i = Some fname ->
    LWE.load fs fname true = Ok shard ->
    LWE.get_data shard name = Ok v ->
    Np.shape v = (take ax (Np.shape a) ++ drop (S ax) (Np.shape a))%list ->
    Np.index_axis ax i a = Ok v.

Definition stacked (fs : gmap string file) (names : list string)
    (stackAxis : nat) (name : string) (j : nat) (o : obj) : Prop :=
  exists a,
    attrs o !! name = Some (VData a)
    /\ length (Np.shape a) = loop_rank stackAxis name
    /\ slots_hold fs names name (loop_axis stackAxis name) j a.

End Spec2.

(** ** Further concrete inputs *)

Module Ex2.

Local Open Scope string_scope.

(** An object about to scan [delay1] from 5 s to 20 fs in four
    steps. *)
Definition scan_delay : obj :=
  mkobj (list_to_map
           [("batchIndex", VInt 9); ("delay1", VFloat 5);
            ("batchDestination", VFloat 20); ("Nsims", VInt 4)]) [].

(** An object whose batch index is not in the table. *)
Definition scan_unknown : obj :=
  mkobj (list_to_map
           [("batchIndex", VInt 38); ("batchDestination", VFloat 20);
            ("Nsims", VInt 4)]) [].

End Ex2.

(** * Proofs *)

(** One step of a computation in [py]. *)
Ltac py_step := cbn [mbind py_mbind py_bind of_option mret py_mret].

(** * Arrays: positions and indices *)

Section np_facts.

Import Np Spec.
Local Open Scope nat_scope.

Implicit Types (sh ix : list nat) (a : ndarray).

Local Arguments size : simpl never.

Lemma mod_add_small i n q : i < n -> (i + n * q) mod n = i.
Proof.
  intros Hi. rewrite (Nat.mul_comm n q), Nat.Div0.mod_add.
  by apply Nat.mod_small.
Qed.

Lemma div_add_small i n q : i < n -> (i + n * q) / n = q.
Proof.
  intros Hi. rewrite (Nat.mul_comm n q), Nat.div_add by lia.
  rewrite Nat.div_small by done. reflexivity.
Qed.

Lemma size_cons n sh : size (n :: sh) = n * size sh.
Proof. reflexivity. Qed.

Lemma size_app sh1 sh2 : size (sh1 ++ sh2) = size sh1 * size sh2.
Proof.
  induction sh1 as [|n sh1 IH]; simpl.
  - change (size []) with 1. simpl. lia.
  - rewrite !size_cons, IH. lia.
Qed.

Lemma in_bounds_nil : in_bounds [] [] = true.
Proof. reflexivity. Qed.

Lemma in_bounds_cons n sh i ix :
  in_bounds (n :: sh) (i :: ix) = (i <? n) && in_bounds sh ix.
Proof.
  unfold in_bounds. simpl.
  destruct (length ix =? length sh), (i <? n); reflexivity.
Qed.

Lemma in_bounds_length sh ix : in_bounds sh ix = true -> length ix = length sh.
Proof.
  unfold in_bounds. intros H. apply andb_prop in H as [H _].
  by apply Nat.eqb_eq.
Qed.

Lemma in_bounds_inv_cons n sh jx :
  in_bounds (n :: sh) jx = true ->
  exists i ix, jx = i :: ix /\ i < n /\ in_bounds sh ix = true.
Proof.
  destruct jx as [|i ix]; [discriminate|].
  rewrite in_bounds_cons. intros [H1 H2]%andb_prop.
  exists i, ix. split_and!; [done| by apply Nat.ltb_lt | done].
Qed.

Lemma in_bounds_inv_nil jx : in_bounds [] jx = true -> jx = [].
Proof. destruct jx; [done | discriminate]. Qed.

Lemma in_bounds_app sh1 sh2 ix1 ix2 :
  in_bounds sh1 ix1 = true -> in_bounds sh2 ix2 = true ->
  in_bounds (sh1 ++ sh2) (ix1 ++ ix2) = true.
Proof.
  revert ix1. induction sh1 as [|n sh1 IH]; intros ix1 H1 H2.
  - apply in_bounds_inv_nil in H1 as ->. done.
  - apply in_bounds_inv_cons in H1 as (i & ix & -> & Hi & Hix).
    simpl. rewrite in_bounds_cons, IH by done.
    by apply Nat.ltb_lt in Hi as ->.
Qed.

Lemma in_bounds_app_inv sh1 sh2 jx :
  in_bounds (sh1 ++ sh2) jx = true ->
  exists ix1 ix2, jx = ix1 ++ ix2 /\ in_bounds sh1 ix1 = true
                  /\ in_bounds sh2 ix2 = true.
Proof.
  revert jx. induction sh1 as [|n sh1 IH]; intros jx H.
  - exists [], jx. done.
  - simpl in H. apply in_bounds_inv_cons in H as (i & ix & -> & Hi & Hix).
    destruct (IH _ Hix) as (ix1 & ix2 & -> & H1 & H2).
    exists (i :: ix1), ix2. split_and!; [done | | done].
    rewrite in_bounds_cons, H1. by apply Nat.ltb_lt in Hi as ->.
Qed.

Lemma offset_lt sh ix : in_bounds sh ix = true -> offset sh ix < size sh.
Proof.
  revert ix. induction sh as [|n sh IH]; intros ix H.
  - simpl. change (size []) with 1. lia.
  - apply in_bounds_inv_cons in H as (i & ix' & -> & Hi & Hix).
    simpl. rewrite size_cons. specialize (IH _ Hix). nia.
Qed.

Lemma unravel_offset sh ix :
  in_bounds sh ix = true -> unravel sh (offset sh ix) = ix.
Proof.
  revert ix. induction sh as [|n sh IH]; intros ix H.
  - by apply in_bounds_inv_nil in H as ->.
  - apply in_bounds_inv_cons in H as (i & ix' & -> & Hi & Hix).
    simpl. f_equal.
    + by apply mod_add_small.
    + rewrite div_add_small by done. by apply IH.
Qed.

Lemma in_bounds_unravel sh j :
  j < size sh -> in_bounds sh (unravel sh j) = true.
Proof.
  revert j. induction sh as [|n sh IH]; intros j Hj; [done|].
  rewrite size_cons in Hj. simpl. rewrite in_bounds_cons.
  assert (n <> 0) by (intros ->; lia).
  rewrite IH.
  - rewrite andb_true_r. apply Nat.ltb_lt. by apply Nat.mod_upper_bound.
  - apply Nat.Div0.div_lt_upper_bound. lia.
Qed.

Lemma offset_unravel sh j : j < size sh -> offset sh (unravel sh j) = j.
Proof.
  revert j. induction sh as [|n sh IH]; intros j Hj.
  - change (size []) with 1 in Hj. simpl. lia.
  - rewrite size_cons in Hj. simpl.
    rewrite IH by (apply Nat.Div0.div_lt_upper_bound; lia).
    pose proof (Nat.div_mod_eq j n). lia.
Qed.

Lemma length_unravel sh j : length (unravel sh j) = length sh.
Proof. revert j. induction sh; intros; simpl; auto. Qed.

Lemma offset_app sh1 sh2 ix1 ix2 :
  length ix1 = length sh1 ->
  offset (sh1 ++ sh2) (ix1 ++ ix2)
  = offset sh1 ix1 + size sh1 * offset sh2 ix2.
Proof.
  revert ix1. induction sh1 as [|n sh1 IH]; intros [|i ix1] H;
    try discriminate.
  - simpl. change (size []) with 1. lia.
  - simpl. rewrite IH by (simpl in H; lia). rewrite size_cons. lia.
Qed.

Lemma unravel_app sh1 sh2 j :
  unravel (sh1 ++ sh2) j
  = unravel sh1 (j mod size sh1) ++ unravel sh2 (j / size sh1).
Proof.
  revert j. induction sh1 as [|n sh1 IH]; intros j.
  - change (size []) with 1. by rewrite Nat.div_1_r.
  - simpl. rewrite size_cons, IH. f_equal; [|f_equal].
    + rewrite Nat.Div0.mod_mul_r.
      destruct (decide (n = 0)) as [->|Hn]; [done|].
      symmetry. apply mod_add_small. by apply Nat.mod_upper_bound.
    + f_equal. rewrite Nat.Div0.mod_mul_r.
      destruct (decide (n = 0)) as [->|Hn];
        [by rewrite !Nat.div_0_r, Nat.Div0.mod_0_l|].
      symmetry. apply div_add_small. by apply Nat.mod_upper_bound.
    + by rewrite Nat.Div0.div_div.
Qed.

(** *** Reading an element *)

Lemma get_nth a ix :
  wf a -> in_bounds (shape a) ix = true ->
  get a ix = Some (nth (offset (shape a) ix) (data a) 0%N).
Proof.
  intros Hwf Hix. unfold get. rewrite Hix.
  pose proof (offset_lt _ _ Hix) as Hlt. rewrite <- Hwf in Hlt.
  apply lookup_lt_is_Some_2 in Hlt as [x Hx].
  rewrite Hx. f_equal. symmetry. by apply nth_lookup_Some with (d := 0%N).
Qed.

Lemma gather_wf sh f a : wf (gather sh f a).
Proof. unfold wf, gather. simpl. by rewrite length_map, length_seq. Qed.

Lemma shape_gather sh f a : shape (gather sh f a) = sh.
Proof. reflexivity. Qed.

Lemma nth_map_seq {A} (g : nat -> A) n j d :
  j < n -> nth j (map g (seq 0 n)) d = g j.
Proof.
  intros Hj. rewrite nth_lookup, list_lookup_fmap, lookup_seq_lt by done.
  reflexivity.
Qed.

Lemma get_gather sh f a ix :
  in_bounds sh ix = true ->
  get (gather sh f a) ix
  = Some (nth (offset (shape a) (f ix)) (data a) 0%N).
Proof.
  intros Hix. rewrite get_nth by (done || apply gather_wf).
  simpl. rewrite nth_map_seq by by apply offset_lt.
  by rewrite unravel_offset.
Qed.

Lemma ndarray_ext a b :
  wf a -> wf b -> shape a = shape b ->
  (forall ix, in_bounds (shape a) ix = true -> get a ix = get b ix) ->
  a = b.
Proof.
  destruct a as [sa da], b as [sb db]. unfold wf. simpl.
  intros Ha Hb <- Hget. f_equal.
  apply nth_ext with (d := 0%N) (d' := 0%N); [lia|].
  intros j Hj. rewrite Ha in Hj.
  specialize (Hget (unravel sa j) (in_bounds_unravel _ _ Hj)).
  rewrite !get_nth in Hget by (done || by apply in_bounds_unravel).
  simpl in Hget. rewrite offset_unravel in Hget by done. congruence.
Qed.

End np_facts.

(** * Arrays: the operations of the loader *)

Section np_ops.

Import Np Spec.
Local Open Scope nat_scope.

Implicit Types (sh ix g gi : list nat) (a : ndarray).

Local Arguments size : simpl never.

Lemma data_gather_nth sh f a o :
  o < size sh ->
  nth o (data (gather sh f a)) 0%N
  = nth (offset (shape a) (f (unravel sh o))) (data a) 0%N.
Proof. intros Ho. unfold gather. simpl. by rewrite nth_map_seq. Qed.

(** *** [reshape] and the slice that precedes it *)

Lemma slice_to_nat {A} (n : nat) (l : list A) :
  slice_to (Z.of_nat n) l = take n l.
Proof.
  unfold slice_to. destruct (Z.leb_spec 0 (Z.of_nat n)); [|lia].
  by rewrite Nat2Z.id.
Qed.

Lemma reshape_nat (v : list f64) sh :
  reshape v (map Z.of_nat sh)
  = if size sh =? length v then Ok (mk sh v) else Raise ValueError.
Proof.
  unfold reshape.
  assert (Hf : filter (fun d => (0 <=? d)%Z) (map Z.of_nat sh)
               = map Z.of_nat sh).
  { induction sh as [|n sh IH]; [done|]. simpl.
    rewrite filter_cons. destruct (decide _) as [_|Hn].
    - by rewrite IH.
    - exfalso. apply Hn. apply Is_true_true. apply Z.leb_le. lia. }
  rewrite Hf, Nat.sub_diag.
  assert (Hm : map Z.to_nat (map Z.of_nat sh) = sh).
  { rewrite map_map. erewrite map_ext; [apply map_id|].
    intros n. apply Nat2Z.id. }
  by rewrite Hm.
Qed.

(** *** Slices along the axis after a grid *)

Lemma nth_app_length {A} (l r : list A) d :
  nth (length l) (l ++ r) d = nth 0 r d.
Proof. rewrite app_nth2 by lia. by rewrite Nat.sub_diag. Qed.

Lemma set_nth_app_length {A} (l : list A) x y r :
  set_nth (length l) x (l ++ y :: r) = l ++ x :: r.
Proof.
  unfold set_nth. rewrite take_app_length.
  rewrite (cons_middle y l r), app_assoc.
  replace (S (length l)) with (length (l ++ [y]))
    by (rewrite length_app; simpl; lia).
  by rewrite drop_app_length.
Qed.

Lemma slice_indices_even N :
  slice_indices 0 (2 * Z.of_nat N) 2 (2 * N)
  = map (fun i => 2 * i) (seq 0 N).
Proof.
  unfold slice_indices, clip.
  destruct (Z.ltb_spec 0 0); [lia|].
  destruct (Z.ltb_spec (2 * Z.of_nat N) 0); [lia|].
  replace (Z.to_nat (2 * Z.of_nat N)) with (2 * N) by lia.
  rewrite Nat.min_id. change (Z.to_nat 0) with 0. rewrite Nat.min_0_l.
  replace ((2 * N - 0 + (2 - 1)) / 2) with N.
  - apply map_ext. intros; lia.
  - replace (2 * N - 0 + (2 - 1)) with (1 + 2 * N) by lia.
    by rewrite div_add_small by lia.
Qed.

Lemma slice_indices_odd N :
  slice_indices 1 (2 * Z.of_nat N + 1) 2 (2 * N)
  = map (fun i => 1 + 2 * i) (seq 0 N).
Proof.
  unfold slice_indices, clip.
  destruct (Z.ltb_spec 1 0); [lia|].
  destruct (Z.ltb_spec (2 * Z.of_nat N + 1) 0); [lia|].
  replace (Z.to_nat (2 * Z.of_nat N + 1)) with (2 * N + 1) by lia.
  change (Z.to_nat 1) with 1.
  destruct N as [|N].
  - reflexivity.
  - replace (Nat.min 1 (2 * S N)) with 1 by lia.
    replace (Nat.min (2 * S N + 1) (2 * S N)) with (2 * S N) by lia.
    replace ((2 * S N - 1 + (2 - 1)) / 2) with (S N).
    + apply map_ext. intros; lia.
    + replace (2 * S N - 1 + (2 - 1)) with (0 + 2 * S N) by lia.
      by rewrite div_add_small by lia.
Qed.

(** The position read for position [o] of a slice taken on the axis
    that follows the grid [g], in an array of shape [g ++ [n; m]]. *)
Lemma slice_axis_nth g n m start stop step a o :
  shape a = g ++ [n; m] ->
  let sel := slice_indices start stop step n in
  o < size g * (length sel * m) ->
  nth o (data (slice_axis (length g) start stop step a)) 0%N
  = nth (o mod size g
         + size g * (nth ((o / size g) mod length sel) sel 0
                     + n * (o / size g / length sel)))
        (data a) 0%N.
Proof.
  intros Hsh sel Ho. unfold slice_axis.
  rewrite Hsh, nth_app_length. simpl nth. fold sel.
  rewrite set_nth_app_length.
  assert (Hsz : size (g ++ [length sel; m]) = size g * (length sel * m)).
  { rewrite size_app. f_equal. rewrite !size_cons.
    change (size []) with 1. lia. }
  rewrite nth_map_seq by (rewrite Hsz; done).
  rewrite Hsh. f_equal.
  rewrite unravel_app. simpl unravel.
  assert (HG : 0 < size g) by (destruct (size g); lia).
  assert (Hs : 0 < length sel) by (destruct (length sel); lia).
  assert (Hm : 0 < m) by (destruct m; lia).
  set (p := o mod size g). set (q := o / size g).
  assert (Hp : p < size g) by (apply Nat.mod_upper_bound; lia).
  assert (Hq : q < length sel * m).
  { apply Nat.Div0.div_lt_upper_bound. lia. }
  assert (Hlen : length (unravel g p) = length g) by apply length_unravel.
  rewrite <- Hlen at 1 2. rewrite nth_app_length. simpl nth.
  rewrite set_nth_app_length. rewrite offset_app by done.
  rewrite offset_unravel by done. f_equal. f_equal.
  simpl offset.
  assert (Hqq : (q / length sel) mod m = q / length sel).
  { apply Nat.mod_small. apply Nat.Div0.div_lt_upper_bound. lia. }
  rewrite Hqq. lia.
Qed.

Lemma shape_slice_axis g n m start stop step a :
  shape a = g ++ [n; m] ->
  shape (slice_axis (length g) start stop step a)
  = g ++ [length (slice_indices start stop step n); m].
Proof.
  intros Hsh. unfold slice_axis. simpl.
  by rewrite Hsh, nth_app_length, set_nth_app_length.
Qed.

Lemma slice_axis_wf ax start stop step a :
  wf (slice_axis ax start stop step a).
Proof. apply gather_wf. Qed.

(** *** [squeeze] *)

Lemma size_filter_ne1 sh :
  size (filter (fun n => negb (n =? 1)) sh) = size sh.
Proof.
  induction sh as [|n sh IH]; [done|].
  rewrite filter_cons. destruct (decide _) as [Hn|Hn].
  - by rewrite !size_cons, IH.
  - rewrite size_cons, IH. apply Is_true_false in Hn.
    apply negb_false_iff, Nat.eqb_eq in Hn as ->. lia.
Qed.

Lemma squeeze_wf a : wf a -> wf (squeeze a).
Proof. unfold wf, squeeze. simpl. by rewrite size_filter_ne1. Qed.

(** *** An integer index on the last axis *)

Lemma index_axis_last sh n k a :
  shape a = sh ++ [n] -> k < n -> wf a ->
  index_axis (length sh) k a
  = Ok (mk sh (take (size sh) (drop (k * size sh) (data a)))).
Proof.
  intros Hsh Hk Hwf. unfold index_axis.
  rewrite Hsh, nth_app_length. simpl nth.
  apply Nat.ltb_lt in Hk as Hk'. rewrite Hk'. f_equal.
  rewrite take_app_length.
  replace (S (length sh)) with (length (sh ++ [n]))
    by (rewrite length_app; simpl; lia).
  rewrite drop_all. rewrite app_nil_r.
  unfold gather. f_equal.
  unfold wf in Hwf. rewrite Hsh, size_app, size_cons in Hwf.
  change (size []) with 1 in Hwf.
  apply nth_ext with (d := 0%N) (d' := 0%N).
  - rewrite length_map, length_seq, length_take, length_drop. nia.
  - intros j Hj. rewrite length_map, length_seq in Hj.
    rewrite nth_map_seq by done.
    rewrite Hsh.
    pose proof (length_unravel sh j) as Hlen.
    rewrite take_ge, drop_ge by lia.
    rewrite offset_app by done.
    rewrite offset_unravel by done. simpl offset.
    rewrite !nth_lookup, lookup_take_lt, lookup_drop by done.
    do 2 f_equal. lia.
Qed.

End np_ops.

(** * The field blob *)

Section field.

Import Np LWE Spec.
Local Open Scope nat_scope.

Implicit Types (sh ix g gi : list nat) (a : ndarray).

Local Arguments size : simpl never.

Lemma squeeze_index_cons n sh i ix :
  squeeze_index (n :: sh) (i :: ix)
  = if n =? 1 then squeeze_index sh ix else i :: squeeze_index sh ix.
Proof.
  unfold squeeze_index. simpl zip. rewrite filter_cons. simpl snd.
  by destruct (n =? 1).
Qed.

Lemma squeeze_index_spec sh ix :
  in_bounds sh ix = true ->
  in_bounds (filter (fun n => negb (n =? 1)) sh) (squeeze_index sh ix) = true
  /\ offset (filter (fun n => negb (n =? 1)) sh) (squeeze_index sh ix)
     = offset sh ix.
Proof.
  revert ix. induction sh as [|n sh IH]; intros ix H.
  - by apply in_bounds_inv_nil in H as ->.
  - apply in_bounds_inv_cons in H as (i & ix' & -> & Hi & Hix).
    destruct (IH _ Hix) as [IH1 IH2].
    rewrite squeeze_index_cons, filter_cons.
    destruct (Nat.eqb_spec n 1) as [->|Hn]; simpl.
    + split; [done|]. rewrite IH2. lia.
    + rewrite in_bounds_cons, IH1. simpl. rewrite IH2.
      by apply Nat.ltb_lt in Hi as ->.
Qed.

Lemma get_squeeze a ix :
  wf a -> in_bounds (shape a) ix = true ->
  get (squeeze a) (squeeze_index (shape a) ix) = get a ix.
Proof.
  intros Hwf Hix.
  destruct (squeeze_index_spec _ _ Hix) as [Hb Ho].
  rewrite !get_nth by (done || by apply squeeze_wf).
  simpl. by rewrite Ho.
Qed.

Lemma size_field_shape g Nsims Nsims2 :
  size (g ++ [2 * Nsims; Nsims2]) = size g * (2 * Nsims * Nsims2).
Proof.
  rewrite size_app, !size_cons. change (size []) with 1. lia.
Qed.

Lemma Ext_of_wf g Nsims Nsims2 raw :
  size g * (2 * Nsims * Nsims2) <= length raw ->
  wf (Ext_of g Nsims Nsims2 raw).
Proof.
  intros H. unfold wf, Ext_of. cbn [shape data].
  rewrite size_field_shape, length_take. lia.
Qed.

Lemma field_shape_nat vol Ntime Nspace Nspace2 Nsims Nsims2 :
  field_shape vol (Z.of_nat Ntime) (Z.of_nat Nspace) (Z.of_nat Nspace2)
              (Z.of_nat Nsims) (Z.of_nat Nsims2)
  = map Z.of_nat (grid vol Ntime Nspace Nspace2 ++ [2 * Nsims; Nsims2]).
Proof.
  destruct vol; simpl; rewrite ?Nat.add_0_r, Nat2Z.inj_add;
    repeat f_equal; lia.
Qed.

Lemma field_axis_grid vol Ntime Nspace Nspace2 :
  field_axis vol = length (grid vol Ntime Nspace Nspace2).
Proof. by destruct vol. Qed.

Lemma decode_field_nat vol Ntime Nspace Nspace2 Ngrid Nsims Nsims2 raw :
  let g := grid vol Ntime Nspace Nspace2 in
  Ngrid = size g ->
  decode_field vol (Z.of_nat Ntime) (Z.of_nat Nspace) (Z.of_nat Nspace2)
               (Z.of_nat Ngrid) (Z.of_nat Nsims) (Z.of_nat Nsims2) raw
  = if size g * (2 * Nsims * Nsims2) <=? length raw
    then let Ext := Ext_of g Nsims Nsims2 raw in
         Ok (squeeze (slice_axis (length g) 0 (2 * Z.of_nat Nsims) 2 Ext),
             squeeze (slice_axis (length g) 1 (2 * Z.of_nat Nsims + 1) 2 Ext))
    else Raise ValueError.
Proof.
  intros g ->. unfold decode_field.
  replace (2 * Z.of_nat (size g) * Z.of_nat Nsims * Z.of_nat Nsims2)%Z
    with (Z.of_nat (size g * (2 * Nsims * Nsims2))) by lia.
  rewrite slice_to_nat, field_shape_nat, reshape_nat. fold g.
  rewrite size_field_shape, length_take.
  rewrite (field_axis_grid vol Ntime Nspace Nspace2). fold g.
  destruct (Nat.leb_spec (size g * (2 * Nsims * Nsims2)) (length raw)).
  - rewrite Nat.min_l by done. rewrite Nat.eqb_refl. reflexivity.
  - rewrite Nat.min_r by lia.
    destruct (Nat.eqb_spec (size g * (2 * Nsims * Nsims2)) (length raw));
      [lia | reflexivity].
Qed.

(** An element of a polarisation channel, before and after [squeeze]. *)
Lemma get_field_channel g N M (raw : list f64) c start stop gi k m :
  size g * (2 * N * M) <= length raw ->
  slice_indices start stop 2 (2 * N) = map (fun i => c + 2 * i) (seq 0 N) ->
  c < 2 ->
  in_bounds g gi = true -> k < N -> m < M ->
  get (squeeze (slice_axis (length g) start stop 2 (Ext_of g N M raw)))
      (squeeze_index (g ++ [N; M]) (gi ++ [k; m]))
  = raw !! (offset g gi + size g * (c + 2 * k + 2 * N * m)).
Proof.
  intros Hlen Hsel Hc Hgi Hk Hm.
  set (Ext := Ext_of g N M raw).
  set (S := slice_axis (length g) start stop 2 Ext).
  assert (HshE : shape Ext = g ++ [2 * N; M]) by done.
  assert (HshS : shape S = g ++ [N; M]).
  { unfold S. rewrite (shape_slice_axis g (2 * N) M) by done.
    by rewrite Hsel, length_map, length_seq. }
  assert (Hin : in_bounds (g ++ [N; M]) (gi ++ [k; m]) = true).
  { apply in_bounds_app; [done|].
    rewrite !in_bounds_cons.
    apply Nat.ltb_lt in Hk as ->. by apply Nat.ltb_lt in Hm as ->. }
  rewrite <- HshS. rewrite get_squeeze by (apply slice_axis_wf || by rewrite HshS).
  rewrite get_nth by (apply slice_axis_wf || by rewrite HshS).
  rewrite HshS, offset_app by by apply in_bounds_length.
  simpl offset.
  pose proof (offset_lt _ _ Hgi) as Hp.
  set (p := offset g gi) in *.
  unfold S.
  replace (k + N * (m + M * 0)) with (k + N * m) by lia.
  assert (Hq : k + N * m < N * M) by nia.
  assert (Hpq : p + size g * (k + N * m) < size g * (N * M)) by nia.
  rewrite (slice_axis_nth g (2 * N) M) by
    (done || by rewrite Hsel, length_map, length_seq).
  rewrite Hsel, length_map, length_seq.
  rewrite mod_add_small, div_add_small by done.
  rewrite mod_add_small, div_add_small by done.
  rewrite nth_map_seq by done.
  unfold Ext, Ext_of. simpl data.
  assert (H1 : 2 * N * (m + 1) <= 2 * N * M)
    by (apply Nat.mul_le_mono_l; lia).
  assert (H2 : c + 2 * k + 2 * N * m + 1 <= 2 * N * M) by lia.
  assert (Hpos : p + size g * (c + 2 * k + 2 * N * m)
                 < size g * (2 * N * M)).
  { revert H2 Hp. generalize (c + 2 * k + 2 * N * m) (2 * N * M) (size g).
    intros X T G ? ?. nia. }
  rewrite nth_lookup, lookup_take_lt by done.
  assert (Hlt : p + size g * (c + 2 * k + 2 * N * m) < length raw) by lia.
  apply lookup_lt_is_Some_2 in Hlt as [x Hx].
  by rewrite Hx.
Qed.

End field.

(** * Loading the two binaries *)

Section binaries.

Import Np LWE Spec.
Local Open Scope nat_scope.
Local Open Scope string_scope.

Implicit Types (sh ix g gi : list nat) (a : ndarray) (self : obj).

Local Arguments size : simpl never.

Lemma length_items bs n : length bs = 8 * n -> length (items bs) = n.
Proof.
  revert bs. induction n as [|n IH]; intros bs H.
  - by destruct bs.
  - do 8 (destruct bs as [|? bs]; [simpl in H; lia|]).
    simpl. f_equal. apply IH. simpl in H. lia.
Qed.


Lemma whole_doubles (bs : list byte) n : length bs = 8 * n -> length bs mod 8 = 0.
Proof. intros ->. by rewrite Nat.mul_comm, Nat.Div0.mod_mul. Qed.

(** The doubles the constructor gets: from a flat file always, from an
    archive entry when its size is a multiple of the item size. *)
Lemma read_doubles_items isZip fs archive fileBase suffix bs :
  blob_at isZip fs archive (fileBase +:+ suffix) bs ->
  (isZip = true -> length bs mod 8 = 0) ->
  read_doubles isZip fs archive fileBase suffix = Ok (items bs).
Proof.
  unfold blob_at, read_doubles, zip_read, read_bytes.
  intros Hb Hn. destruct isZip; rewrite Hb; py_step.
  - unfold frombuffer. by rewrite (Hn eq_refl).
  - reflexivity.
Qed.

(** An archive entry with a partial item at its end is refused. *)
Lemma read_doubles_ragged fs archive fileBase suffix bs :
  archive !! (fileBase +:+ suffix) = Some bs ->
  length bs mod 8 <> 0 ->
  read_doubles true fs archive fileBase suffix = Raise ValueError.
Proof.
  unfold read_doubles, zip_read. intros Hb Hn. rewrite Hb. py_step.
  unfold frombuffer. by apply Nat.eqb_neq in Hn as ->.
Qed.

Lemma get_int_lookup self name n :
  attrs self !! name = Some (VInt n) -> get_int self name = Ok n.
Proof. intros H. unfold get_int, getattr. by rewrite H. Qed.

Lemma load_field_decode isZip fs archive fileBase self bs symmetryType
    Ntime Nspace Nspace2 Nsims Nsims2 :
  has_grid self symmetryType Ntime Nspace Nspace2 Nsims Nsims2 ->
  blob_at isZip fs archive (fileBase +:+ "_Ext.dat") bs ->
  (isZip = true -> length bs mod 8 = 0) ->
  load_field isZip fs archive fileBase self
  = '(Ext_x, Ext_y) ←
      decode_field (is_volumetric symmetryType)
        (Z.of_nat Ntime) (Z.of_nat Nspace) (Z.of_nat Nspace2)
        (Z.of_nat (Ntime * Nspace * Nspace2))
        (Z.of_nat Nsims) (Z.of_nat Nsims2) (items bs);
    Ok (setattr (setattr self "Ext_x" (VData Ext_x)) "Ext_y" (VData Ext_y)).
Proof.
  intros (Hs & Ht & Hx & Hx2 & Hn & Hn2 & Hg & _ & _) Hb Hlen.
  unfold load_field.
  rewrite (get_int_lookup _ _ _ Hs). py_step.
  rewrite (read_doubles_items _ _ _ _ _ _ Hb Hlen). py_step.
  rewrite (get_int_lookup _ _ _ Hg), (get_int_lookup _ _ _ Hn),
    (get_int_lookup _ _ _ Hn2), (get_int_lookup _ _ _ Ht),
    (get_int_lookup _ _ _ Hx), (get_int_lookup _ _ _ Hx2).
  reflexivity.
Qed.

Lemma size_grid symmetryType Ntime Nspace Nspace2 :
  (is_volumetric symmetryType = false -> Nspace2 = 1) ->
  size (grid (is_volumetric symmetryType) Ntime Nspace Nspace2)
  = Ntime * Nspace * Nspace2.
Proof.
  intros H. destruct (is_volumetric symmetryType); unfold grid;
    rewrite !size_cons; change (size []) with 1.
  - lia.
  - rewrite (H eq_refl). lia.
Qed.

Lemma divide_8_ne_1 n : Nat.divide 8 n -> (n =? 1)%nat = false.
Proof. intros [q ->]. apply Nat.eqb_neq. lia. Qed.

End binaries.

Section field_layout.

Import Np LWE Spec.
Local Open Scope nat_scope.

Local Arguments size : simpl never.

(** C3.  In a valid load with the field array requested (natural
    extents, [Ntime] and [Nspace] multiples of 8 as the constructor
    derives them, a blob of whole doubles at least as long as the shape
    needs), the blob is read in column-major order with the shape
    [(Ntime, Nspace, 2*Nsims, Nsims2)], or [(Ntime, Nspace, Nspace2,
    2*Nsims, Nsims2)] in the volumetric modes: the element of [Ext_x]
    at grid index [gi] and batch indices [k], [m] is the double at
    position [offset g gi + size g * (2*k + 2*Nsims*m)], the element of
    [Ext_y] the one at the odd position [2*k+1] of the same axis.  Of the
    axes, [np.squeeze] removes those of extent one among the batch axes
    and never [Ntime] or [Nspace].  The archive entry and the flat file
    decode to the same two arrays. *)
Theorem field_blob_layout
    (fs : gmap string file) (archive : gmap string (list byte))
    (zipBase flatBase : string) (self : obj) (bs : list byte) (n : nat)
    (symmetryType : Z) (Ntime Nspace Nspace2 Nsims Nsims2 : nat) :
  let g := grid (is_volumetric symmetryType) Ntime Nspace Nspace2 in
  has_grid self symmetryType Ntime Nspace Nspace2 Nsims Nsims2 ->
  Nat.divide 8 Ntime -> Nat.divide 8 Nspace ->
  archive !! (zipBase +:+ "_Ext.dat")%string = Some bs ->
  fs !! (flatBase +:+ "_Ext.dat")%string = Some (Plain bs) ->
  length bs = 8 * n ->
  size g * (2 * Nsims * Nsims2) <= n ->
  exists Ext_x Ext_y,
    load_field true fs archive zipBase self
    = Ok (setattr (setattr self "Ext_x"%string (VData Ext_x)) "Ext_y"%string (VData Ext_y))
    /\ load_field false fs archive flatBase self
       = Ok (setattr (setattr self "Ext_x"%string (VData Ext_x)) "Ext_y"%string (VData Ext_y))
    /\ shape Ext_x
       = Ntime :: Nspace
           :: filter (fun d => negb (d =? 1)%nat) (drop 2 g ++ [Nsims; Nsims2])
    /\ shape Ext_y = shape Ext_x
    /\ forall gi k m,
         in_bounds g gi = true -> k < Nsims -> m < Nsims2 ->
         let ix := squeeze_index (g ++ [Nsims; Nsims2]) (gi ++ [k; m]) in
         get Ext_x ix
         = items bs !! (offset g gi + size g * (2 * k + 2 * Nsims * m))
         /\ get Ext_y ix
            = items bs !! (offset g gi + size g * (2 * k + 1 + 2 * Nsims * m)).
Proof.
  intros g Hgrid H8t H8x Hzip Hflat Hlen Hreq.
  pose proof Hgrid as (_ & _ & _ & _ & _ & _ & _ & _ & Hpl).
  pose proof (size_grid symmetryType Ntime Nspace Nspace2 Hpl) as Hsz.
  fold g in Hsz.
  pose proof (length_items _ _ Hlen) as Hitems.
  set (Ext := Ext_of g Nsims Nsims2 (items bs)).
  exists (squeeze (slice_axis (length g) 0 (2 * Z.of_nat Nsims) 2 Ext)),
         (squeeze (slice_axis (length g) 1 (2 * Z.of_nat Nsims + 1) 2 Ext)).
  assert (Hdec : decode_field (is_volumetric symmetryType)
            (Z.of_nat Ntime) (Z.of_nat Nspace) (Z.of_nat Nspace2)
            (Z.of_nat (Ntime * Nspace * Nspace2))
            (Z.of_nat Nsims) (Z.of_nat Nsims2) (items bs)
          = Ok (squeeze (slice_axis (length g) 0 (2 * Z.of_nat Nsims) 2 Ext),
                squeeze (slice_axis (length g) 1 (2 * Z.of_nat Nsims + 1) 2 Ext))).
  { rewrite decode_field_nat by (symmetry; exact Hsz). fold g.
    destruct (Nat.leb_spec (size g * (2 * Nsims * Nsims2)) (length (items bs)));
      [reflexivity | lia]. }
  assert (Hshape : forall start stop c,
    slice_indices start stop 2 (2 * Nsims)
      = map (fun i => c + 2 * i) (seq 0 Nsims) ->
    shape (squeeze (slice_axis (length g) start stop 2 Ext))
    = Ntime :: Nspace
        :: filter (fun d => negb (d =? 1)%nat) (drop 2 g ++ [Nsims; Nsims2])).
  { intros start stop c Hsel. unfold squeeze. cbn [shape].
    rewrite (shape_slice_axis g (2 * Nsims) Nsims2) by done.
    rewrite Hsel, length_map, length_seq.
    assert (Hg : g = Ntime :: Nspace :: drop 2 g)
      by (unfold g, grid; by destruct (is_volumetric symmetryType)).
    rewrite Hg at 1. rewrite <- !app_comm_cons, !filter_cons.
    rewrite (divide_8_ne_1 _ H8t), (divide_8_ne_1 _ H8x). reflexivity. }
  split_and!.
  - rewrite (load_field_decode true _ _ _ _ bs symmetryType
               Ntime Nspace Nspace2 Nsims Nsims2)
      by (try done; intros _; exact (whole_doubles _ _ Hlen)).
    by rewrite Hdec.
  - rewrite (load_field_decode false _ _ _ _ bs symmetryType
               Ntime Nspace Nspace2 Nsims Nsims2)
      by (try done; intros _; exact (whole_doubles _ _ Hlen)).
    by rewrite Hdec.
  - exact (Hshape _ _ 0 (slice_indices_even Nsims)).
  - rewrite (Hshape _ _ 1 (slice_indices_odd Nsims)).
    by rewrite (Hshape _ _ 0 (slice_indices_even Nsims)).
  - intros gi k m Hgi Hk Hm ix. split.
    + unfold ix, Ext.
      rewrite (get_field_channel g Nsims Nsims2 (items bs) 0)
        by (done || lia || exact (slice_indices_even Nsims)).
      reflexivity.
    + unfold ix, Ext.
      rewrite (get_field_channel g Nsims Nsims2 (items bs) 1)
        by (done || lia || exact (slice_indices_odd Nsims)).
      do 2 f_equal. lia.
Qed.

End field_layout.

Section blob_length.

Import Np LWE Spec.
Local Open Scope nat_scope.

Implicit Types (self : obj).

Local Arguments size : simpl never.

Lemma spectrum_channel_ok c Nfreq Nsims Nsims2 raw :
  c < 3 ->
  spectrum_channel c (RawSpectrum_of Nfreq Nsims Nsims2 raw)
  = Ok (channel_of c (RawSpectrum_of Nfreq Nsims Nsims2 raw)).
Proof.
  intros Hc. unfold spectrum_channel, index_axis. cbn [shape nth RawSpectrum_of].
  apply Nat.ltb_lt in Hc as ->. reflexivity.
Qed.

Lemma decode_spectrum_nat Nfreq Nsims Nsims2 raw :
  decode_spectrum (Z.of_nat Nfreq) (Z.of_nat Nsims) (Z.of_nat Nsims2) raw
  = if Nfreq * (3 * Nsims * Nsims2) <=? length raw
    then let R := RawSpectrum_of Nfreq Nsims Nsims2 raw in
         Ok (channel_of 2 R, channel_of 0 R, channel_of 1 R)
    else Raise ValueError.
Proof.
  unfold decode_spectrum.
  replace (3 * Z.of_nat Nfreq * Z.of_nat Nsims * Z.of_nat Nsims2)%Z
    with (Z.of_nat (Nfreq * (3 * Nsims * Nsims2))) by lia.
  change [Z.of_nat Nfreq; 3%Z; Z.of_nat Nsims; Z.of_nat Nsims2]
    with (map Z.of_nat [Nfreq; 3; Nsims; Nsims2]).
  rewrite slice_to_nat, reshape_nat, length_take.
  replace (size [Nfreq; 3; Nsims; Nsims2])
    with (Nfreq * (3 * Nsims * Nsims2))
    by (rewrite !size_cons; change (size []) with 1; lia).
  destruct (Nat.leb_spec (Nfreq * (3 * Nsims * Nsims2)) (length raw)).
  - rewrite Nat.min_l by done. rewrite Nat.eqb_refl. py_step.
    fold (RawSpectrum_of Nfreq Nsims Nsims2 raw).
    rewrite !spectrum_channel_ok by lia. reflexivity.
  - rewrite Nat.min_r by lia.
    destruct (Nat.eqb_spec (Nfreq * (3 * Nsims * Nsims2)) (length raw));
      [lia | reflexivity].
Qed.




End blob_length.

(** * Decoding a concatenation of shards *)

Section fused_decode.

Import Np LWE Spec.
Local Open Scope nat_scope.

Implicit Types (sh ix g gi : list nat) (a : ndarray) (raws : list (list f64)).

Local Arguments size : simpl never.

Lemma length_concat_uniform {A} (ls : list (list A)) L :
  Forall (fun l => length l = L) ls -> length (concat ls) = length ls * L.
Proof.
  induction 1 as [|l ls Hl _ IH]; [done|].
  simpl. rewrite length_app, IH, Hl. lia.
Qed.

Lemma lookup_concat_uniform {A} (ls : list (list A)) L k l i :
  Forall (fun l => length l = L) ls ->
  ls !! k = Some l -> i < L ->
  concat ls !! (i + L * k) = l !! i.
Proof.
  intros Hall. revert k. induction Hall as [|l0 ls Hl0 _ IH]; intros k Hk Hi.
  - by rewrite lookup_nil in Hk.
  - destruct k as [|k]; simpl in Hk.
    + injection Hk as ->. simpl concat.
      rewrite Nat.mul_0_r, Nat.add_0_r. apply lookup_app_l. lia.
    + simpl concat. rewrite lookup_app_r by lia.
      rewrite Hl0. replace (i + L * S k - L) with (i + L * k) by lia.
      by apply IH.
Qed.

Lemma nth_take_lt {A} (l : list A) n i d :
  i < n -> nth i (take n l) d = nth i l d.
Proof. intros H. by rewrite !nth_lookup, lookup_take_lt. Qed.

(** Position [j] of batch [k] in a polarisation channel of the fused
    blob, and position [j] of the channel of shard [k]. *)
Lemma fused_channel_nth g N raws start stop c k j :
  slice_indices start stop 2 (2 * N) = map (fun i => c + 2 * i) (seq 0 N) ->
  c < 2 -> k < N -> j < size g ->
  nth (j + size g * k)
      (data (slice_axis (length g) start stop 2
               (Ext_of g N 1 (concat raws)))) 0%N
  = nth (j + size g * (c + 2 * k)) (concat raws) 0%N.
Proof.
  intros Hsel Hc Hk Hj.
  assert (Hlt : j + size g * k < size g * (N * 1)) by nia.
  rewrite (slice_axis_nth g (2 * N) 1) by
    (done || by rewrite Hsel, length_map, length_seq).
  rewrite Hsel, length_map, length_seq.
  rewrite mod_add_small, div_add_small by done.
  rewrite Nat.mod_small, Nat.div_small by done.
  rewrite nth_map_seq by done.
  unfold Ext_of. cbn [data]. rewrite nth_take_lt; [f_equal; lia|].
  revert Hj. generalize (size g). intros G HG. nia.
Qed.

Lemma shape_field_channel g N M start stop c raw :
  slice_indices start stop 2 (2 * N) = map (fun i => c + 2 * i) (seq 0 N) ->
  shape (squeeze (slice_axis (length g) start stop 2 (Ext_of g N M raw)))
  = filter (fun d => negb (d =? 1)) (g ++ [N; M]).
Proof.
  intros Hsel. unfold squeeze. cbn [shape].
  rewrite (shape_slice_axis g (2 * N) M) by done.
  by rewrite Hsel, length_map, length_seq.
Qed.

Lemma filter_ne1_batch g N :
  N <> 1 ->
  filter (fun d => negb (d =? 1)) (g ++ [N; 1])
  = filter (fun d => negb (d =? 1)) g ++ [N].
Proof.
  intros HN. rewrite filter_app. f_equal.
  rewrite !filter_cons, filter_nil.
  apply Nat.eqb_neq in HN. rewrite HN. reflexivity.
Qed.

Lemma filter_ne1_single g :
  filter (fun d => negb (d =? 1)) (g ++ [1; 1])
  = filter (fun d => negb (d =? 1)) g.
Proof.
  rewrite filter_app, !filter_cons, filter_nil. simpl. by rewrite app_nil_r.
Qed.

(** The batch slice of a channel of the fused blob is the channel of
    the shard. *)
Lemma fused_channel_slice g N raws start stop start1 stop1 c k r :
  slice_indices start stop 2 (2 * N) = map (fun i => c + 2 * i) (seq 0 N) ->
  slice_indices start1 stop1 2 (2 * 1) = map (fun i => c + 2 * i) (seq 0 1) ->
  c < 2 -> N <> 1 ->
  Forall (fun r => length r = 2 * size g) raws ->
  length raws = N ->
  raws !! k = Some r ->
  batch_last N k
    (squeeze (slice_axis (length g) start stop 2 (Ext_of g N 1 (concat raws))))
  = Ok (squeeze (slice_axis (length g) start1 stop1 2 (Ext_of g 1 1 r))).
Proof.
  intros Hsel Hsel1 Hc HN Hall Hlen Hk.
  pose proof (lookup_lt_Some _ _ _ Hk) as HkN. rewrite Hlen in HkN.
  assert (Hr : length r = 2 * size g).
  { rewrite Forall_forall in Hall. apply Hall.
    by apply list_elem_of_lookup_2 in Hk. }
  unfold batch_last. apply Nat.eqb_neq in HN as HN'. rewrite HN'.
  set (S := slice_axis (length g) start stop 2 (Ext_of g N 1 (concat raws))).
  set (S1 := slice_axis (length g) start1 stop1 2 (Ext_of g 1 1 r)).
  set (sq := filter (fun d => negb (d =? 1)) g).
  assert (HshX : shape (squeeze S) = sq ++ [N]).
  { unfold S. rewrite (shape_field_channel g N 1 start stop c) by done.
    by apply filter_ne1_batch. }
  assert (HshX1 : shape (squeeze S1) = sq).
  { unfold S1. rewrite (shape_field_channel g 1 1 start1 stop1 c) by done.
    by apply filter_ne1_single. }
  assert (Hsq : size sq = size g) by apply size_filter_ne1.
  rewrite HshX, length_app. cbn [length].
  replace (length sq + 1 - 1) with (length sq) by lia.
  rewrite (index_axis_last sq N k) by
    (done || apply squeeze_wf, slice_axis_wf).
  f_equal. destruct (squeeze S1) as [sh1 d1] eqn:HS1.
  cbn [shape] in HshX1. subst sh1. f_equal.
  assert (Hd1 : d1 = data S1) by (unfold squeeze in HS1; congruence).
  subst d1. cbn [squeeze data].
  assert (HlenS : length (data S) = size g * (N * 1)).
  { unfold S. rewrite slice_axis_wf.
    rewrite (shape_slice_axis g (2 * N) 1) by done.
    rewrite Hsel, length_map, length_seq, size_app, !size_cons.
    by change (size []) with 1. }
  assert (HlenS1 : length (data S1) = size g * (1 * 1)).
  { unfold S1. rewrite slice_axis_wf.
    rewrite (shape_slice_axis g (2 * 1) 1) by done.
    rewrite Hsel1, length_map, length_seq, size_app, !size_cons.
    by change (size []) with 1. }
  rewrite Hsq.
  apply nth_ext with (d := 0%N) (d' := 0%N).
  - rewrite length_take, length_drop, HlenS, HlenS1. nia.
  - intros j Hj. rewrite length_take, length_drop, HlenS in Hj.
    assert (Hjg : j < size g) by lia.
    rewrite nth_take_lt by done.
    rewrite !nth_lookup, lookup_drop, <- !nth_lookup.
    replace (k * size g + j) with (j + size g * k) by lia.
    unfold S. rewrite (fused_channel_nth g N raws start stop c) by done.
    unfold S1.
    replace j with (j + size g * 0) at 2 by lia.
    replace r with (concat [r]) at 1 by (simpl; by rewrite app_nil_r).
    rewrite (fused_channel_nth g 1 [r] start1 stop1 c) by (done || lia).
    simpl concat. rewrite app_nil_r.
    rewrite !nth_lookup.
    replace (j + size g * (c + 2 * k))
      with ((j + size g * c) + 2 * size g * k) by lia.
    rewrite (lookup_concat_uniform raws (2 * size g) k r) by (done || nia).
    do 2 f_equal. lia.
Qed.

End fused_decode.

Section fused_spectrum.

Import Np LWE Spec.
Local Open Scope nat_scope.

Implicit Types (sh ix : list nat) (a : ndarray) (raws : list (list f64)).

Local Arguments size : simpl never.

Lemma nth_gather_offset sh f a ix :
  in_bounds sh ix = true ->
  nth (offset sh ix) (data (gather sh f a)) 0%N
  = nth (offset (shape a) (f ix)) (data a) 0%N.
Proof.
  intros H. rewrite data_gather_nth by by apply offset_lt.
  by rewrite unravel_offset.
Qed.

Lemma gather_ext sh f f' a b :
  (forall ix, in_bounds sh ix = true ->
              nth (offset (shape a) (f ix)) (data a) 0%N
              = nth (offset (shape b) (f' ix)) (data b) 0%N) ->
  gather sh f a = gather sh f' b.
Proof.
  intros H. unfold gather. f_equal. apply map_ext_in.
  intros j Hj%in_seq. apply H. apply in_bounds_unravel. lia.
Qed.

Lemma filter_ne1_cons n sh :
  filter (fun d => negb (d =? 1)) (n :: sh)
  = if n =? 1 then filter (fun d => negb (d =? 1)) sh
    else n :: filter (fun d => negb (d =? 1)) sh.
Proof. rewrite filter_cons. by destruct (n =? 1). Qed.

Ltac inb :=
  rewrite ?in_bounds_cons;
  repeat match goal with
         | H : ?x < ?y |- context [?x <? ?y] =>
             rewrite (proj2 (Nat.ltb_lt x y) H)
         end;
  reflexivity.

(** The element of channel [c] at frequency [j] of batch [k]. *)
Lemma fused_spectrum_pos Nfreq N raws r c k j :
  c < 3 -> j < Nfreq ->
  Forall (fun r => length r = 3 * Nfreq) raws ->
  length raws = N -> raws !! k = Some r ->
  nth (j + Nfreq * (c + 3 * k))
      (take (Nfreq * (3 * N * 1)) (concat raws)) 0%N
  = nth (j + Nfreq * c) (take (Nfreq * (3 * 1 * 1)) r) 0%N.
Proof.
  intros Hc Hj Hall Hlen Hk.
  assert (HkN : k < N) by (rewrite <- Hlen; by eapply lookup_lt_Some).
  assert (H1 : j + Nfreq * c < Nfreq * 3) by nia.
  assert (H2 : j + Nfreq * (c + 3 * k) < Nfreq * (3 * N * 1)) by nia.
  rewrite !nth_take_lt by lia.
  rewrite !nth_lookup.
  replace (j + Nfreq * (c + 3 * k))
    with ((j + Nfreq * c) + 3 * Nfreq * k) by lia.
  by rewrite (lookup_concat_uniform raws (3 * Nfreq) k r) by (done || lia).
Qed.

(** The row of a spectrum of the fused blob is the spectrum of the
    shard. *)
Lemma fused_spectrum_slice Nfreq N raws c k r :
  c < 3 -> N <> 1 ->
  Forall (fun r => length r = 3 * Nfreq) raws ->
  length raws = N -> raws !! k = Some r ->
  batch_first N k (channel_of c (RawSpectrum_of Nfreq N 1 (concat raws)))
  = Ok (channel_of c (RawSpectrum_of Nfreq 1 1 r)).
Proof.
  intros Hc HN Hall Hlen Hk.
  assert (HkN : k < N) by (rewrite <- Hlen; by eapply lookup_lt_Some).
  unfold batch_first. apply Nat.eqb_neq in HN as HN'. rewrite HN'.
  unfold channel_of, RawSpectrum_of. cbn [shape take drop app].
  set (f := fun ix : list nat => take 1 ix ++ c :: drop 1 ix).
  set (R := mk [Nfreq; 3; N; 1] _). set (R1 := mk [Nfreq; 3; 1; 1] _).
  set (G := gather [Nfreq; N; 1] f R).
  set (G1 := gather [Nfreq; 1; 1] f R1).
  assert (HG : forall ix, in_bounds [Nfreq; N; 1] ix = true ->
             nth (offset [Nfreq; N; 1] ix) (data G) 0%N
             = nth (offset (shape R) (f ix)) (data R) 0%N)
    by (intros; by apply nth_gather_offset).
  assert (HG1 : forall ix, in_bounds [Nfreq; 1; 1] ix = true ->
             nth (offset [Nfreq; 1; 1] ix) (data G1) 0%N
             = nth (offset (shape R1) (f ix)) (data R1) 0%N)
    by (intros; by apply nth_gather_offset).
  unfold squeeze, transpose, index_axis.
  change (shape G) with [Nfreq; N; 1].
  change (shape G1) with [Nfreq; 1; 1].
  cbn [shape]. rewrite !filter_ne1_cons, filter_nil. rewrite HN'.
  change (1 =? 1) with true. cbv iota.
  clearbody G G1.
  apply Nat.ltb_lt in HkN as HkN'.
  destruct (Nat.eqb_spec Nfreq 1) as [->|HNf].
  - (* one frequency: the spectra are scalars *)
    cbn [rev app shape nth take drop]. rewrite !shape_gather.
    cbn [nth take drop app]. rewrite HkN'. f_equal.
    apply gather_ext. intros ix Hix. apply in_bounds_inv_nil in Hix as ->.
    cbn [shape data app rev].
    rewrite (nth_gather_offset [N] _ _ [k]) by inb.
    cbn [shape data rev app].
    replace (offset [N] [k]) with (offset [1; N; 1] [0; k; 0])
      by (cbn [offset]; lia).
    rewrite HG by inb.
    replace (offset [] []) with (offset [1; 1; 1] [0; 0; 0])
      by (cbn [offset]; lia).
    rewrite HG1 by inb.
    unfold f, R, R1. cbn [shape data take drop app offset].
    replace (0 + 1 * (c + 3 * (k + N * (0 + 1 * 0))))
      with (0 + 1 * (c + 3 * k)) by lia.
    replace (0 + 1 * (c + 3 * (0 + 1 * (0 + 1 * 0))))
      with (0 + 1 * c) by lia.
    apply (fused_spectrum_pos 1 N raws r c k 0); (done || lia).
  - cbn [rev app shape nth take drop]. rewrite !shape_gather.
    cbn [nth take drop app]. rewrite HkN'. f_equal.
    apply gather_ext. intros ix Hix.
    apply in_bounds_inv_cons in Hix as (j & ix' & -> & Hj & Hix').
    apply in_bounds_inv_nil in Hix' as ->.
    cbn [shape data app rev].
    rewrite (nth_gather_offset [N; Nfreq] _ _ [k; j]) by inb.
    cbn [shape data rev app].
    replace (offset [Nfreq; N] [j; k]) with (offset [Nfreq; N; 1] [j; k; 0])
      by (cbn [offset]; lia).
    rewrite HG by inb.
    replace (offset [Nfreq] [j]) with (offset [Nfreq; 1; 1] [j; 0; 0])
      by (cbn [offset]; lia).
    rewrite HG1 by inb.
    unfold f, R, R1. cbn [shape data take drop app offset].
    replace (j + Nfreq * (c + 3 * (k + N * (0 + 1 * 0))))
      with (j + Nfreq * (c + 3 * k)) by lia.
    replace (j + Nfreq * (c + 3 * (0 + 1 * (0 + 1 * 0))))
      with (j + Nfreq * c) by lia.
    apply (fused_spectrum_pos Nfreq N raws r c k j); (done || lia).
Qed.

End fused_spectrum.

(** * Concatenation of shard files *)

Section fuse_files.

Import LWE Spec.
Local Open Scope nat_scope.

Implicit Types (fs : gmap string file) (bs : list byte).

Lemma read_app n current piece rest :
  read n current = (piece, rest) -> current = piece ++ rest.
Proof.
  revert n piece rest. induction current as [|b cur IH]; intros n p r H.
  - by injection H as <- <-.
  - simpl in H. destruct (n =? 0)%N.
    + by injection H as <- <-.
    + destruct (read (N.pred n) cur) as [p' r'] eqn:E.
      injection H as <- <-. simpl. f_equal. by eapply IH.
Qed.

Lemma read_nonempty n b current :
  n <> 0%N -> fst (read n (b :: current)) <> [].
Proof.
  intros Hn. simpl. apply N.eqb_neq in Hn as ->.
  by destruct (read (N.pred n) current).
Qed.

Lemma copy_pieces_all fuel current output :
  length current < fuel ->
  copy_pieces fuel current output = output ++ current.
Proof.
  revert current output. induction fuel as [|fuel IH]; intros cur out H.
  - lia.
  - cbn [copy_pieces].
    destruct (read (1024 * 1024 * 128) cur) as [piece rest] eqn:E.
    pose proof (read_app _ _ _ _ E) as Hcur.
    destruct piece as [|b piece].
    + destruct cur as [|b cur]; [by rewrite app_nil_r|].
      exfalso. apply (read_nonempty (1024 * 1024 * 128) b cur); [done|].
      by rewrite E.
    + rewrite IH.
      * rewrite Hcur. by rewrite <- app_assoc.
      * rewrite Hcur in H. rewrite length_app in H. simpl in H. lia.
Qed.

Lemma read_bytes_plain fs name bs :
  fs !! name = Some (Plain bs) -> read_bytes fs name = Ok bs.
Proof. intros H. unfold read_bytes. by rewrite H. Qed.

Lemma fuse_loop fs files blobs acc :
  Forall2 (fun name bs => fs !! name = Some (Plain bs)) files blobs ->
  py_foldl (fun output file =>
              current ← read_bytes fs file;
              Ok (copy_pieces (S (length current)) current output))
           acc files
  = Ok (acc ++ concat blobs).
Proof.
  intros H. revert acc. induction H as [|name bs files blobs Hn _ IH];
    intros acc.
  - simpl. by rewrite app_nil_r.
  - cbn [py_foldl]. cbv beta. rewrite (read_bytes_plain _ _ _ Hn). py_step.
    rewrite copy_pieces_all by lia. rewrite IH. simpl.
    by rewrite <- app_assoc.
Qed.

(** *** The files a fusion selects *)

Lemma elem_of_listdir fs name :
  name ∈ listdir fs <-> is_Some (fs !! name) /\ Str.rfind OsPath.sep name = None.
Proof.
  unfold listdir. rewrite list_elem_of_filter, list_elem_of_fmap. split.
  - intros [Hsep ([n v] & -> & Hin)]. apply elem_of_map_to_list in Hin.
    split; [by exists v | done].
  - intros [[v Hv] Hsep]. split; [done|].
    exists (name, v). split; [done|]. by apply elem_of_map_to_list.
Qed.

Lemma NoDup_listdir fs : NoDup (listdir fs).
Proof. apply NoDup_filter, NoDup_fst_map_to_list. Qed.

Lemma elem_of_select_files fs baseName ending name :
  name ∈ select_files fs baseName ending
  <-> is_Some (fs !! name) /\ Str.rfind OsPath.sep name = None
      /\ Str.startswith name baseName = true
      /\ Str.endswith name ending = true.
Proof.
  unfold select_files, sorted. rewrite merge_sort_Permutation.
  rewrite list_elem_of_filter, elem_of_listdir.
  rewrite Is_true_true, andb_true_iff. tauto.
Qed.

Lemma Sorted_select_files fs baseName ending :
  Sorted String.le (select_files fs baseName ending).
Proof. apply Sorted_merge_sort. apply _. Qed.

Lemma NoDup_select_files fs baseName ending :
  NoDup (select_files fs baseName ending).
Proof.
  unfold select_files, sorted. rewrite merge_sort_Permutation.
  apply NoDup_filter, NoDup_listdir.
Qed.

(** A sorted list without duplicates is determined by its elements. *)
Lemma sorted_names_unique (l k : list string) :
  Sorted String.le l -> Sorted String.le k -> NoDup l -> NoDup k ->
  (forall x, x ∈ l <-> x ∈ k) -> l = k.
Proof.
  intros Hl Hk Hnl Hnk Hiff.
  apply (Sorted_unique String.le); [done..|].
  by apply NoDup_Permutation.
Qed.

Lemma select_files_ext fs fs' baseName ending :
  (forall name,
      Str.startswith name baseName = true ->
      Str.endswith name ending = true ->
      (is_Some (fs !! name) <-> is_Some (fs' !! name))) ->
  select_files fs baseName ending = select_files fs' baseName ending.
Proof.
  intros H.
  apply sorted_names_unique;
    auto using Sorted_select_files, NoDup_select_files.
  intros x. rewrite !elem_of_select_files.
  split; intros (H1 & H2 & H3 & H4); split_and!; try done;
    by apply (H x H3 H4).
Qed.

Lemma Forall2_impl_elem {A B} (P Q : A -> B -> Prop) l k :
  Forall2 P l k -> (forall x y, x ∈ l -> P x y -> Q x y) -> Forall2 Q l k.
Proof.
  induction 1 as [|x y l k Hxy _ IH]; intros HPQ; constructor.
  - apply HPQ; [left | done].
  - apply IH. intros x' y' Hin. apply HPQ. by right.
Qed.

Lemma fuseFile_concat fs baseName ending blobs :
  Forall2 (fun name bs => fs !! name = Some (Plain bs))
    (select_files (delete (baseName +:+ ending)%string fs) baseName ending)
    blobs ->
  fuseFile baseName ending fs
  = Ok (<[(baseName +:+ ending)%string := Plain (concat blobs)]>
          (delete (baseName +:+ ending)%string fs)).
Proof.
  intros H. unfold fuseFile. cbv zeta.
  rewrite (fuse_loop _ _ blobs []).
  - reflexivity.
  - eapply Forall2_impl_elem; [exact H|].
    intros name bs Hin Hname. cbv beta in *.
    apply elem_of_select_files in Hin as ([v Hv] & _).
    rewrite lookup_delete_ne; [done|].
    intros <-. by rewrite lookup_delete_eq in Hv.
Qed.

End fuse_files.

Section fuse_then_decode.

Import Np LWE Spec.
Local Open Scope nat_scope.

Implicit Types (fs : gmap string file) (bs : list byte).

Local Arguments size : simpl never.

Lemma items_app bs1 bs2 n :
  length bs1 = 8 * n -> items (bs1 ++ bs2) = items bs1 ++ items bs2.
Proof.
  revert bs1. induction n as [|n IH]; intros bs1 H.
  - by destruct bs1.
  - do 8 (destruct bs1 as [|? bs1]; [simpl in H; lia|]).
    simpl. f_equal. apply IH. simpl in H. lia.
Qed.

Lemma items_concat (bss : list (list byte)) L :
  Forall (fun bs => length bs = 8 * L) bss ->
  items (concat bss) = concat (map items bss).
Proof.
  induction 1 as [|bs bss Hbs _ IH]; [done|].
  simpl. by rewrite (items_app _ _ L), IH.
Qed.

Lemma rev_app_append (a b acc : string) :
  String.rev_app (a +:+ b) acc = String.rev_app b (String.rev_app a acc).
Proof. revert acc. induction a as [|c a IH]; intros acc; [done|]. apply IH. Qed.

Lemma endswith_Ext_spectrum (base : string) :
  Str.endswith (base +:+ "_Ext.dat") "_spectrum.dat" = false.
Proof.
  unfold Str.endswith, String.rev. rewrite rev_app_append. reflexivity.
Qed.

Lemma Ext_ne_spectrum (base : string) :
  (base +:+ "_Ext.dat")%string <> (base +:+ "_spectrum.dat")%string.
Proof. intros H. by apply (inj (String.app base)) in H. Qed.

(** The second pass of [fuseBinaries] selects what it would have
    selected before the first. *)
Lemma select_spectrum_after_Ext fs base v :
  select_files
    (delete (base +:+ "_spectrum.dat")%string
       (<[(base +:+ "_Ext.dat")%string := v]>
          (delete (base +:+ "_Ext.dat")%string fs)))
    base "_spectrum.dat"
  = select_files (delete (base +:+ "_spectrum.dat")%string fs)
      base "_spectrum.dat".
Proof.
  apply select_files_ext. intros name _ Hend.
  assert (name <> (base +:+ "_Ext.dat")%string).
  { intros ->. by rewrite endswith_Ext_spectrum in Hend. }
  destruct (decide (name = (base +:+ "_spectrum.dat")%string)) as [->|Hne].
  - by rewrite !lookup_delete_eq.
  - by rewrite !lookup_delete_ne, lookup_insert_ne, lookup_delete_ne.
Qed.

Lemma fuseBinaries_concat fs outputTextFile (shards : list (list byte * list byte)) :
  let base := fst (OsPath.splitext (OsPath.basename outputTextFile)) in
  Forall2 (fun name sh => fs !! name = Some (Plain (fst sh)))
    (select_files (delete (base +:+ "_Ext.dat")%string fs) base "_Ext.dat")
    shards ->
  Forall2 (fun name sh => fs !! name = Some (Plain (snd sh)))
    (select_files (delete (base +:+ "_spectrum.dat")%string fs)
       base "_spectrum.dat")
    shards ->
  exists fs',
    fuseBinaries fs outputTextFile = Ok fs'
    /\ fs' !! (base +:+ "_Ext.dat")%string
       = Some (Plain (concat (map fst shards)))
    /\ fs' !! (base +:+ "_spectrum.dat")%string
       = Some (Plain (concat (map snd shards))).
Proof.
  intros base HE HS. unfold fuseBinaries. fold base.
  rewrite (fuseFile_concat fs base "_Ext.dat" (map fst shards))
    by by apply Forall2_fmap_r.
  py_step.
  set (fs1 := <[(base +:+ "_Ext.dat")%string := _]> _).
  rewrite (fuseFile_concat fs1 base "_spectrum.dat" (map snd shards)).
  - eexists. split; [reflexivity|]. split.
    + rewrite lookup_insert_ne by (symmetry; apply Ext_ne_spectrum).
      rewrite lookup_delete_ne by (symmetry; apply Ext_ne_spectrum).
      unfold fs1. by rewrite lookup_insert_eq.
    + by rewrite lookup_insert_eq.
  - unfold fs1. rewrite select_spectrum_after_Ext.
    apply Forall2_fmap_r.
    eapply Forall2_impl_elem; [exact HS|].
    intros name sh Hin Hname. cbv beta in *.
    apply elem_of_select_files in Hin as (_ & _ & _ & Hend).
    rewrite lookup_insert_ne, lookup_delete_ne; [done| |];
      intros <-; by rewrite endswith_Ext_spectrum in Hend.
Qed.

(** C1 (amended).  Let the files [fuseBinaries] selects for the field
    and for the spectrum be, in its order, the binaries of the shards in
    shard order, every shard holding exactly the doubles of one run on
    the common grid, [2*Ngrid] for the field and [3*Nfreq] for the
    spectrum.  Then the fused binaries decoded with [Nsims] the number
    of shards give arrays whose part at batch index [k] is, element for
    element, what shard [k] decodes to with [Nsims = Nsims2 = 1], for
    [Ext_x], [Ext_y], [spectrumTotal], [spectrum_x] and [spectrum_y]. *)
Theorem fuse_then_decode
    (fs : gmap string file) (outputTextFile : string)
    (shards : list (list byte * list byte))
    (symmetryType : Z) (Ntime Nspace Nspace2 : nat) :
  let base := fst (OsPath.splitext (OsPath.basename outputTextFile)) in
  let N := length shards in
  let g := grid (is_volumetric symmetryType) Ntime Nspace Nspace2 in
  let Nfreq := Ntime / 2 + 1 in
  let field n raw :=
    decode_field (is_volumetric symmetryType)
      (Z.of_nat Ntime) (Z.of_nat Nspace) (Z.of_nat Nspace2)
      (Z.of_nat (size g)) (Z.of_nat n) 1%Z raw in
  let spectrum n raw :=
    decode_spectrum (Z.of_nat Nfreq) (Z.of_nat n) 1%Z raw in
  Forall2 (fun name sh => fs !! name = Some (Plain (fst sh)))
    (select_files (delete (base +:+ "_Ext.dat")%string fs) base "_Ext.dat")
    shards ->
  Forall2 (fun name sh => fs !! name = Some (Plain (snd sh)))
    (select_files (delete (base +:+ "_spectrum.dat")%string fs)
       base "_spectrum.dat")
    shards ->
  Forall (fun sh => length (fst sh) = 8 * (2 * size g)
                    /\ length (snd sh) = 8 * (3 * Nfreq)) shards ->
  exists fs' fusedE fusedS Ext_x Ext_y spectrumTotal spectrum_x spectrum_y,
    fuseBinaries fs outputTextFile = Ok fs'
    /\ fs' !! (base +:+ "_Ext.dat")%string = Some (Plain fusedE)
    /\ fs' !! (base +:+ "_spectrum.dat")%string = Some (Plain fusedS)
    /\ field N (fromfile fusedE) = Ok (Ext_x, Ext_y)
    /\ spectrum N (fromfile fusedS)
       = Ok (spectrumTotal, spectrum_x, spectrum_y)
    /\ forall k sh,
         shards !! k = Some sh ->
         exists Ext_x_k Ext_y_k spectrumTotal_k spectrum_x_k spectrum_y_k,
           field 1 (fromfile (fst sh)) = Ok (Ext_x_k, Ext_y_k)
           /\ spectrum 1 (fromfile (snd sh))
              = Ok (spectrumTotal_k, spectrum_x_k, spectrum_y_k)
           /\ batch_last N k Ext_x = Ok Ext_x_k
           /\ batch_last N k Ext_y = Ok Ext_y_k
           /\ batch_first N k spectrumTotal = Ok spectrumTotal_k
           /\ batch_first N k spectrum_x = Ok spectrum_x_k
           /\ batch_first N k spectrum_y = Ok spectrum_y_k.
Proof.
  intros base N g Nfreq field spectrum HE HS Hlen.
  destruct (fuseBinaries_concat fs outputTextFile shards HE HS)
    as (fs' & Hfuse & HfE & HfS).
  fold base in HfE, HfS.
  set (rawsE := map (fun sh => items (fst sh)) shards).
  set (rawsS := map (fun sh => items (snd sh)) shards).
  assert (HrE : Forall (fun r => length r = 2 * size g) rawsE).
  { unfold rawsE. rewrite Forall_fmap. eapply Forall_impl; [exact Hlen|].
    intros sh [H _]. by apply length_items. }
  assert (HrS : Forall (fun r => length r = 3 * Nfreq) rawsS).
  { unfold rawsS. rewrite Forall_fmap. eapply Forall_impl; [exact Hlen|].
    intros sh [_ H]. by apply length_items. }
  assert (HlE : length rawsE = N) by (unfold rawsE; by rewrite length_map).
  assert (HlS : length rawsS = N) by (unfold rawsS; by rewrite length_map).
  assert (HiE : fromfile (concat (map fst shards)) = concat rawsE).
  { unfold fromfile. rewrite (items_concat _ (2 * size g)).
    - unfold rawsE. by rewrite map_map.
    - rewrite Forall_fmap. eapply Forall_impl; [exact Hlen|]. by intros sh [H _]. }
  assert (HiS : fromfile (concat (map snd shards)) = concat rawsS).
  { unfold fromfile. rewrite (items_concat _ (3 * Nfreq)).
    - unfold rawsS. by rewrite map_map.
    - rewrite Forall_fmap. eapply Forall_impl; [exact Hlen|]. by intros sh [_ H]. }
  assert (HdE : field N (concat rawsE)
            = let Ext := Ext_of g N 1 (concat rawsE) in
              Ok (squeeze (slice_axis (length g) 0 (2 * Z.of_nat N) 2 Ext),
                  squeeze (slice_axis (length g) 1 (2 * Z.of_nat N + 1) 2 Ext))).
  { unfold field. change 1%Z with (Z.of_nat 1).
    rewrite decode_field_nat by reflexivity. fold g.
    rewrite (length_concat_uniform _ _ HrE), HlE.
    destruct (Nat.leb_spec (size g * (2 * N * 1)) (N * (2 * size g)));
      [reflexivity | lia]. }
  assert (HdS : spectrum N (concat rawsS)
            = let R := RawSpectrum_of Nfreq N 1 (concat rawsS) in
              Ok (channel_of 2 R, channel_of 0 R, channel_of 1 R)).
  { unfold spectrum. change 1%Z with (Z.of_nat 1).
    rewrite decode_spectrum_nat.
    rewrite (length_concat_uniform _ _ HrS), HlS.
    destruct (Nat.leb_spec (Nfreq * (3 * N * 1)) (N * (3 * Nfreq)));
      [reflexivity | lia]. }
  cbv zeta in HdE, HdS.
  eexists fs', _, _, _, _, _, _, _.
  split; [exact Hfuse|]. split; [exact HfE|]. split; [exact HfS|].
  rewrite HiE, HiS. split; [exact HdE|]. split; [exact HdS|].
  intros k sh Hk.
  assert (HkE : rawsE !! k = Some (items (fst sh)))
    by (unfold rawsE; by rewrite list_lookup_fmap, Hk).
  assert (HkS : rawsS !! k = Some (items (snd sh)))
    by (unfold rawsS; by rewrite list_lookup_fmap, Hk).
  assert (Hsh : length (items (fst sh)) = 2 * size g
                /\ length (items (snd sh)) = 3 * Nfreq).
  { rewrite Forall_forall in HrE, HrS. split; [apply HrE | apply HrS];
      by eapply list_elem_of_lookup_2. }
  destruct Hsh as [HshE HshS].
  assert (HdEk : field 1 (items (fst sh))
            = let Ext := Ext_of g 1 1 (items (fst sh)) in
              Ok (squeeze (slice_axis (length g) 0 (2 * Z.of_nat 1) 2 Ext),
                  squeeze (slice_axis (length g) 1 (2 * Z.of_nat 1 + 1) 2 Ext))).
  { unfold field. change 1%Z with (Z.of_nat 1).
    rewrite decode_field_nat by reflexivity. fold g. rewrite HshE.
    destruct (Nat.leb_spec (size g * (2 * 1 * 1)) (2 * size g));
      [reflexivity | lia]. }
  assert (HdSk : spectrum 1 (items (snd sh))
            = let R := RawSpectrum_of Nfreq 1 1 (items (snd sh)) in
              Ok (channel_of 2 R, channel_of 0 R, channel_of 1 R)).
  { unfold spectrum. change 1%Z with (Z.of_nat 1).
    rewrite decode_spectrum_nat. rewrite HshS.
    destruct (Nat.leb_spec (Nfreq * (3 * 1 * 1)) (3 * Nfreq));
      [reflexivity | lia]. }
  cbv zeta in HdEk, HdSk. unfold fromfile.
  eexists _, _, _, _, _. split; [exact HdEk|]. split; [exact HdSk|].
  destruct (decide (N = 1)) as [HN1|HN1].
  - (* a single shard: the fused binaries are its binaries *)
    assert (HrawsE : concat rawsE = items (fst sh)).
    { destruct rawsE as [|r [|]]; try (simpl in HlE; lia).
      destruct k; [|by rewrite lookup_cons_ne_0, lookup_nil in HkE].
      simpl in HkE. injection HkE as ->. simpl. by rewrite app_nil_r. }
    assert (HrawsS : concat rawsS = items (snd sh)).
    { destruct rawsS as [|r [|]]; try (simpl in HlS; lia).
      destruct k; [|by rewrite lookup_cons_ne_0, lookup_nil in HkS].
      simpl in HkS. injection HkS as ->. simpl. by rewrite app_nil_r. }
    rewrite HrawsE, HrawsS. unfold batch_last, batch_first.
    rewrite HN1. cbn [Nat.eqb]. done.
  - split_and!.
    + apply (fused_channel_slice g N rawsE _ _ _ _ 0);
        (done || lia || apply slice_indices_even).
    + apply (fused_channel_slice g N rawsE _ _ _ _ 1);
        (done || lia || apply slice_indices_odd).
    + by apply fused_spectrum_slice; (done || lia).
    + by apply fused_spectrum_slice; (done || lia).
    + by apply fused_spectrum_slice; (done || lia).
Qed.

End fuse_then_decode.

(** * Attributes *)

Section attributes.

Import LWE.
Local Open Scope string_scope.

Implicit Types (self : obj) (name : string).

Lemma getattr_lookup self name v :
  attrs self !! name = Some v -> getattr self name = Ok v.
Proof. intros H. unfold getattr. by rewrite H. Qed.

Lemma get_float_lookup self name x :
  attrs self !! name = Some (VFloat x) -> get_float self name = Ok x.
Proof. intros H. unfold get_float. by rewrite (getattr_lookup _ _ _ H). Qed.

Lemma attrs_setattr self name v :
  attrs (setattr self name v) = <[name := v]> (attrs self).
Proof. reflexivity. Qed.

Lemma bufs_setattr self name v : bufs (setattr self name v) = bufs self.
Proof. reflexivity. Qed.

End attributes.

(** * Derived grid dimensions *)

Section grid.

Import LWE.
Local Open Scope Q_scope.





Lemma py_div_nonzero a b : ~ b == 0 -> py_div a b = Ok (a / b).
Proof.
  intros Hb. unfold py_div.
  destruct (Qeq_bool b 0) eqn:E; [|done].
  by apply Qeq_bool_eq in E.
Qed.

Lemma py_div_zero a b : b == 0 -> py_div a b = Raise ZeroDivisionError.
Proof. intros Hb. unfold py_div. by rewrite (Qeq_eq_bool _ _ Hb). Qed.

End grid.

Section derive.

Import LWE Spec.
Local Open Scope Q_scope.

Ltac attr_lookup :=
  cbn [attrs setattr];
  rewrite ?lookup_insert_ne by done;
  first [apply lookup_insert_eq | eassumption].


End derive.

Section derive_claims.

Import LWE Spec.
Local Open Scope Q_scope.




End derive_claims.

(** * The manifest *)

Section manifest.

Import LWE Spec.
Local Open Scope nat_scope.

Implicit Types (self : obj) (lines : list string) (values : list Q).

Lemma length_parameterNames : length parameterNames = 59.
Proof. reflexivity. Qed.

Lemma NoDup_parameterNames : NoDup parameterNames.
Proof. compute_done. Qed.

Lemma py_foldl_fail {A S} (body : S -> A -> py S) (s : S) (l : list A) x :
  x ∈ l -> (forall s', is_ok (body s' x) = false) ->
  is_ok (py_foldl body s l) = false.
Proof.
  intros Hin Hx. revert s. induction l as [|y l IH]; intros s.
  - by apply elem_of_nil in Hin.
  - cbn [py_foldl]. destruct (body s y) as [s'|e] eqn:E; [|done]. py_step.
    apply elem_of_cons in Hin as [->|Hin].
    + specialize (Hx s). by rewrite E in Hx.
    + by apply IH.
Qed.

Lemma read_parameter_fail lines i :
  i < 59 ->
  lines !! i = None
  \/ (exists line, lines !! i = Some line /\ Re.findall line = []) ->
  forall self, is_ok (read_parameter lines self i) = false.
Proof.
  intros Hi H self. unfold read_parameter.
  destruct (parameterNames !! i) as [name|]; [|done]. py_step.
  destruct H as [->|(line & -> & Hline)]; [done|]. py_step.
  unfold readLine. by rewrite Hline.
Qed.

Lemma readLine_value line v : line_value line v -> readLine line = Ok v.
Proof.
  intros (tok & Htok & Hv). unfold readLine. unfold last_token in Htok.
  rewrite Htok. py_step. unfold PyFloat.float. by rewrite Hv.
Qed.

Lemma read_parameter_ok lines self i name line v :
  parameterNames !! i = Some name -> lines !! i = Some line ->
  line_value line v ->
  read_parameter lines self i = Ok (setattr self name (VFloat v)).
Proof.
  intros Hn Hl Hv. unfold read_parameter. rewrite Hn, Hl. py_step.
  by rewrite (readLine_value _ _ Hv).
Qed.

Lemma read_loop_ok lines values n a self :
  a + n = 59 ->
  Forall2 line_value (take n (drop a lines)) (take n (drop a values)) ->
  length (take n (drop a values)) = n ->
  py_foldl (read_parameter lines) self (seq a n)
  = Ok (bind_all (take n (drop a parameterNames)) (take n (drop a values)) self).
Proof.
  revert a self. induction n as [|n IH]; intros a self Ha HF Hlen.
  - reflexivity.
  - assert (Hname : is_Some (parameterNames !! a))
      by (apply lookup_lt_is_Some; rewrite length_parameterNames; lia).
    destruct Hname as [name Hname].
    destruct (drop a values) as [|v vs] eqn:Ev; [simpl in Hlen; lia|].
    destruct (drop a lines) as [|line ls] eqn:El;
      [rewrite take_nil in HF; inversion HF|].
    cbn [take] in HF, Hlen. apply Forall2_cons in HF as [Hv HF].
    assert (Hline : lines !! a = Some line).
    { rewrite <- (Nat.add_0_r a), <- lookup_drop, El. reflexivity. }
    assert (Hvs : drop (S a) values = vs)
      by (replace (S a) with (a + 1) by lia; by rewrite <- drop_drop, Ev).
    assert (Hls : drop (S a) lines = ls)
      by (replace (S a) with (a + 1) by lia; by rewrite <- drop_drop, El).
    rewrite (drop_S _ _ _ Hname).
    cbn [seq py_foldl].
    rewrite (read_parameter_ok _ _ _ _ _ _ Hname Hline Hv). py_step.
    rewrite IH.
    + by rewrite Hvs.
    + lia.
    + by rewrite Hvs, Hls.
    + rewrite Hvs. simpl in Hlen. lia.
Qed.

Lemma bind_all_cons n (names : list string) v values self :
  bind_all (n :: names) (v :: values) self
  = bind_all names values (setattr self n (VFloat v)).
Proof. reflexivity. Qed.

Lemma bind_all_notin (names : list string) values self name :
  name ∉ names ->
  attrs (bind_all names values self) !! name = attrs self !! name.
Proof.
  revert values self. induction names as [|n names IH]; intros values self H.
  - reflexivity.
  - destruct values as [|v values]; [reflexivity|].
    rewrite bind_all_cons, IH by (intros ?; apply H; by right).
    cbn [attrs setattr]. apply lookup_insert_ne.
    intros ->. apply H. by left.
Qed.

Lemma bind_all_lookup (names : list string) values self i name v :
  NoDup names -> names !! i = Some name -> values !! i = Some v ->
  attrs (bind_all names values self) !! name = Some (VFloat v).
Proof.
  intros Hnd. revert values self i.
  induction Hnd as [|n names Hn Hnd IH]; intros values self i Hi Hv.
  - by rewrite lookup_nil in Hi.
  - destruct values as [|v0 values]; [by rewrite lookup_nil in Hv|].
    rewrite bind_all_cons. destruct i as [|i]; simpl in Hi, Hv.
    + injection Hi as ->. injection Hv as ->.
      rewrite bind_all_notin by done. cbn [attrs setattr].
      apply lookup_insert_eq.
    + by eapply IH.
Qed.

Lemma cast_int_ok name self x :
  attrs self !! name = Some (VFloat x) ->
  cast_int name self = Ok (setattr self name (VInt (PyFloat.int x))).
Proof.
  intros H. unfold cast_int. by rewrite (getattr_lookup _ _ _ H).
Qed.

(** The object the parser returns for lines with the values [values]. *)
Lemma parse_manifest_ok lines values :
  length values = 59 ->
  Forall2 line_value (take 59 lines) values ->
  exists self,
    parse_manifest lines = Ok self
    /\ forall i name v,
         parameterNames !! i = Some name -> values !! i = Some v ->
         attrs self !! name = Some (bound_value name v).
Proof.
  intros Hlen HF.
  set (o1 := bind_all parameterNames values (mkobj ∅ [])).
  assert (Hread : read_parameters lines (mkobj ∅ []) = Ok o1).
  { unfold read_parameters. rewrite length_parameterNames.
    rewrite (read_loop_ok lines values 59 0).
    - rewrite !drop_0. rewrite (take_ge values) by lia.
      rewrite (take_ge parameterNames) by (rewrite length_parameterNames; lia).
      reflexivity.
    - reflexivity.
    - rewrite !drop_0. by rewrite (take_ge values) by lia.
    - rewrite drop_0, take_ge by lia. done. }
  assert (Ho1 : forall i name v,
             parameterNames !! i = Some name -> values !! i = Some v ->
             attrs o1 !! name = Some (VFloat v)).
  { intros i name v Hn Hv. unfold o1.
    eapply bind_all_lookup; eauto using NoDup_parameterNames. }
  assert (Hval : forall i, i < 59 -> is_Some (values !! i))
    by (intros i Hi; apply lookup_lt_is_Some; lia).
  destruct (Hval 55 ltac:(lia)) as [v55 H55].
  destruct (Hval 58 ltac:(lia)) as [v58 H58].
  destruct (Hval 52 ltac:(lia)) as [v52 H52].
  destruct (Hval 53 ltac:(lia)) as [v53 H53].
  destruct (Hval 56 ltac:(lia)) as [v56 H56].
  pose proof (Ho1 55 "Nsims"%string v55 eq_refl H55) as A55.
  pose proof (Ho1 58 "Nsims2"%string v58 eq_refl H58) as A58.
  pose proof (Ho1 52 "symmetryType"%string v52 eq_refl H52) as A52.
  pose proof (Ho1 53 "batchIndex"%string v53 eq_refl H53) as A53.
  pose proof (Ho1 56 "batchIndex2"%string v56 eq_refl H56) as A56.
  eexists. split.
  - unfold parse_manifest. rewrite Hread. py_step. unfold cast_ints.
    rewrite (cast_int_ok _ _ _ A55). py_step.
    erewrite (cast_int_ok "Nsims2"%string)
      by (cbn [attrs setattr]; rewrite lookup_insert_ne by done; exact A58).
    py_step.
    erewrite (cast_int_ok "symmetryType"%string)
      by (cbn [attrs setattr]; rewrite !lookup_insert_ne by done; exact A52).
    py_step.
    erewrite (cast_int_ok "batchIndex"%string)
      by (cbn [attrs setattr]; rewrite !lookup_insert_ne by done; exact A53).
    py_step.
    erewrite (cast_int_ok "batchIndex2"%string)
      by (cbn [attrs setattr]; rewrite !lookup_insert_ne by done; exact A56).
    reflexivity.
  - intros i name v Hn Hv. cbn [attrs setattr].
    assert (Hidx : forall j, parameterNames !! j = Some name -> j = i)
      by (intros j Hj; eapply NoDup_lookup; eauto using NoDup_parameterNames).
    unfold bound_value, int_names.
    destruct (decide (name = "batchIndex2"%string)) as [->|N1].
    { rewrite lookup_insert_eq. rewrite <- (Hidx 56 eq_refl) in Hv.
      by simplify_eq. }
    rewrite lookup_insert_ne by done.
    destruct (decide (name = "batchIndex"%string)) as [->|N2].
    { rewrite lookup_insert_eq. rewrite <- (Hidx 53 eq_refl) in Hv.
      by simplify_eq. }
    rewrite lookup_insert_ne by done.
    destruct (decide (name = "symmetryType"%string)) as [->|N3].
    { rewrite lookup_insert_eq. rewrite <- (Hidx 52 eq_refl) in Hv.
      by simplify_eq. }
    rewrite lookup_insert_ne by done.
    destruct (decide (name = "Nsims2"%string)) as [->|N4].
    { rewrite lookup_insert_eq. rewrite <- (Hidx 58 eq_refl) in Hv.
      by simplify_eq. }
    rewrite lookup_insert_ne by done.
    destruct (decide (name = "Nsims"%string)) as [->|N5].
    { rewrite lookup_insert_eq. rewrite <- (Hidx 55 eq_refl) in Hv.
      by simplify_eq. }
    rewrite lookup_insert_ne by done.
    rewrite bool_decide_eq_false_2.
    + by eapply Ho1.
    + rewrite !elem_of_cons, elem_of_nil. intuition congruence.
Qed.

(** C7 (amended).  The schema has 59 names.  The parser fails when the
    manifest has fewer than 59 lines or one of the first 59 lines has no
    numeric token.  When each of the first 59 lines ends its tokens
    with a decimal literal that [float] accepts (optional sign, decimal
    point and exponent), the parser binds every schema name, in order,
    to the value of that last token, as a float, and as an integer for
    [Nsims], [Nsims2], [symmetryType], [batchIndex] and [batchIndex2]. *)
Theorem parse_manifest_spec (lines : list string) (values : list Q) :
  length parameterNames = 59
  /\ (length lines < 59
      \/ (exists i line, i < 59 /\ lines !! i = Some line
                         /\ Re.findall line = []) ->
      is_ok (parse_manifest lines) = false)
  /\ (length values = 59 ->
      Forall2 line_value (take 59 lines) values ->
      exists self,
        parse_manifest lines = Ok self
        /\ forall i name v,
             parameterNames !! i = Some name -> values !! i = Some v ->
             attrs self !! name = Some (bound_value name v)).
Proof.
  split; [reflexivity|]. split; [|apply parse_manifest_ok].
  intros H. unfold parse_manifest, read_parameters.
  rewrite length_parameterNames.
  assert (Hfail : exists i, i < 59
            /\ forall self, is_ok (read_parameter lines self i) = false).
  { destruct H as [Hlen|(i & line & Hi & Hline & Hfind)].
    - exists (length lines). split; [done|].
      apply read_parameter_fail; [done|]. left.
      by apply lookup_ge_None.
    - exists i. split; [done|].
      apply read_parameter_fail; [done|]. right. by exists line. }
  destruct Hfail as (i & Hi & Hbody).
  assert (Hloop : is_ok (py_foldl (read_parameter lines) (mkobj ∅ []) (seq 0 59))
                  = false).
  { apply (py_foldl_fail _ _ _ i); [|done]. apply elem_of_seq. lia. }
  by destruct (py_foldl _ _ _).
Qed.

(** A manifest of 59 lines whose values are plain literals. *)
Lemma parse_manifest_spec_witness :
  exists self,
    parse_manifest (Ex.manifest_lines (Ex.single_point "100" "9")) = Ok self
    /\ attrs self !! "frequency1"%string = Some (VFloat 100)
    /\ attrs self !! "Nsims"%string = Some (VInt 1).
Proof.
  destruct (parse_manifest_spec
              (Ex.manifest_lines (Ex.single_point "100" "9"))
              (map (fun name => default 0%Q
                      (PyFloat.parse (Ex.single_point "100" "9" name)))
                   parameterNames))
    as (_ & _ & Hok).
  destruct Hok as (self & Hself & Hattrs).
  - reflexivity.
  - vm_compute take. vm_compute map.
    repeat (constructor;
            [eexists; split; [vm_compute; reflexivity | vm_compute; reflexivity]|]).
    constructor.
  - exists self. split; [exact Hself|]. split.
    + exact (Hattrs 2 "frequency1"%string 100%Q eq_refl eq_refl).
    + exact (Hattrs 55 "Nsims"%string 1%Q eq_refl eq_refl).
Defined.

(** C7 as stated fails on a manifest of 57 lines that all carry a
    number: the schema has 59 names and the parser raises. *)
Lemma parse_manifest_57_lines :
  length Ex.lines57 = 57
  /\ Forall (fun line => Re.findall line <> []) Ex.lines57
  /\ parse_manifest Ex.lines57 = Raise IndexError.
Proof.
  split; [reflexivity|]. split; [|by vm_compute].
  apply Forall_forall. intros line Hin.
  apply list_elem_of_In, repeat_spec in Hin. by subst.
Qed.

(** A token with thousands separators matches the pattern of
    [readLine] but is not a literal [float] accepts. *)
Lemma readLine_thousands_separators :
  Re.findall "Pulse energy 1 (J): 1,000" = ["1"; "1,000"]%string
  /\ readLine "Pulse energy 1 (J): 1,000" = Raise ValueError.
Proof. split; by vm_compute. Qed.

End manifest.

(** * The sampling axes *)

Section axes.

Import LWE Spec.
Local Open Scope Q_scope.

Implicit Types (self : obj).

Ltac attr_lookup :=
  cbn [attrs setattr new_array];
  rewrite ?lookup_insert_ne by done;
  first [apply lookup_insert_eq | eassumption].

(** [np.fft.fftfreq] for an even number [2*h] of samples. *)
Lemma fftfreq_even (h : nat) (d : Q) :
  ~ d == 0 -> (1 <= h)%nat ->
  fftfreq (Z.of_nat (2 * h)) d
  = Ok (map (fun k => inject_Z k * (1 / (inject_Z (Z.of_nat (2 * h)) * d)))
          (map Z.of_nat (seq 0 h)
           ++ map (fun k => (- Z.of_nat h + Z.of_nat k)%Z) (seq 0 h))%list).
Proof.
  intros Hd Hh. unfold fftfreq.
  assert (Hden : ~ inject_Z (Z.of_nat (2 * h)) * d == 0).
  { intros H. apply Qmult_integral in H as [H|H]; [|done].
    unfold Qeq in H. simpl in H. lia. }
  rewrite (py_div_nonzero _ _ Hden). py_step.
  destruct (Z.ltb_spec (Z.of_nat (2 * h)) 0); [lia|].
  replace ((Z.of_nat (2 * h) - 1) / 2 + 1)%Z with (Z.of_nat h).
  2:{ replace (Z.of_nat (2 * h) - 1)%Z with (1 + (Z.of_nat h - 1) * 2)%Z by lia.
      rewrite Z.div_add by lia. change (1 / 2)%Z with 0%Z. lia. }
  replace (Z.of_nat (2 * h) / 2)%Z with (Z.of_nat h).
  2:{ replace (Z.of_nat (2 * h)) with (Z.of_nat h * 2)%Z by lia.
      by rewrite Z.div_mul by lia. }
  rewrite !Nat2Z.id. rewrite take_ge.
  - reflexivity.
  - rewrite length_app, !length_map, !length_seq. lia.
Qed.

Lemma fftfreq_even_lookup (h : nat) (d : Q) fv :
  ~ d == 0 -> (1 <= h)%nat ->
  fftfreq (Z.of_nat (2 * h)) d = Ok fv ->
  length fv = (2 * h)%nat
  /\ exists y, fv !! h = Some y /\ y == - (1 / (2 * d)).
Proof.
  intros Hd Hh. rewrite fftfreq_even by done. intros [= <-]. split.
  - rewrite length_map, length_app, !length_map, !length_seq. lia.
  - eexists. split.
    + rewrite list_lookup_fmap, lookup_app_r
        by (rewrite length_map, length_seq; lia).
      rewrite length_map, length_seq, Nat.sub_diag.
      rewrite list_lookup_fmap, lookup_seq_lt by lia. reflexivity.
    + cbv beta. change (0 + 0)%nat with 0%nat.
      change (Z.of_nat 0) with 0%Z. rewrite Z.add_0_r.
      replace (Z.of_nat (h + (h + 0))) with (2 * Z.of_nat h)%Z by lia.
      rewrite inject_Z_mult, inject_Z_opp.
      assert (Hh' : ~ inject_Z (Z.of_nat h) == 0).
      { unfold Qeq. simpl. lia. }
      change (inject_Z 2) with 2. field. split; done.
Qed.

(** C10.  For an even [Ntime = 2*h >= 2], [frequencyVectorSpectrum]
    is a view of the first [Nfreq = h + 1] elements of the buffer of
    [frequencyVector]; the sign flip of its last element is made in
    that buffer, so that after construction both arrays hold
    [+1/(2*timeStep)] at index [Nfreq - 1 = h] where [np.fft.fftfreq]
    gave [-1/(2*timeStep)], and every other element of
    [frequencyVector] is as [fftfreq] gave it. *)
Theorem nyquist_shared_buffer (self : obj) (timeStep spatialStep : Q)
    (h : nat) (Nspace : Z) :
  attrs self !! "timeStep"%string = Some (VFloat timeStep) ->
  attrs self !! "Ntime"%string = Some (VInt (Z.of_nat (2 * h))) ->
  attrs self !! "Nfreq"%string = Some (VInt (Z.of_nat (h + 1))) ->
  attrs self !! "spatialStep"%string = Some (VFloat spatialStep) ->
  attrs self !! "Nspace"%string = Some (VInt Nspace) ->
  0 < timeStep -> (1 <= h)%nat ->
  exists self' b buf fv,
    sampling_axes self = Ok self'
    /\ fftfreq (Z.of_nat (2 * h)) timeStep = Ok fv
    /\ attrs self' !! "frequencyVector"%string
       = Some (VView b 0 (2 * h))
    /\ attrs self' !! "frequencyVectorSpectrum"%string
       = Some (VView b 0 (h + 1))
    /\ bufs self' !! b = Some buf
    /\ (exists x, buf !! h = Some x /\ x == 1 / (2 * timeStep))
    /\ (exists y, fv !! h = Some y /\ y == - (1 / (2 * timeStep)))
    /\ forall i, i <> h -> buf !! i = fv !! i.
Proof.
  intros Htp Hnt Hnf Hsp Hns Hpos Hh.
  assert (Hd : ~ timeStep == 0).
  { intros E. rewrite E in Hpos. by apply Qlt_irrefl in Hpos. }
  destruct (fftfreq (Z.of_nat (2 * h)) timeStep) as [fv|e] eqn:Hfv;
    [|by rewrite fftfreq_even in Hfv].
  destruct (fftfreq_even_lookup h timeStep fv Hd Hh Hfv)
    as (Hlen & y & Hy & Hyv).
  set (tv := map (fun k => timeStep * k) (arange (Z.of_nat (2 * h)))).
  set (b := S (length (bufs self))).
  set (sv := map (fun k => spatialStep * (k - inject_Z Nspace / 2)
                           + (1 # 4) * spatialStep) (arange Nspace)).
  set (buf := <[h := y * -1]> fv).
  exists (new_array
            (mkobj
               (<["frequencyVectorSpectrum"%string := VView b 0 (h + 1)]>
                  (<["frequencyVector"%string := VView b 0 (2 * h)]>
                     (<["timeVector"%string
                        := VView (length (bufs self)) 0 (length tv)]>
                        (attrs self))))
               (<[b := buf]> ((bufs self ++ [tv]) ++ [fv])))
            "spaceVector" sv), b, buf, fv.
  assert (Hb : ((bufs self ++ [tv]) ++ [fv]) !! b = Some fv).
  { rewrite lookup_app_r by (rewrite length_app; simpl; unfold b; lia).
    rewrite length_app. simpl. unfold b.
    replace (S (length (bufs self)) - (length (bufs self) + 1))%nat
      with 0%nat by lia.
    reflexivity. }
  split_and!.
  - unfold sampling_axes.
    rewrite (get_float_lookup _ _ _ Htp). py_step.
    rewrite (get_int_lookup _ _ _ Hnt). py_step. fold tv.
    rewrite Hfv. py_step.
    erewrite (get_int_lookup _ "Nfreq") by attr_lookup. py_step.
    unfold slice_view.
    erewrite (getattr_lookup _ "frequencyVector") by attr_lookup. py_step.
    rewrite slice_to_nat, length_take, length_seq, Hlen.
    replace (Nat.min (h + 1) (2 * h)) with (h + 1)%nat by lia.
    cbn [bufs new_array]. rewrite length_app. cbn [length].
    replace (length (bufs self) + 1)%nat with b by (unfold b; lia).
    unfold imul_last.
    erewrite (getattr_lookup _ "frequencyVectorSpectrum") by attr_lookup.
    py_step.
    destruct (Nat.eqb_spec (h + 1) 0) as [|_]; [lia|].
    cbn [bufs setattr new_array]. rewrite Hb. py_step.
    replace (0 + (h + 1 - 1))%nat with h by lia.
    rewrite Hy. py_step. cbn [attrs setattr new_array]. fold buf.
    erewrite (get_float_lookup _ "spatialStep") by attr_lookup. py_step.
    erewrite (get_int_lookup _ "Nspace") by attr_lookup. py_step.
    cbn [bufs new_array]. rewrite ?length_app, ?Hlen. cbn [length].
    replace (length (bufs self) + 1)%nat with b by (unfold b; lia).
    reflexivity.
  - reflexivity.
  - cbn [attrs new_array]. by rewrite !lookup_insert_ne, lookup_insert_eq by done.
  - cbn [attrs new_array]. by rewrite !lookup_insert_ne, lookup_insert_eq by done.
  - cbn [bufs new_array]. rewrite lookup_app_l.
    + apply list_lookup_insert_eq. by apply lookup_lt_Some in Hb.
    + rewrite length_insert. by apply lookup_lt_Some in Hb.
  - exists (y * -1). split.
    + unfold buf. apply list_lookup_insert_eq. by apply lookup_lt_Some in Hy.
    + rewrite Hyv. field. done.
  - by exists y.
  - intros i Hi. unfold buf. by apply list_lookup_insert_ne.
Qed.

End axes.

(** * [loadSplit] *)

Section load_split.

Import Np LWE Spec.
Local Open Scope nat_scope.

Implicit Types (o self base : obj) (names : list string).

Lemma bind_Ok {A B} (m : py A) (k : A -> py B) (b : B) :
  m ≫= k = Ok b -> exists a, m = Ok a /\ k a = Ok b.
Proof. destruct m as [a|e]; [by exists a | discriminate]. Qed.

(** Splits an equation [x ← m; k x = Ok r] into its steps. *)
Ltac py_inv H :=
  repeat match type of H with
         | _ ≫= _ = Ok _ =>
             let x := fresh "x" in
             let Hx := fresh "Hx" in
             apply bind_Ok in H as (x & Hx & H); cbv beta zeta in H
         end.

Lemma same_except_refl names o : same_except names o o.
Proof. split; [done | reflexivity]. Qed.

Lemma same_except_trans names o1 o2 o3 :
  same_except names o1 o2 -> same_except names o2 o3 ->
  same_except names o1 o3.
Proof.
  intros [H1 P1] [H2 P2]. split.
  - intros name Hn. by rewrite H2, H1.
  - by etrans.
Qed.

Lemma same_except_setattr names o name v :
  name ∈ names -> same_except names o (setattr o name v).
Proof.
  intros Hin. split; [|reflexivity].
  intros n Hn. cbn [attrs setattr]. apply lookup_insert_ne.
  intros ->. by apply Hn.
Qed.

Lemma same_except_new_array names o name v :
  name ∈ names -> same_except names o (new_array o name v).
Proof.
  intros Hin. split.
  - intros n Hn. cbn [attrs new_array]. apply lookup_insert_ne.
    intros ->. by apply Hn.
  - cbn [bufs new_array]. by apply prefix_app_r.
Qed.

Lemma same_except_assign_slot names name ax k v o o' :
  name ∈ names -> assign_slot name ax k v o = Ok o' ->
  same_except names o o'.
Proof.
  intros Hin H. unfold assign_slot in H. py_inv H.
  injection H as <-. by apply same_except_setattr.
Qed.

Lemma py_foldl_invariant {A S} (P : S -> Prop) (body : S -> A -> py S) l s s' :
  (forall s x s', P s -> body s x = Ok s' -> P s') ->
  P s -> py_foldl body s l = Ok s' -> P s'.
Proof.
  intros Hstep. revert s. induction l as [|x l IH]; intros s Hs H.
  - by injection H as <-.
  - cbn [py_foldl] in H. apply bind_Ok in H as (s1 & H1 & H). eauto.
Qed.

Lemma assign_index_axis_shape ax k v a a' :
  assign_index_axis ax k v a = Ok a' -> shape a' = shape a.
Proof.
  unfold assign_index_axis. intros H.
  destruct (negb (k <? nth ax (shape a) 0)); [discriminate|].
  destruct (negb (broadcastable _ _)); [discriminate|].
  by injection H as <-.
Qed.

Lemma get_data_inv o name a :
  get_data o name = Ok a -> attrs o !! name = Some (VData a).
Proof.
  unfold get_data, getattr. destruct (attrs o !! name) as [[]|]; try done.
  by intros [= ->].
Qed.

Lemma leading_extent_setattr_ne o name v m n :
  name <> m -> leading_extent o m n -> leading_extent (setattr o name v) m n.
Proof.
  intros Hne (a & rest & Ha & Hsh). exists a, rest. split; [|done].
  unfold setattr. cbn [attrs]. by rewrite lookup_insert_ne.
Qed.

Lemma leading_extent_new_array_ne o name v m n :
  name <> m -> leading_extent o m n -> leading_extent (new_array o name v) m n.
Proof.
  intros Hne (a & rest & Ha & Hsh). exists a, rest. split; [|done].
  unfold new_array. cbn [attrs]. by rewrite lookup_insert_ne.
Qed.

Lemma leading_extent_assign_slot name ax k v o o' m n :
  assign_slot name ax k v o = Ok o' ->
  leading_extent o m n -> leading_extent o' m n.
Proof.
  intros H (a & rest & Ha & Hsh). unfold assign_slot in H. py_inv H.
  injection H as <-. unfold setattr. cbn [attrs].
  destruct (decide (name = m)) as [->|Hne].
  - apply get_data_inv in Hx. rewrite Ha in Hx. injection Hx as <-.
    exists x0, rest. split; [apply lookup_insert_eq|].
    by rewrite (assign_index_axis_shape _ _ _ _ _ Hx0).
  - exists a, rest. split; [|done]. cbn [attrs]. by rewrite lookup_insert_ne.
Qed.

Lemma leading_extent_assigned name ax k v o o' n rest :
  assign_slot name ax k v (setattr o name (VData (zeros (n :: rest)))) = Ok o' ->
  leading_extent o' name n.
Proof.
  intros H. eapply leading_extent_assign_slot; [exact H|].
  exists (zeros (n :: rest)), rest. split; [|done].
  cbn [attrs setattr]. apply lookup_insert_eq.
Qed.

(** *** The three stages of [loadSplit] *)

Lemma stack_field_frame stackAxis Ntotal o o' :
  stack_field stackAxis Ntotal o = Ok o' -> same_except mutated_names o o'.
Proof.
  intros H. unfold stack_field in H. py_inv H.
  eapply same_except_trans;
    [|eapply same_except_assign_slot; [|exact H]; compute_done].
  eapply same_except_trans; [|apply same_except_setattr; compute_done].
  eapply same_except_trans;
    [|eapply same_except_assign_slot; [|exact Hx2]; compute_done].
  apply same_except_setattr; compute_done.
Qed.

Lemma stack_spectra_frame Ntotal o o' :
  stack_spectra Ntotal o = Ok o' ->
  same_except mutated_names o o'
  /\ Forall (fun name => leading_extent o' name (Z.to_nat Ntotal))
            ["spectrum_x"; "spectrum_y"; "spectrumTotal"]%string.
Proof.
  intros H. unfold stack_spectra in H. py_inv H.
  destruct (Ntotal <? 0)%Z; [discriminate|]. injection Hx1 as <-.
  split.
  - eapply same_except_trans;
      [|eapply same_except_assign_slot; [|exact H]; compute_done].
    eapply same_except_trans; [|apply same_except_setattr; compute_done].
    eapply same_except_trans;
      [|eapply same_except_assign_slot; [|exact Hx5]; compute_done].
    eapply same_except_trans; [|apply same_except_setattr; compute_done].
    eapply same_except_trans;
      [|eapply same_except_assign_slot; [|exact Hx2]; compute_done].
    apply same_except_setattr; compute_done.
  - pose proof (leading_extent_assigned _ _ _ _ _ _ _ _ Hx2) as Lx.
    pose proof (get_data_inv _ _ _ Hx3) as Hsx.
    destruct Lx as (a & rest & Ha & Hsh). rewrite Hsx in Ha.
    injection Ha as <-. rewrite Hsh in Hx5, H.
    pose proof (leading_extent_assigned _ _ _ _ _ _ _ _ Hx5) as Ly.
    pose proof (leading_extent_assigned _ _ _ _ _ _ _ _ H) as Lt.
    repeat constructor.
    + eapply leading_extent_assign_slot; [exact H|].
      apply leading_extent_setattr_ne; [done|].
      eapply leading_extent_assign_slot; [exact Hx5|].
      apply leading_extent_setattr_ne; [done|].
      exists x3, rest. by split.
    + eapply leading_extent_assign_slot; [exact H|].
      apply leading_extent_setattr_ne; [done|]. exact Ly.
    + exact Lt.
Qed.

Lemma add_shard_frame fs listOfFileNames stackAxis batchType o i o' :
  add_shard fs listOfFileNames stackAxis batchType o i = Ok o' ->
  same_except mutated_names o o'
  /\ forall m n, leading_extent o m n -> m <> "batchVector"%string ->
                 leading_extent o' m n.
Proof.
  intros H. unfold add_shard in H. py_inv H. injection H as <-.
  split.
  - eapply same_except_trans; [|apply same_except_new_array; compute_done].
    eapply same_except_trans;
      [|eapply same_except_assign_slot; [|exact Hx10]; compute_done].
    eapply same_except_trans;
      [|eapply same_except_assign_slot; [|exact Hx8]; compute_done].
    eapply same_except_trans;
      [|eapply same_except_assign_slot; [|exact Hx6]; compute_done].
    eapply same_except_trans;
      [|eapply same_except_assign_slot; [|exact Hx4]; compute_done].
    eapply same_except_assign_slot; [|exact Hx2]; compute_done.
  - intros m n Hm Hne.
    apply leading_extent_new_array_ne; [done|].
    eapply leading_extent_assign_slot; [exact Hx10|].
    eapply leading_extent_assign_slot; [exact Hx8|].
    eapply leading_extent_assign_slot; [exact Hx6|].
    eapply leading_extent_assign_slot; [exact Hx4|].
    eapply leading_extent_assign_slot; [exact Hx2|]. exact Hm.
Qed.

(** C9.  When [loadSplit] returns, the result is the object loaded from
    the first shard except for the attributes [Ext_x], [Ext_y],
    [spectrum_x], [spectrum_y], [spectrumTotal], [batchVector] and
    [batchStart]: every other attribute has the value of the first
    shard, among them [Nsims] (still 1 for a single-point shard),
    [Ngrid] and [batchDestination], and the float arrays of the first
    shard keep their buffers, while the three spectra have a leading
    extent of [Ntotal]. *)
Theorem loadSplit_frame (fs : gmap string file) (baseName : string)
    (Ntotal : Z) (batchType : string) (result : obj) :
  loadSplit fs baseName Ntotal batchType = Ok result ->
  exists first,
    load fs (baseName +:+ "0000.txt")%string true = Ok first
    /\ (forall name, name ∉ mutated_names ->
                     attrs result !! name = attrs first !! name)
    /\ bufs first `prefix_of` bufs result
    /\ attrs result !! "Nsims"%string = attrs first !! "Nsims"%string
    /\ attrs result !! "Ngrid"%string = attrs first !! "Ngrid"%string
    /\ attrs result !! "batchDestination"%string
       = attrs first !! "batchDestination"%string
    /\ Forall (fun name => leading_extent result name (Z.to_nat Ntotal))
              ["spectrum_x"; "spectrum_y"; "spectrumTotal"]%string.
Proof.
  intros H. unfold loadSplit in H. cbv zeta in H.
  set (names := map _ (seq 0 (Z.to_nat Ntotal))) in H.
  py_inv H.
  assert (Hname : x = (baseName +:+ "0000.txt")%string).
  { unfold names in Hx. destruct (Z.to_nat Ntotal); [discriminate|].
    simpl in Hx. by injection Hx as <-. }
  subst x. exists x0. split; [exact Hx0|].
  apply stack_field_frame in Hx2 as F1.
  apply stack_spectra_frame in Hx3 as [F2 L2].
  set (start := setattr (setattr x3 "batchVector" x4) "batchStart" x5) in *.
  set (spectra := ["spectrum_x"; "spectrum_y"; "spectrumTotal"]%string) in *.
  assert (Hne : forall name, name ∈ spectra ->
                  name <> "batchVector"%string /\ name <> "batchStart"%string).
  { intros name Hin. unfold spectra in Hin.
    rewrite !elem_of_cons, elem_of_nil in Hin.
    destruct Hin as [->|[->|[->|[]]]]; by split. }
  assert (F3 : same_except mutated_names x0 start).
  { eapply same_except_trans; [exact F1|].
    eapply same_except_trans; [exact F2|].
    eapply same_except_trans;
      [apply (same_except_setattr _ x3 "batchVector"%string x4); compute_done|].
    apply same_except_setattr; compute_done. }
  assert (L3 : Forall (fun name => leading_extent start name (Z.to_nat Ntotal))
                 spectra).
  { rewrite Forall_forall in L2. apply Forall_forall. intros name Hin.
    destruct (Hne name Hin) as [N1 N2]. unfold start.
    apply leading_extent_setattr_ne; [done|].
    apply leading_extent_setattr_ne; [done|]. by apply L2. }
  assert (Hfinal : same_except mutated_names x0 result
            /\ Forall (fun name => leading_extent result name (Z.to_nat Ntotal))
                      spectra).
  { eapply (py_foldl_invariant
              (fun o => same_except mutated_names x0 o
                        /\ Forall (fun name =>
                                     leading_extent o name (Z.to_nat Ntotal))
                                  spectra));
      [|split; [exact F3 | exact L3]|exact H].
    intros o i o' [Fo Lo] Hstep.
    apply add_shard_frame in Hstep as [Fs Ls]. split.
    - by eapply same_except_trans.
    - rewrite Forall_forall in Lo. apply Forall_forall. intros name Hin.
      apply Ls; [by apply Lo|]. by destruct (Hne name Hin). }
  destruct Hfinal as [[Hattrs Hbufs] Hlead].
  split; [exact Hattrs|]. split; [exact Hbufs|].
  split; [apply Hattrs; compute_done|].
  split; [apply Hattrs; compute_done|].
  split; [apply Hattrs; compute_done|].
  exact Hlead.
Qed.

End load_split.

(** * Strings and paths *)

Section strings.

Local Open Scope string_scope.

Implicit Types (a b s e : string) (c : ascii).

Lemma append_cons c a b : String c a +:+ b = String c (a +:+ b).
Proof. reflexivity. Qed.

Lemma append_nil_l b : "" +:+ b = b.
Proof. reflexivity. Qed.

Lemma append_assoc a b s : (a +:+ b) +:+ s = a +:+ (b +:+ s).
Proof. induction a as [|c a IH]; [done|]. rewrite !append_cons. by rewrite IH. Qed.

Lemma length_append a b :
  String.length (a +:+ b) = (String.length a + String.length b)%nat.
Proof.
  induction a as [|c a IH]; [done|]. rewrite append_cons. cbn. by rewrite IH.
Qed.

Lemma append_inj_r a b s :
  String.length a = String.length b -> a +:+ s = b +:+ s -> a = b.
Proof.
  revert b. induction a as [|c a IH]; intros [|d b] Hlen H; try discriminate.
  - reflexivity.
  - rewrite !append_cons in H. injection H as -> H. f_equal.
    apply IH; [|done]. simpl in Hlen. lia.
Qed.

Lemma prefix_append a b : String.prefix a (a +:+ b) = true.
Proof.
  induction a as [|c a IH]; [by destruct b|].
  rewrite append_cons. cbn. destruct (ascii_dec c c); [done | congruence].
Qed.

Lemma startswith_append a b : Str.startswith (a +:+ b) a = true.
Proof. apply prefix_append. Qed.

Lemma compare_refl s : String.compare s s = Eq.
Proof.
  induction s as [|c s IH]; [done|]. cbn.
  unfold Ascii.compare. by rewrite N.compare_refl.
Qed.

Lemma compare_append a b s :
  String.length a = String.length b ->
  String.compare (a +:+ s) (b +:+ s) = String.compare a b.
Proof.
  revert b. induction a as [|c a IH]; intros [|d b] Hlen; try discriminate.
  - rewrite !append_nil_l. apply compare_refl.
  - rewrite !append_cons. cbn. rewrite IH by (simpl in Hlen; lia).
    reflexivity.
Qed.

Lemma le_append a b s :
  String.length a = String.length b ->
  String.le a b -> String.le (a +:+ s) (b +:+ s).
Proof.
  intros Hlen. unfold String.le, String.leb. by rewrite compare_append.
Qed.

(** [rfind] in a concatenation. *)
Lemma rfind_append c a b :
  Str.rfind c (a +:+ b)
  = match Str.rfind c b with
    | Some i => Some (String.length a + i)%nat
    | None => Str.rfind c a
    end.
Proof.
  induction a as [|d a IH].
  - rewrite append_nil_l. by destruct (Str.rfind c b).
  - rewrite append_cons. cbn. rewrite IH. by destruct (Str.rfind c b).
Qed.

Lemma substring_append_l a b :
  String.substring 0 (String.length a) (a +:+ b) = a.
Proof.
  induction a as [|c a IH]; [by destruct b|].
  rewrite append_cons. cbn. by rewrite IH.
Qed.

Lemma substring_all s : String.substring 0 (String.length s) s = s.
Proof. induction s as [|c s IH]; cbn; [done|]. by rewrite IH. Qed.

Lemma substring_append_r a b :
  String.substring (String.length a) (String.length b) (a +:+ b) = b.
Proof.
  induction a as [|c a IH]; [apply substring_all|].
  rewrite append_cons. by cbn.
Qed.

(** The stem and the extension of a plain file name. *)
Lemma splitext_stem a e :
  a <> "" -> Str.rfind OsPath.sep a = None -> Str.rfind OsPath.dot a = None ->
  Str.rfind OsPath.sep e = None -> Str.rfind OsPath.dot e = Some 0%nat ->
  OsPath.splitext (a +:+ e) = (a, e).
Proof.
  intros Ha Hsa Hda Hse Hde. unfold OsPath.splitext.
  rewrite !rfind_append, Hde, Hse, Hsa, Nat.add_0_r.
  cbn [Nat.leb andb]. unfold OsPath.only_dots.
  rewrite Nat.sub_0_r, substring_append_l.
  assert (Hdots : forallb (Ascii.eqb OsPath.dot) (Str.to_list a) = false).
  { destruct a as [|c a]; [done|].
    change (Str.rfind OsPath.dot (String c a))
      with (match Str.rfind OsPath.dot a with
            | Some i => Some (S i)
            | None => if Ascii.eqb c OsPath.dot then Some 0%nat else None
            end) in Hda.
    change (forallb (Ascii.eqb OsPath.dot) (Str.to_list (String c a)))
      with (Ascii.eqb OsPath.dot c
            && forallb (Ascii.eqb OsPath.dot) (Str.to_list a)).
    destruct (Str.rfind OsPath.dot a); [done|].
    rewrite Ascii.eqb_sym.
    by destruct (Ascii.eqb c OsPath.dot). }
  rewrite Hdots. cbn [negb]. f_equal.
  - unfold Str.take. apply substring_append_l.
  - unfold Str.drop. rewrite length_append.
    replace (String.length a + String.length e - String.length a)%nat
      with (String.length e) by lia.
    apply substring_append_r.
Qed.

Lemma basename_plain s : Str.rfind OsPath.sep s = None -> OsPath.basename s = s.
Proof. intros H. unfold OsPath.basename. by rewrite H. Qed.

End strings.

(** * Fusing archives and fusing flat files *)

Section fuse_zips.

Import LWE Spec.
Local Open Scope nat_scope.

Implicit Types (fs : gmap string file) (shards : list shard) (sh : shard).

Lemma rfind_digits c (s : string) :
  Str.is_digit c = false ->
  forallb Str.is_digit (Str.to_list s) = true ->
  Str.rfind c s = None.
Proof.
  intros Hc. induction s as [|a s IH]; [done|].
  change (Str.to_list (String a s)) with (a :: Str.to_list s).
  cbn [forallb]. intros [Ha Hs]%andb_prop.
  change (Str.rfind c (String a s))
    with (match Str.rfind c s with
          | Some i => Some (S i)
          | None => if Ascii.eqb a c then Some 0 else None
          end).
  rewrite (IH Hs). destruct (Ascii.eqb_spec a c) as [->|]; [congruence|done].
Qed.

(** What the naming convention gives for the name of a shard. *)
Lemma shard_name_facts baseName width sh :
  plain_stem baseName -> 1 <= width -> shard_named baseName width sh ->
  shard_name sh <> ""%string
  /\ Str.rfind OsPath.sep (shard_name sh) = None
  /\ Str.rfind OsPath.dot (shard_name sh) = None
  /\ String.length (shard_name sh) = String.length baseName + width
  /\ (forall e, Str.startswith (shard_name sh +:+ e) baseName = true)
  /\ (forall e, e <> ""%string ->
                (shard_name sh +:+ e)%string <> (baseName +:+ e)%string).
Proof.
  intros (Hne & Hsep & Hdot) Hw (ord & Hname & Hlen & Hdig).
  rewrite Hname. split_and!.
  - destruct baseName; [done | discriminate].
  - rewrite rfind_append, (rfind_digits OsPath.sep ord eq_refl Hdig).
    exact Hsep.
  - rewrite rfind_append, (rfind_digits OsPath.dot ord eq_refl Hdig).
    exact Hdot.
  - by rewrite length_append, Hlen.
  - intros e. rewrite append_assoc. apply startswith_append.
  - intros e He H. rewrite append_assoc in H.
    apply (inj (String.app baseName)) in H.
    apply (f_equal String.length) in H. rewrite length_append in H. lia.
Qed.

Lemma endswith_zip (s : string) : Str.endswith (s +:+ ".zip") ".zip" = true.
Proof.
  unfold Str.endswith, String.rev. rewrite rev_app_append.
  cbn [String.rev_app String.prefix].
  repeat (destruct (ascii_dec _ _); [|congruence]).
  by destruct (String.rev_app s "").
Qed.

Lemma endswith_Ext (s : string) :
  Str.endswith (s +:+ "_Ext.dat") "_Ext.dat" = true.
Proof.
  unfold Str.endswith, String.rev. rewrite rev_app_append.
  cbn [String.rev_app String.prefix].
  repeat (destruct (ascii_dec _ _); [|congruence]).
  by destruct (String.rev_app s "").
Qed.

Lemma endswith_spectrum (s : string) :
  Str.endswith (s +:+ "_spectrum.dat") "_spectrum.dat" = true.
Proof.
  unfold Str.endswith, String.rev. rewrite rev_app_append.
  cbn [String.rev_app String.prefix].
  repeat (destruct (ascii_dec _ _); [|congruence]).
  by destruct (String.rev_app s "").
Qed.

Lemma rfind_sep_append (a e : string) :
  Str.rfind OsPath.sep a = None -> Str.rfind OsPath.sep e = None ->
  Str.rfind OsPath.sep (a +:+ e) = None.
Proof. intros Ha He. by rewrite rfind_append, He. Qed.

(** Names of one length keep their order under a common suffix. *)
Lemma Sorted_suffix (names : list string) (L : nat) (e : string) :
  Forall (fun n => String.length n = L) names ->
  Sorted String.le names ->
  Sorted String.le (map (fun n => n +:+ e)%string names).
Proof.
  intros Hlen Hs. induction Hs as [|n names Hs IH Hhd]; [constructor|].
  apply Forall_cons in Hlen as [Hn Hlen]. simpl. constructor; [by apply IH|].
  destruct Hhd as [|m names' Hnm]; simpl; constructor.
  apply le_append; [|done].
  apply Forall_cons in Hlen as [Hm _]. congruence.
Qed.

Lemma NoDup_suffix (names : list string) (L : nat) (e : string) :
  Forall (fun n => String.length n = L) names ->
  NoDup names -> NoDup (map (fun n => n +:+ e)%string names).
Proof.
  intros Hlen Hnd. apply NoDup_fmap_2_strong; [|done].
  rewrite Forall_forall in Hlen.
  intros x y Hx Hy H. apply (append_inj_r x y e); [|done].
  by rewrite (Hlen x Hx), (Hlen y Hy).
Qed.

(** The names a fusion finds are those of the shards with the ending,
    in the order of the shards. *)
Lemma selection_is_shards (P : string -> bool) fs shards baseName width e :
  plain_stem baseName -> 1 <= width ->
  Forall (shard_named baseName width) shards ->
  Sorted String.le (map shard_name shards) ->
  NoDup (map shard_name shards) ->
  Str.rfind OsPath.sep e = None ->
  (forall sh, sh ∈ shards ->
              is_Some (fs !! (shard_name sh +:+ e)%string)
              /\ P (shard_name sh +:+ e)%string = true) ->
  (forall name, is_Some (fs !! name) -> Str.rfind OsPath.sep name = None ->
                P name = true ->
                exists sh, sh ∈ shards /\ name = (shard_name sh +:+ e)%string) ->
  sorted (filter (fun name => P name) (listdir fs))
  = map (fun sh => shard_name sh +:+ e)%string shards.
Proof.
  intros Hstem Hw Hnamed Hsorted Hnd He Hin Hout.
  assert (Hlen : Forall (fun n => String.length n
                                  = String.length baseName + width)
                   (map shard_name shards)).
  { rewrite Forall_fmap. eapply Forall_impl; [exact Hnamed|].
    intros sh Hsh. cbv beta.
    by destruct (shard_name_facts baseName width sh Hstem Hw Hsh)
      as (_ & _ & _ & H & _). }
  replace (map (fun sh => shard_name sh +:+ e)%string shards)
    with (map (fun n => n +:+ e)%string (map shard_name shards))
    by (by rewrite map_map).
  apply sorted_names_unique.
  - apply Sorted_merge_sort. apply _.
  - by eapply Sorted_suffix.
  - unfold sorted. rewrite merge_sort_Permutation.
    apply NoDup_filter, NoDup_listdir.
  - by eapply NoDup_suffix.
  - intros name. unfold sorted. rewrite merge_sort_Permutation.
    rewrite list_elem_of_filter, elem_of_listdir, Is_true_true.
    rewrite map_map, list_elem_of_fmap. split.
    + intros (HP & Hsome & Hsep).
      destruct (Hout name Hsome Hsep HP) as (sh & Hsh & ->). by exists sh.
    + intros (sh & -> & Hsh). destruct (Hin sh Hsh) as [Hsome HP].
      split; [done|]. split; [done|].
      rewrite Forall_forall in Hnamed.
      destruct (shard_name_facts baseName width sh Hstem Hw (Hnamed sh Hsh))
        as (_ & Hsep & _).
      by apply rfind_sep_append.
Qed.

Lemma archive_stem baseName width sh :
  plain_stem baseName -> 1 <= width -> shard_named baseName width sh ->
  fst (OsPath.splitext (OsPath.basename (shard_name sh +:+ ".zip")))
  = shard_name sh.
Proof.
  intros Hstem Hw Hsh.
  destruct (shard_name_facts baseName width sh Hstem Hw Hsh)
    as (Hne & Hsep & Hdot & _).
  rewrite basename_plain by (by apply rfind_sep_append).
  by rewrite splitext_stem.
Qed.

Lemma open_zip_Zip fs path entries :
  fs !! path = Some (Zip entries) -> open_zip fs path = Ok entries.
Proof. intros H. unfold open_zip. by rewrite H. Qed.

Lemma zip_read_entry (archive : gmap string (list byte)) name bs :
  archive !! name = Some bs -> zip_read archive name = Ok bs.
Proof. intros H. unfold zip_read. by rewrite H. Qed.

(** The loop of [fuseZips] over the archives of the shards. *)
Lemma fuseZips_loop fs baseName width shards Ext spectrum :
  plain_stem baseName -> 1 <= width ->
  Forall (shard_named baseName width) shards ->
  (forall sh, sh ∈ shards ->
     exists entries,
       fs !! (shard_name sh +:+ ".zip")%string = Some (Zip entries)
       /\ entries !! (shard_name sh +:+ "_Ext.dat")%string
          = Some (shard_field sh)
       /\ entries !! (shard_name sh +:+ "_spectrum.dat")%string
          = Some (shard_spectrum sh)) ->
  py_foldl (fun '(Ext, spectrum) sourceFile =>
              sourceZip ← open_zip fs sourceFile;
              s ← zip_read sourceZip
                    (fst (OsPath.splitext (OsPath.basename sourceFile))
                     +:+ "_spectrum.dat");
              e ← zip_read sourceZip
                    (fst (OsPath.splitext (OsPath.basename sourceFile))
                     +:+ "_Ext.dat");
              Ok ((Ext ++ e)%list, (spectrum ++ s)%list))
           (Ext, spectrum)
           (map (fun sh => shard_name sh +:+ ".zip")%string shards)
  = Ok ((Ext ++ concat (map shard_field shards))%list,
        (spectrum ++ concat (map shard_spectrum shards))%list).
Proof.
  intros Hstem Hw Hnamed. revert Ext spectrum.
  induction Hnamed as [|sh shards Hsh _ IH]; intros Ext spectrum Hin.
  - simpl. by rewrite !app_nil_r.
  - destruct (Hin sh) as (entries & Hzip & HE & HS); [left|].
    cbn [map py_foldl]. cbv beta iota zeta.
    rewrite (archive_stem baseName width sh Hstem Hw Hsh).
    rewrite (open_zip_Zip _ _ _ Hzip). py_step.
    rewrite (zip_read_entry _ _ _ HS). py_step.
    rewrite (zip_read_entry _ _ _ HE). py_step.
    rewrite IH by (intros sh' Hsh'; apply Hin; by right).
    cbn [map concat]. by rewrite <- !app_assoc.
Qed.

(** C8.  Let the shards follow the naming convention (the base name,
    a file stem, followed by an ordinal of a fixed number of decimal
    digits) and be listed in the lexicographic order of their names.  Let
    one directory hold their archives and another the flat binaries
    extracted from them.  Then [fuseZips] and [fuseBinaries] both succeed,
    and the [_Ext.dat] and [_spectrum.dat] entries of the destination
    archive have the bytes of the destination files of [fuseBinaries]:
    the concatenation of the field, respectively spectrum, bytes of the
    shards in that order. *)
Theorem fuseZips_matches_fuseBinaries
    (zfs ffs : gmap string file) (baseName : string) (width : nat)
    (shards : list shard) :
  plain_stem baseName -> 1 <= width ->
  Forall (shard_named baseName width) shards ->
  Sorted String.le (map shard_name shards) ->
  NoDup (map shard_name shards) ->
  archives_of zfs baseName shards ->
  extracted_of ffs baseName shards ->
  exists zfs' ffs' destinationZip,
    fuseZips zfs (baseName +:+ ".zip") = Ok zfs'
    /\ fuseBinaries ffs (baseName +:+ ".txt") = Ok ffs'
    /\ zfs' !! (baseName +:+ ".zip")%string = Some (Zip destinationZip)
    /\ destinationZip !! (baseName +:+ "_Ext.dat")%string
       = Some (concat (map shard_field shards))
    /\ destinationZip !! (baseName +:+ "_spectrum.dat")%string
       = Some (concat (map shard_spectrum shards))
    /\ ffs' !! (baseName +:+ "_Ext.dat")%string
       = Some (Plain (concat (map shard_field shards)))
    /\ ffs' !! (baseName +:+ "_spectrum.dat")%string
       = Some (Plain (concat (map shard_spectrum shards))).
Proof.
  intros Hstem Hw Hnamed Hsorted Hnd [Hzin Hzout] [Hfin Hfout].
  pose proof Hstem as (Hne & Hsep & Hdot).
  assert (Hfacts : forall sh, sh ∈ shards ->
            shard_name sh <> ""%string
            /\ Str.rfind OsPath.sep (shard_name sh) = None
            /\ Str.rfind OsPath.dot (shard_name sh) = None
            /\ String.length (shard_name sh) = String.length baseName + width
            /\ (forall e, Str.startswith (shard_name sh +:+ e) baseName = true)
            /\ (forall e, e <> ""%string ->
                   (shard_name sh +:+ e)%string <> (baseName +:+ e)%string)).
  { intros sh Hsh. rewrite Forall_forall in Hnamed.
    by apply (shard_name_facts baseName width sh Hstem Hw), Hnamed. }
  (* the flat files *)
  assert (HbaseF :
    fst (OsPath.splitext (OsPath.basename (baseName +:+ ".txt")))
    = baseName).
  { rewrite basename_plain by (by apply rfind_sep_append).
    by rewrite splitext_stem. }
  destruct (fuseBinaries_concat ffs (baseName +:+ ".txt")
              (map (fun sh => (shard_field sh, shard_spectrum sh)) shards))
    as (ffs' & Hfuse & HfE & HfS).
  { rewrite HbaseF. unfold select_files.
    rewrite (selection_is_shards _ _ shards baseName width "_Ext.dat");
      try done.
    - apply Forall2_fmap, Forall_Forall2_diag, Forall_forall.
      intros sh Hsh. cbn [fst]. by apply Hfin.
    - intros sh Hsh. destruct (Hfacts sh Hsh) as (_ & _ & _ & _ & Hst & Hneq).
      split.
      + rewrite lookup_delete_ne by (apply not_eq_sym, Hneq; done).
        destruct (Hfin sh Hsh) as [-> _]. by eexists.
      + by rewrite Hst, endswith_Ext.
    - intros name [v Hv] Hs [Hst Hend]%andb_prop.
      destruct (decide (name = (baseName +:+ "_Ext.dat")%string))
        as [->|Hneq]; [by rewrite lookup_delete_eq in Hv|].
      rewrite lookup_delete_ne in Hv by done.
      apply (Hfout name "_Ext.dat"); auto. }
  { rewrite HbaseF. unfold select_files.
    rewrite (selection_is_shards _ _ shards baseName width "_spectrum.dat");
      try done.
    - apply Forall2_fmap, Forall_Forall2_diag, Forall_forall.
      intros sh Hsh. cbn [snd]. by apply Hfin.
    - intros sh Hsh. destruct (Hfacts sh Hsh) as (_ & _ & _ & _ & Hst & Hneq).
      split.
      + rewrite lookup_delete_ne by (apply not_eq_sym, Hneq; done).
        destruct (Hfin sh Hsh) as [_ ->]. by eexists.
      + by rewrite Hst, endswith_spectrum.
    - intros name [v Hv] Hs [Hst Hend]%andb_prop.
      destruct (decide (name = (baseName +:+ "_spectrum.dat")%string))
        as [->|Hneq]; [by rewrite lookup_delete_eq in Hv|].
      rewrite lookup_delete_ne in Hv by done.
      apply (Hfout name "_spectrum.dat"); auto. }
  rewrite HbaseF in HfE, HfS. rewrite !map_map in HfE, HfS.
  cbn [fst snd] in HfE, HfS.
  (* the archives *)
  assert (HbaseZ :
    fst (OsPath.splitext (OsPath.basename (baseName +:+ ".zip")))
    = baseName).
  { rewrite basename_plain by (by apply rfind_sep_append).
    by rewrite splitext_stem. }
  assert (Hdest : fst (OsPath.splitext (baseName +:+ ".zip")) = baseName)
    by (by rewrite splitext_stem).
  unfold fuseZips. cbv zeta. rewrite HbaseZ, Hdest.
  rewrite (selection_is_shards _ zfs shards baseName width ".zip");
    try done.
  - rewrite (fuseZips_loop zfs baseName width shards [] []) by done.
    py_step. cbn [app].
    eexists _, ffs', _. split; [reflexivity|]. split; [exact Hfuse|].
    split; [by rewrite lookup_insert_eq|].
    split; [by rewrite lookup_insert_eq|].
    split; [|by split].
    rewrite lookup_insert_ne by apply Ext_ne_spectrum.
    by rewrite lookup_insert_eq.
  - intros sh Hsh. destruct (Hfacts sh Hsh) as (_ & _ & _ & _ & Hst & Hneq).
    destruct (Hzin sh Hsh) as (entries & -> & _). split; [by eexists|].
    rewrite Hst, endswith_zip. cbn [andb].
    apply negb_true_iff, String.eqb_neq. by apply Hneq.
  - intros name Hsome Hs [[Hst Hend]%andb_prop Hneq]%andb_prop.
    apply negb_true_iff, String.eqb_neq in Hneq.
    by apply Hzout.
Qed.

End fuse_zips.

(** * The theorems on concrete runs *)

Section concrete_runs.

Import Np LWE Spec.
Local Open Scope nat_scope.

(** The field blob of the first example shard, read from the archive
    and from the flat file on the 8 by 8 grid. *)
Lemma field_blob_layout_witness :
  exists Ext_x Ext_y,
    load_field true Ex.flat_shards (Ex.entries_of "R0000" "100" Ex.shard0)
      "R0000" Ex.grid8
    = Ok (setattr (setattr Ex.grid8 "Ext_x"%string (VData Ext_x))
                  "Ext_y"%string (VData Ext_y))
    /\ load_field false Ex.flat_shards (Ex.entries_of "R0000" "100" Ex.shard0)
         "R0000" Ex.grid8
       = Ok (setattr (setattr Ex.grid8 "Ext_x"%string (VData Ext_x))
                     "Ext_y"%string (VData Ext_y))
    /\ shape Ext_x = [8; 8]
    /\ get Ext_x [3; 2] = Some 19%N
    /\ get Ext_y [3; 2] = Some 83%N.
Proof.
  destruct (field_blob_layout Ex.flat_shards
              (Ex.entries_of "R0000" "100" Ex.shard0) "R0000" "R0000"
              Ex.grid8 (fst Ex.shard0) 128 0 8 8 1 1 1)
    as (Ext_x & Ext_y & H1 & H2 & H3 & _ & H5);
    [by vm_compute | by exists 1 | by exists 1 | by vm_compute
    | by vm_compute | by vm_compute | vm_compute; lia |].
  exists Ext_x, Ext_y. split; [exact H1|]. split; [exact H2|].
  split; [exact H3|].
  destruct (H5 [3; 2] 0 0) as [Hx Hy]; [reflexivity | lia | lia |].
  split; [exact Hx | exact Hy].
Defined.



(** The frequency axes of the 8 by 8 grid with a unit time step. *)
Lemma nyquist_shared_buffer_witness :
  exists self' b buf x,
    sampling_axes Ex.grid8 = Ok self'
    /\ attrs self' !! "frequencyVector"%string = Some (VView b 0 8)
    /\ attrs self' !! "frequencyVectorSpectrum"%string = Some (VView b 0 5)
    /\ bufs self' !! b = Some buf
    /\ buf !! 4 = Some x /\ (x == 1 / (2 * 1))%Q.
Proof.
  destruct (nyquist_shared_buffer Ex.grid8 1 1 4 8)
    as (self' & b & buf & fv & H1 & _ & H3 & H4 & H5 & (x & Hx & Hxv) & _);
    [by vm_compute | by vm_compute | by vm_compute | by vm_compute
    | by vm_compute | reflexivity | lia |].
  exists self', b, buf, x. by split_and!.
Defined.

(** Two example shards loaded as a split run. *)
Lemma loadSplit_frame_witness :
  exists result first,
    loadSplit Ex.flat_shards "R" 2 "frequency1" = Ok result
    /\ load Ex.flat_shards "R0000.txt" true = Ok first
    /\ attrs result !! "Nsims"%string = attrs first !! "Nsims"%string
    /\ leading_extent result "spectrum_x" 2.
Proof.
  assert (H : exists result,
             loadSplit Ex.flat_shards "R" 2 "frequency1" = Ok result)
    by (eexists; vm_compute; reflexivity).
  destruct H as [result H].
  destruct (loadSplit_frame Ex.flat_shards "R" 2 "frequency1" result H)
    as (first & H1 & _ & _ & H4 & _ & _ & H7).
  exists result, first. split; [exact H|]. split; [exact H1|].
  split; [exact H4|]. by apply Forall_cons in H7 as [H7 _].
Defined.

(** The two example shards fused and decoded as a batch of two. *)
Lemma fuse_then_decode_witness :
  exists fs' fusedE fusedS Ext_x Ext_y spectrumTotal spectrum_x spectrum_y
         Ext_x_1 spectrum_x_1,
    fuseBinaries Ex.flat_shards "R.txt" = Ok fs'
    /\ fs' !! "R_Ext.dat"%string = Some (Plain fusedE)
    /\ fs' !! "R_spectrum.dat"%string = Some (Plain fusedS)
    /\ decode_field false 8 8 1 64 2 1 (fromfile fusedE) = Ok (Ext_x, Ext_y)
    /\ decode_spectrum 5 2 1 (fromfile fusedS)
       = Ok (spectrumTotal, spectrum_x, spectrum_y)
    /\ batch_last 2 1 Ext_x = Ok Ext_x_1
    /\ batch_first 2 1 spectrum_x = Ok spectrum_x_1
    /\ (exists Ext_y_1,
          decode_field false 8 8 1 64 1 1 (fromfile (fst Ex.shard1))
          = Ok (Ext_x_1, Ext_y_1))
    /\ (exists spectrumTotal_1 spectrum_y_1,
          decode_spectrum 5 1 1 (fromfile (snd Ex.shard1))
          = Ok (spectrumTotal_1, spectrum_x_1, spectrum_y_1)).
Proof.
  destruct (fuse_then_decode Ex.flat_shards "R.txt" [Ex.shard0; Ex.shard1]
              0 8 8 1)
    as (fs' & fusedE & fusedS & Ext_x & Ext_y & spectrumTotal & spectrum_x
        & spectrum_y & H1 & H2 & H3 & H4 & H5 & H6);
    [vm_compute; by repeat constructor
    | vm_compute; by repeat constructor
    | vm_compute; by repeat constructor |].
  destruct (H6 1 Ex.shard1 eq_refl)
    as (Ext_x_1 & Ext_y_1 & spectrumTotal_1 & spectrum_x_1 & spectrum_y_1
        & K1 & K2 & K3 & _ & _ & K6 & _).
  exists fs', fusedE, fusedS, Ext_x, Ext_y, spectrumTotal, spectrum_x,
         spectrum_y, Ext_x_1, spectrum_x_1.
  split; [exact H1|]. split; [exact H2|]. split; [exact H3|].
  split; [exact H4|]. split; [exact H5|]. split; [exact K3|].
  split; [exact K6|]. split; [by exists Ext_y_1|].
  by exists spectrumTotal_1, spectrum_y_1.
Defined.

(** C1 as stated fails for shards that are decodable alone but hold
    more than the doubles of one run: with one double too many at the
    end of the first spectrum, every shard still decodes with
    [Nsims = Nsims2 = 1] on the common 8 by 8 grid, and the fused
    spectrum decoded with [Nsims = 2] has at batch index 1 the surplus
    double of shard 0 followed by the doubles of shard 1 moved on by
    one place. *)
Lemma fuse_surplus_double_shifts :
  exists fs' fusedS spectrumTotal spectrum_x spectrum_y
         spectrumTotal_1 spectrum_x_1 spectrum_y_1 part,
    is_ok (decode_field false 8 8 1 64 1 1 (fromfile (fst Ex.shard0_long)))
    = true
    /\ is_ok (decode_spectrum 5 1 1 (fromfile (snd Ex.shard0_long))) = true
    /\ is_ok (decode_field false 8 8 1 64 1 1 (fromfile (fst Ex.shard1)))
       = true
    /\ decode_spectrum 5 1 1 (fromfile (snd Ex.shard1))
       = Ok (spectrumTotal_1, spectrum_x_1, spectrum_y_1)
    /\ select_files (delete "R_spectrum.dat"%string Ex.flat_shards_long)
         "R" "_spectrum.dat"
       = ["R0000_spectrum.dat"; "R0001_spectrum.dat"]%string
    /\ Ex.flat_shards_long !! "R0000_spectrum.dat"%string
       = Some (Plain (snd Ex.shard0_long))
    /\ Ex.flat_shards_long !! "R0001_spectrum.dat"%string
       = Some (Plain (snd Ex.shard1))
    /\ fuseBinaries Ex.flat_shards_long "R.txt" = Ok fs'
    /\ fs' !! "R_spectrum.dat"%string = Some (Plain fusedS)
    /\ decode_spectrum 5 2 1 (fromfile fusedS)
       = Ok (spectrumTotal, spectrum_x, spectrum_y)
    /\ batch_first 2 1 spectrum_x = Ok part
    /\ data spectrum_x_1 = [200; 201; 202; 203; 204]%N
    /\ data part = [115; 200; 201; 202; 203]%N
    /\ part <> spectrum_x_1.
Proof.
  do 9 eexists.
  split; [by vm_compute|]. split; [by vm_compute|]. split; [by vm_compute|].
  split; [vm_compute; reflexivity|]. split; [by vm_compute|].
  split; [by vm_compute|]. split; [by vm_compute|].
  split; [vm_compute; reflexivity|]. split; [vm_compute; reflexivity|].
  split; [vm_compute; reflexivity|]. split; [vm_compute; reflexivity|].
  split; [by vm_compute|]. split; [by vm_compute|]. discriminate.
Qed.

Lemma archives_of_example : archives_of Ex.zip_shards "R" Ex.shards.
Proof.
  split.
  - intros sh Hsh. unfold Ex.shards in Hsh.
    rewrite !elem_of_cons, elem_of_nil in Hsh.
    destruct Hsh as [->|[->|[]]]; eexists; by vm_compute.
  - intros name [v Hv] _ _ _ _. unfold Ex.zip_shards in Hv.
    apply elem_of_list_to_map_2 in Hv.
    rewrite !elem_of_cons, elem_of_nil in Hv.
    destruct Hv as [Hv|[Hv|[]]]; injection Hv as -> _.
    + eexists. split; [by left | reflexivity].
    + eexists. split; [right; by left | reflexivity].
Qed.

Lemma extracted_of_example : extracted_of Ex.flat_shards "R" Ex.shards.
Proof.
  split.
  - intros sh Hsh. unfold Ex.shards in Hsh.
    rewrite !elem_of_cons, elem_of_nil in Hsh.
    destruct Hsh as [->|[->|[]]]; by vm_compute.
  - intros name ending He [v Hv] _ _ Hend _. unfold Ex.flat_shards in Hv.
    apply elem_of_list_to_map_2 in Hv.
    rewrite !elem_of_cons, elem_of_nil in Hv.
    destruct Hv as [Hv|[Hv|[Hv|[Hv|[Hv|[Hv|[]]]]]]]; injection Hv as -> _;
      destruct He as [->| ->]; try (by vm_compute in Hend).
    + eexists. split; [by left | reflexivity].
    + eexists. split; [by left | reflexivity].
    + eexists. split; [right; by left | reflexivity].
    + eexists. split; [right; by left | reflexivity].
Qed.

(** The two example shards fused as archives and as flat files. *)
Lemma fuseZips_matches_fuseBinaries_witness :
  exists zfs' ffs' destinationZip fusedE fusedS,
    fuseZips Ex.zip_shards "R.zip" = Ok zfs'
    /\ fuseBinaries Ex.flat_shards "R.txt" = Ok ffs'
    /\ zfs' !! "R.zip"%string = Some (Zip destinationZip)
    /\ destinationZip !! "R_Ext.dat"%string = Some fusedE
    /\ destinationZip !! "R_spectrum.dat"%string = Some fusedS
    /\ ffs' !! "R_Ext.dat"%string = Some (Plain fusedE)
    /\ ffs' !! "R_spectrum.dat"%string = Some (Plain fusedS)
    /\ fusedE = (fst Ex.shard0 ++ fst Ex.shard1)%list
    /\ fusedS = (snd Ex.shard0 ++ snd Ex.shard1)%list.
Proof.
  destruct (fuseZips_matches_fuseBinaries Ex.zip_shards Ex.flat_shards
              "R" 4 Ex.shards)
    as (zfs' & ffs' & destinationZip & H1 & H2 & H3 & H4 & H5 & H6 & H7).
  - by vm_compute.
  - lia.
  - apply Forall_cons_2; [exists "0000"%string; by vm_compute|].
    apply Forall_cons_2; [exists "0001"%string; by vm_compute|].
    apply Forall_nil_2.
  - vm_compute. by repeat constructor.
  - apply (bool_decide_unpack _). by vm_compute.
  - exact archives_of_example.
  - exact extracted_of_example.
  - exists zfs', ffs', destinationZip,
           (concat (map shard_field Ex.shards)),
           (concat (map shard_spectrum Ex.shards)).
    split_and!; try done; simpl; by rewrite app_nil_r.
Defined.

(** The branch for batch index 16 reads an attribute that no
    manifest binds. *)
Lemma batch_axis_16 (sfx : string) (self : obj) :
  attrs self !! ("batchIndex" +:+ sfx)%string = Some (VInt 16) ->
  attrs self !! "phaseMaterialThickness2"%string = None ->
  batch_axis sfx self = Raise AttributeError.
Proof.
  intros Hi Hn. unfold batch_axis, get_int, getattr.
  rewrite Hi. py_step. cbn [as_int]. py_step.
  change (batch_branch 16)
    with (Some (Some "phaseMaterialThickness2"%string, Some (1 # 10 ^ 6)%Q)).
  cbv beta iota. by rewrite Hn.
Qed.

(** C5.  The scan over batch index 16 is not built: the schema binds
    the sixteenth scan parameter under the name
    [phaseMaterialthickness2], the branch for index 16 reads
    [phaseMaterialThickness2], and the constructor raises
    [AttributeError], in the first scan slot and in the second.  The
    same single point with batch index 15 loads. *)
Theorem batch_index_16_raises :
  ("phaseMaterialthickness2"%string ∈ parameterNames)
  /\ ("phaseMaterialThickness2"%string ∉ parameterNames)
  /\ batch_branch 16
     = Some (Some "phaseMaterialThickness2"%string, Some (1 # 10 ^ 6)%Q)
  /\ load Ex.scan16 "S.txt" true = Raise AttributeError
  /\ load Ex.scan16_second "S.txt" true = Raise AttributeError
  /\ is_ok (load (<["S.txt"%string := Ex.manifest_file "100" "15"]> Ex.scan16)
              "S.txt" true) = true.
Proof.
  split; [by apply (bool_decide_unpack _); vm_compute|].
  split; [by apply (bool_decide_unpack _); vm_compute|].
  split; [reflexivity|].
  split; [by vm_compute|]. split; by vm_compute.
Qed.

(** C6.  For two shards whose manifests give [frequency1] as 100 and
    200, [loadSplit] with [batchType = "frequency1"] returns the
    field and spectrum arrays with the shards in their slots, and a
    [batchVector] of two entries that are both the value of the first
    shard: the loop appends the attribute of the structure it
    accumulates in, not that of the shard it has just loaded. *)
Theorem loadSplit_batchVector_repeats_first :
  exists result second b Ext_x spectrum_x,
    loadSplit Ex.flat_shards "R" 2 "frequency1" = Ok result
    /\ load Ex.flat_shards "R0001.txt" true = Ok second
    /\ attrs second !! "frequency1"%string = Some (VFloat 200)
    /\ attrs result !! "Ext_x"%string = Some (VData Ext_x)
    /\ shape Ext_x = [8; 8; 2]
    /\ attrs result !! "spectrum_x"%string = Some (VData spectrum_x)
    /\ shape spectrum_x = [2; 5]
    /\ attrs result !! "batchVector"%string = Some (VView b 0 2)
    /\ bufs result !! b = Some [100; 100]%Q.
Proof.
  do 5 eexists.
  split; [vm_compute; reflexivity|]. split; [vm_compute; reflexivity|].
  split; [by vm_compute|]. split; [vm_compute; reflexivity|].
  split; [by vm_compute|]. split; [vm_compute; reflexivity|].
  split; [by vm_compute|]. split; [vm_compute; reflexivity|].
  by vm_compute.
Qed.

End concrete_runs.

(** * Further proofs *)

Lemma py_bind_Ok {A B} (m : py A) (k : A -> py B) (b : B) :
  m ≫= k = Ok b -> exists a, m = Ok a /\ k a = Ok b.
Proof. destruct m as [a|e]; [by exists a | discriminate]. Qed.

(** Splits an equation [x ← m; k x = Ok r] into its steps. *)
Ltac py_invert H :=
  repeat match type of H with
         | _ ≫= _ = Ok _ =>
             let x := fresh "x" in
             let Hx := fresh "Hx" in
             apply py_bind_Ok in H as (x & Hx & H); cbv beta zeta in H
         end.

(** Runs a closed computation [m] that returns: [r] is its result and
    [H] the equation [m = Ok r]. *)
Tactic Notation "py_run" constr(m) "as" ident(r) ident(H) :=
  let K := fresh "Hok" in
  assert (K : is_ok m = true) by (vm_compute; reflexivity);
  destruct m as [r|] eqn:H; [clear K | discriminate K].

(** * Loading without the field *)

Section without_field.

Import Np LWE Spec Spec2.
Local Open Scope string_scope.

Implicit Types (o self : obj) (name : string).

Lemma attrs_without_field o name :
  ~ field_name name -> attrs (without_field o) !! name = attrs o !! name.
Proof.
  intros H. unfold without_field. cbn [attrs].
  rewrite !lookup_delete_ne; [done|..]; intros <-; apply H;
    (by left) || (by right).
Qed.

Lemma getattr_without_field o name :
  ~ field_name name -> getattr (without_field o) name = getattr o name.
Proof. intros H. unfold getattr. by rewrite attrs_without_field. Qed.

Lemma get_float_without_field o name :
  ~ field_name name -> get_float (without_field o) name = get_float o name.
Proof. intros H. unfold get_float. by rewrite getattr_without_field. Qed.

Lemma get_int_without_field o name :
  ~ field_name name -> get_int (without_field o) name = get_int o name.
Proof. intros H. unfold get_int. by rewrite getattr_without_field. Qed.

Lemma setattr_without_field o name v :
  ~ field_name name ->
  setattr (without_field o) name v = without_field (setattr o name v).
Proof.
  intros H. unfold setattr, without_field. cbn [attrs bufs]. f_equal.
  rewrite <- !delete_insert_ne; [done|..]; intros <-; apply H;
    (by left) || (by right).
Qed.

Lemma new_array_without_field o name v :
  ~ field_name name ->
  new_array (without_field o) name v = without_field (new_array o name v).
Proof.
  intros H. unfold new_array, without_field. cbn [attrs bufs]. f_equal.
  rewrite <- !delete_insert_ne; [done|..]; intros <-; apply H;
    (by left) || (by right).
Qed.

Ltac not_field :=
  let H := fresh in
  intros [H|H]; first [discriminate H | by vm_compute in H].

Lemma batch_branch_not_field i name factor :
  batch_branch i = Some (Some name, factor) -> ~ field_name name.
Proof.
  unfold batch_branch.
  repeat match goal with
         | |- context [match ?p with _ => _ end] => destruct p
         end;
    intros H; simplify_eq; not_field.
Qed.

Lemma load_spectrum_without_field isZip fs archive fileBase o :
  load_spectrum isZip fs archive fileBase (without_field o)
  = (r ← load_spectrum isZip fs archive fileBase o; Ok (without_field r)).
Proof.
  unfold load_spectrum.
  destruct (read_doubles _ _ _ _ _) as [raw|]; [|done]. py_step.
  rewrite !get_int_without_field by not_field.
  destruct (get_int o "Nfreq") as [Nfreq|]; [|done]. py_step.
  destruct (get_int o "Nsims") as [Nsims|]; [|done]. py_step.
  destruct (get_int o "Nsims2") as [Nsims2|]; [|done]. py_step.
  destruct (decode_spectrum _ _ _ _) as [[[t x] y]|]; [|done]. py_step.
  by rewrite !setattr_without_field by not_field.
Qed.

Lemma batch_axis_without_field sfx o :
  batch_axis sfx (without_field o)
  = (r ← batch_axis sfx o; Ok (without_field r)).
Proof.
  unfold batch_axis.
  rewrite get_int_without_field by not_field.
  destruct (get_int o ("batchIndex" +:+ sfx)) as [i|]; [|done]. py_step.
  assert (Hrest : forall self,
    (batchStart ← get_float (without_field self) ("batchStart" +:+ sfx);
     batchDestination ←
       get_float (without_field self) ("batchDestination" +:+ sfx);
     Nsims ← get_int (without_field self) ("Nsims" +:+ sfx);
     v ← linspace batchStart batchDestination Nsims;
     Ok (new_array (without_field self) ("batchVector" +:+ sfx) v))
    = (r ← (batchStart ← get_float self ("batchStart" +:+ sfx);
            batchDestination ← get_float self ("batchDestination" +:+ sfx);
            Nsims ← get_int self ("Nsims" +:+ sfx);
            v ← linspace batchStart batchDestination Nsims;
            Ok (new_array self ("batchVector" +:+ sfx) v));
       Ok (without_field r))).
  { intros self.
    rewrite !get_float_without_field, get_int_without_field by not_field.
    destruct (get_float self ("batchStart" +:+ sfx)); [|done]. py_step.
    destruct (get_float self ("batchDestination" +:+ sfx)); [|done]. py_step.
    destruct (get_int self ("Nsims" +:+ sfx)); [|done]. py_step.
    destruct (linspace _ _ _); [|done]. py_step.
    by rewrite new_array_without_field by not_field. }
  destruct (batch_branch i) as [[source factor]|] eqn:Hi; [|apply Hrest].
  assert (Hstart :
    match source with
    | Some name => getattr (without_field o) name
    | None => Ok (VInt 0)
    end
    = match source with
      | Some name => getattr o name
      | None => Ok (VInt 0)
      end).
  { destruct source as [name|]; [|done].
    apply getattr_without_field. by eapply batch_branch_not_field. }
  rewrite Hstart.
  destruct (match source with Some name => getattr o name | None => _ end)
    as [start|]; [|done].
  py_step. rewrite setattr_without_field by not_field.
  destruct factor as [c|].
  - rewrite get_float_without_field by not_field.
    destruct (get_float _ ("batchDestination" +:+ sfx)); [|done]. py_step.
    rewrite setattr_without_field by not_field. apply Hrest.
  - py_step. apply Hrest.
Qed.

Lemma sampling_axes_without_field o :
  sampling_axes (without_field o)
  = (r ← sampling_axes o; Ok (without_field r)).
Proof.
  unfold sampling_axes.
  rewrite get_float_without_field, get_int_without_field by not_field.
  destruct (get_float o "timeStep") as [timeStep|]; [|done]. py_step.
  destruct (get_int o "Ntime") as [Ntime|]; [|done]. py_step.
  destruct (fftfreq Ntime timeStep) as [fv|]; [|done]. py_step.
  rewrite !new_array_without_field by not_field.
  rewrite get_int_without_field by not_field.
  destruct (get_int _ "Nfreq") as [Nfreq|]; [|done]. py_step.
  set (o1 := new_array (new_array o _ _) _ _).
  unfold slice_view. rewrite getattr_without_field by not_field.
  destruct (getattr o1 "frequencyVector") as [[| | |b off len]|];
    try done.
  py_step. rewrite setattr_without_field by not_field.
  set (o2 := setattr o1 _ _).
  unfold imul_last. rewrite getattr_without_field by not_field.
  destruct (getattr o2 "frequencyVectorSpectrum") as [[| | |b' off' len']|];
    try done.
  py_step. destruct (len' =? 0)%nat; [done|].
  change (bufs (without_field o2)) with (bufs o2).
  destruct (bufs o2 !! b') as [buf|]; [|done]. py_step.
  destruct (buf !! _) as [x|]; [|done]. py_step.
  change (attrs (without_field o2))
    with (delete "Ext_y" (delete "Ext_x" (attrs o2))).
  set (o3 := mkobj (attrs o2) _).
  change (mkobj (delete "Ext_y" (delete "Ext_x" (attrs o2))) _)
    with (without_field o3).
  rewrite get_float_without_field, get_int_without_field by not_field.
  destruct (get_float o3 "spatialStep"); [|done]. py_step.
  destruct (get_int o3 "Nspace"); [|done]. py_step.
  by rewrite new_array_without_field by not_field.
Qed.

(** The attributes the manifest and the grid derivation bind are not
    those of the field. *)
Lemma lacks_field_setattr o name v :
  ~ field_name name -> lacks_field o -> lacks_field (setattr o name v).
Proof.
  intros H [Hx Hy]. unfold lacks_field. cbn [attrs setattr].
  rewrite !lookup_insert_ne; [done|..]; intros ->; apply H;
    (by left) || (by right).
Qed.

Lemma parameterNames_not_field name :
  name ∈ parameterNames -> ~ field_name name.
Proof.
  intros Hin [H|H]; subst name; revert Hin;
    by apply (bool_decide_unpack _).
Qed.

Lemma read_parameter_lacks_field lines o i o' :
  lacks_field o -> read_parameter lines o i = Ok o' -> lacks_field o'.
Proof.
  intros Ho H. unfold read_parameter in H. py_invert H.
  injection H as <-. apply lacks_field_setattr; [|done].
  apply parameterNames_not_field.
  destruct (parameterNames !! i) as [n|] eqn:E; [|discriminate].
  injection Hx as <-. by eapply list_elem_of_lookup_2.
Qed.

Lemma cast_int_lacks_field name o o' :
  ~ field_name name -> lacks_field o -> cast_int name o = Ok o' ->
  lacks_field o'.
Proof.
  intros Hn Ho H. unfold cast_int in H. py_invert H.
  destruct x; simplify_eq; [by apply lacks_field_setattr | done].
Qed.

Lemma parse_manifest_lacks_field lines o :
  parse_manifest lines = Ok o -> lacks_field o.
Proof.
  intros H. unfold parse_manifest, cast_ints in H. py_invert H.
  assert (H0 : lacks_field x).
  { eapply (py_foldl_invariant lacks_field); [| |exact Hx].
    - intros s i s' Hs Hb. by eapply read_parameter_lacks_field.
    - split; apply lookup_empty. }
  eapply cast_int_lacks_field; [| |exact H]; [not_field|].
  eapply cast_int_lacks_field; [| |exact Hx3]; [not_field|].
  eapply cast_int_lacks_field; [| |exact Hx2]; [not_field|].
  eapply cast_int_lacks_field; [| |exact Hx1]; [not_field|].
  eapply cast_int_lacks_field; [| |exact Hx0]; [not_field|]. done.
Qed.

Lemma derive_grid_lacks_field o o' :
  lacks_field o -> derive_grid o = Ok o' -> lacks_field o'.
Proof.
  intros Ho H. unfold derive_grid in H. py_invert H.
  injection H as <-.
  repeat (apply lacks_field_setattr; [not_field|]). done.
Qed.

Lemma without_field_fresh o Ext_x Ext_y :
  lacks_field o ->
  without_field (setattr (setattr o "Ext_x" Ext_x) "Ext_y" Ext_y) = o.
Proof.
  intros [Hx Hy]. destruct o as [m b]. unfold without_field, setattr.
  cbn [attrs bufs] in *. f_equal.
  apply map_eq. intros k.
  destruct (decide (k = "Ext_y")) as [->|?];
    [by rewrite lookup_delete_eq|].
  rewrite lookup_delete_ne by done.
  destruct (decide (k = "Ext_x")) as [->|?];
    [by rewrite lookup_delete_eq|].
  by rewrite lookup_delete_ne, !lookup_insert_ne by done.
Qed.

(** X1.  The constructor with [loadFieldArray=False] builds what it builds
    with [loadFieldArray=True], without the attributes [Ext_x] and
    [Ext_y]. *)
Theorem load_without_field (fs : gmap string file) (filePath : string)
    (result : obj) :
  load fs filePath true = Ok result ->
  load fs filePath false = Ok (without_field result)
  /\ lacks_field (without_field result)
  /\ (forall name, ~ field_name name ->
        attrs (without_field result) !! name = attrs result !! name)
  /\ bufs (without_field result) = bufs result.
Proof.
  intros H. split; [|split; [|split]].
  - unfold load, init in *. cbv zeta in *.
    destruct (if Str.endswith filePath ".zip" then _ else _)
      as [[[archive fileBase] text]|]; [|done].
    cbn [mbind py_mbind py_bind] in H |- *. cbv beta iota in H |- *.
    apply bind_Ok in H as (self0 & H0 & H). rewrite H0. py_step.
    apply bind_Ok in H as (self1 & H1 & H). rewrite H1. py_step.
    apply bind_Ok in H as (self2 & H2 & H).
    assert (L1 : lacks_field self1).
    { eapply derive_grid_lacks_field; [|exact H1].
      by eapply parse_manifest_lacks_field. }
    unfold load_field in H2. py_invert H2. destruct x7 as [Ext_x Ext_y].
    injection H2 as <-.
    rewrite <- (without_field_fresh self1 (VData Ext_x) (VData Ext_y) L1)
      at 1.
    set (self2 := setattr (setattr self1 _ _) _ _) in *.
    rewrite load_spectrum_without_field.
    apply bind_Ok in H as (self3 & H3 & H). rewrite H3. py_step.
    rewrite batch_axis_without_field.
    apply bind_Ok in H as (self4 & H4 & H). rewrite H4. py_step.
    rewrite batch_axis_without_field.
    apply bind_Ok in H as (self5 & H5 & H). rewrite H5. py_step.
    rewrite sampling_axes_without_field. by rewrite H.
  - unfold lacks_field, without_field. cbn [attrs].
    split; [|by rewrite lookup_delete_eq].
    rewrite lookup_delete_ne by done. by rewrite lookup_delete_eq.
  - intros name Hn. by apply attrs_without_field.
  - reflexivity.
Qed.

(** The first example shard. *)
Lemma load_without_field_witness :
  exists result,
    load Ex.flat_shards "R0000.txt" true = Ok result
    /\ load Ex.flat_shards "R0000.txt" false = Ok (without_field result).
Proof.
  py_run (load Ex.flat_shards "R0000.txt" true) as result H.
  exists result. split; [reflexivity|].
  destruct (load_without_field Ex.flat_shards "R0000.txt" result H)
    as [H2 _].
  exact H2.
Defined.

End without_field.

(** * Archives and flat files *)

Section archive_or_files.

Import Np LWE Spec.
Local Open Scope string_scope.

Implicit Types (fs : gmap string file) (self : obj).

Lemma load_field_source zfs ffs entries zipBase flatBase self bs :
  entries !! (zipBase +:+ "_Ext.dat") = Some bs ->
  ffs !! (flatBase +:+ "_Ext.dat") = Some (Plain bs) ->
  (length bs mod 8 = 0)%nat ->
  load_field true zfs entries zipBase self
  = load_field false ffs ∅ flatBase self.
Proof.
  intros Hz Hf Hlen. unfold load_field.
  destruct (get_int self "symmetryType"); [|done]. py_step.
  rewrite (read_doubles_items true zfs entries zipBase "_Ext.dat" bs)
    by done.
  by rewrite (read_doubles_items false ffs ∅ flatBase "_Ext.dat" bs).
Qed.

Lemma load_spectrum_source zfs ffs entries zipBase flatBase self bs :
  entries !! (zipBase +:+ "_spectrum.dat") = Some bs ->
  ffs !! (flatBase +:+ "_spectrum.dat") = Some (Plain bs) ->
  (length bs mod 8 = 0)%nat ->
  load_spectrum true zfs entries zipBase self
  = load_spectrum false ffs ∅ flatBase self.
Proof.
  intros Hz Hf Hlen. unfold load_spectrum.
  rewrite (read_doubles_items true zfs entries zipBase "_spectrum.dat" bs)
    by done.
  by rewrite (read_doubles_items false ffs ∅ flatBase "_spectrum.dat" bs).
Qed.

(** X2.  The constructor gives the same result, or raises the same
    exception, for an archive and for the flat files extracted from it:
    the archive holds the manifest and the binaries under its own base
    name, the files stand next to the manifest under the manifest's
    name without extension, and the binaries are made of whole
    doubles. *)
Theorem load_archive_as_files
    (zfs ffs : gmap string file) (entries : gmap string (list byte))
    (zipPath flatPath : string) (loadFieldArray : bool)
    (manifest field spectrum : list byte) :
  let zipBase := fst (OsPath.splitext (OsPath.basename zipPath)) in
  let flatBase := fst (OsPath.splitext flatPath) in
  Str.endswith zipPath ".zip" = true ->
  Str.endswith flatPath ".zip" = false ->
  zfs !! zipPath = Some (Zip entries) ->
  entries !! (zipBase +:+ ".txt") = Some manifest ->
  ffs !! flatPath = Some (Plain manifest) ->
  entries !! (zipBase +:+ "_spectrum.dat") = Some spectrum ->
  ffs !! (flatBase +:+ "_spectrum.dat") = Some (Plain spectrum) ->
  (length spectrum mod 8 = 0)%nat ->
  (loadFieldArray = true ->
   entries !! (zipBase +:+ "_Ext.dat") = Some field
   /\ ffs !! (flatBase +:+ "_Ext.dat") = Some (Plain field)
   /\ (length field mod 8 = 0)%nat) ->
  load zfs zipPath loadFieldArray = load ffs flatPath loadFieldArray.
Proof.
  intros zipBase flatBase Hzip Hflat Hz Hm Hf HzS HfS HlS Hfield.
  unfold load, init. rewrite Hzip, Hflat.
  unfold open_zip, zip_read, read_text. rewrite Hz. py_step.
  fold zipBase. rewrite Hm, Hf. py_step. cbv beta iota zeta.
  fold flatBase.
  destruct (parse_manifest _) as [self0|]; [|done]. py_step.
  destruct (derive_grid self0) as [self1|]; [|done]. py_step.
  assert (H1 : (if loadFieldArray
                then load_field true zfs entries zipBase self1
                else Ok self1)
               = (if loadFieldArray
                  then load_field false ffs ∅ flatBase self1
                  else Ok self1)).
  { destruct loadFieldArray; [|done].
    destruct (Hfield eq_refl) as (HzE & HfE & HlE).
    by apply (load_field_source _ _ _ _ _ _ field). }
  rewrite H1. clear H1.
  destruct (if loadFieldArray then _ else _) as [self2|]; [|reflexivity].
  py_step.
  by rewrite (load_spectrum_source zfs ffs entries zipBase flatBase self2
                spectrum).
Qed.

(** The first example shard as an archive and as flat files. *)
Lemma load_archive_as_files_witness :
  load Ex.zip_shards "R0000.zip" true = load Ex.flat_shards "R0000.txt" true
  /\ is_ok (load Ex.flat_shards "R0000.txt" true) = true.
Proof.
  split; [|by vm_compute].
  apply (load_archive_as_files Ex.zip_shards Ex.flat_shards
           (Ex.entries_of "R0000" "100" Ex.shard0)
           "R0000.zip" "R0000.txt" true
           (list_byte_of_string
              (Ex.manifest_text (Ex.single_point "100" "9")))
           (fst Ex.shard0) (snd Ex.shard0));
    by vm_compute.
Defined.

End archive_or_files.

(** * What a load needs *)

Section load_needs.

Import Np LWE Spec.
Local Open Scope string_scope.

Implicit Types (fs : gmap string file) (self : obj).

Lemma read_doubles_flat_Ok fs archive fileBase suffix raw :
  read_doubles false fs archive fileBase suffix = Ok raw ->
  exists bs, fs !! (fileBase +:+ suffix) = Some (Plain bs).
Proof.
  unfold read_doubles, read_bytes. intros H.
  destruct (fs !! (fileBase +:+ suffix)) as [[bs|]|]; try done.
  by exists bs.
Qed.

Lemma read_doubles_zip_Ok fs archive fileBase suffix raw :
  read_doubles true fs archive fileBase suffix = Ok raw ->
  exists bs, archive !! (fileBase +:+ suffix) = Some bs
             /\ (length bs mod 8 = 0)%nat.
Proof.
  unfold read_doubles, zip_read. intros H.
  destruct (archive !! (fileBase +:+ suffix)) as [bs|]; [|done].
  cbn [mbind py_mbind py_bind of_option] in H. unfold frombuffer in H.
  destruct (length bs mod 8 =? 0)%nat eqn:E; [|done].
  apply Nat.eqb_eq in E. by exists bs.
Qed.

(** X3.  A load that returns has read the manifest and the spectrum, and
    the field when it was asked for: from the files beside the
    manifest, or from the entries of the archive that carry the
    archive's own base name, which must be made of whole doubles. *)
Theorem load_needs_binaries fs (filePath : string) (loadFieldArray : bool)
    (result : obj) :
  load fs filePath loadFieldArray = Ok result ->
  if Str.endswith filePath ".zip" then
    let fileBase := fst (OsPath.splitext (OsPath.basename filePath)) in
    exists entries,
      fs !! filePath = Some (Zip entries)
      /\ is_Some (entries !! (fileBase +:+ ".txt"))
      /\ (exists bs, entries !! (fileBase +:+ "_spectrum.dat") = Some bs
                     /\ (length bs mod 8 = 0)%nat)
      /\ (loadFieldArray = true ->
          exists bs, entries !! (fileBase +:+ "_Ext.dat") = Some bs
                     /\ (length bs mod 8 = 0)%nat)
  else
    let fileBase := fst (OsPath.splitext filePath) in
    (exists bs, fs !! filePath = Some (Plain bs))
    /\ (exists bs, fs !! (fileBase +:+ "_spectrum.dat") = Some (Plain bs))
    /\ (loadFieldArray = true ->
        exists bs, fs !! (fileBase +:+ "_Ext.dat") = Some (Plain bs)).
Proof.
  intros H. unfold load, init in H.
  destruct (Str.endswith filePath ".zip").
  - cbv zeta in *. unfold open_zip, zip_read in H.
    destruct (fs !! filePath) as [[|entries]|]; try done.
    cbn [mbind py_mbind py_bind] in H.
    set (fileBase := fst (OsPath.splitext (OsPath.basename filePath))) in *.
    destruct (entries !! (fileBase +:+ ".txt")) as [txt|] eqn:Htxt;
      [|done].
    cbn [mbind py_mbind py_bind of_option] in H. cbv beta iota in H.
    py_invert H. exists entries. split; [done|]. split; [done|].
    unfold load_spectrum in Hx2. py_invert Hx2.
    split; [by eapply read_doubles_zip_Ok|].
    intros ->. unfold load_field in Hx1. py_invert Hx1.
    by eapply read_doubles_zip_Ok.
  - cbv zeta in *. unfold read_text in H.
    destruct (fs !! filePath) as [[bs|]|]; try done.
    cbn [mbind py_mbind py_bind] in H. cbv beta iota in H.
    py_invert H. split; [by exists bs|].
    unfold load_spectrum in Hx2. py_invert Hx2.
    split; [by eapply read_doubles_flat_Ok|].
    intros ->. unfold load_field in Hx1. py_invert Hx1.
    by eapply read_doubles_flat_Ok.
Qed.

(** The first example shard as flat files. *)
Lemma load_needs_binaries_witness :
  exists bs,
    Ex.flat_shards !! "R0000_spectrum.dat" = Some (Plain bs).
Proof.
  py_run (load Ex.flat_shards "R0000.txt" true) as result H.
  destruct (load_needs_binaries Ex.flat_shards "R0000.txt" true result H)
    as (_ & Hs & _).
  exact Hs.
Defined.

End load_needs.

(** * The scan axes *)

Section scan_axes.

Import LWE Spec.
Local Open Scope Q_scope.

Implicit Types (self : obj) (sfx name : string).

Lemma Qeq_bool_false_neq (x y : Q) : Qeq_bool x y = false -> ~ x == y.
Proof. intros H E. apply Qeq_bool_iff in E. congruence. Qed.

(** [np.linspace]: [num] samples, evenly spaced from [start] to
    [stop]. *)
Lemma linspace_spec (start stop : Q) (num : Z) :
  (0 <= num)%Z ->
  exists v,
    linspace start stop num = Ok v
    /\ length v = Z.to_nat num
    /\ (num = 1%Z -> exists x, v = [x] /\ x == start)
    /\ ((2 <= num)%Z -> v !! (Z.to_nat num - 1)%nat = Some stop)
    /\ ((2 <= num)%Z ->
        forall (k : nat) x,
          v !! k = Some x ->
          x == start
               + inject_Z (Z.of_nat k) * (stop - start) / inject_Z (num - 1)).
Proof.
  intros Hnum. unfold linspace.
  destruct (Z.ltb_spec num 0) as [|_]; [lia|].
  set (n := Z.to_nat num).
  set (ks := map (fun k => inject_Z (Z.of_nat k)) (seq 0 n)).
  set (y := map (fun v => v + start)
              (if (0 <? num - 1)%Z
               then if Qeq_bool ((stop - start) / inject_Z (num - 1)) 0
                    then map (fun v => v / inject_Z (num - 1)
                                       * (stop - start)) ks
                    else map (fun v => v * ((stop - start)
                                            / inject_Z (num - 1))) ks
               else map (fun v => v * (stop - start)) ks)).
  assert (Hlen : length y = n).
  { unfold y, ks. rewrite length_map.
    repeat match goal with |- context [if ?c then _ else _] => destruct c end;
      by rewrite !length_map, length_seq. }
  assert (Hy : forall k x, y !! k = Some x -> (2 <= num)%Z ->
             (k < n)%nat
             /\ x == start + inject_Z (Z.of_nat k) * (stop - start)
                             / inject_Z (num - 1)).
  { intros k x Hk H2.
    assert (Hkn : (k < n)%nat) by (rewrite <- Hlen; by eapply lookup_lt_Some).
    split; [done|].
    assert (Hd : ~ inject_Z (num - 1) == 0).
    { unfold Qeq. simpl. lia. }
    unfold y in Hk. rewrite list_lookup_fmap in Hk.
    destruct (Z.ltb_spec 0 (num - 1)) as [_|]; [|lia].
    destruct (Qeq_bool _ 0) eqn:Hstep;
      unfold ks in Hk; rewrite !list_lookup_fmap, lookup_seq_lt in Hk by done;
      cbn in Hk; injection Hk as <-; field; done. }
  eexists. split; [reflexivity|]. split.
  { destruct (Z.ltb_spec 1 num); [by rewrite length_insert|done]. }
  split.
  { intros ->. cbn. eexists. split; [reflexivity|].
    cbv beta. change (inject_Z (Z.of_nat 0)) with 0. ring. }
  split.
  { intros H2. destruct (Z.ltb_spec 1 num) as [_|]; [|lia].
    apply list_lookup_insert_eq. rewrite Hlen. unfold n. lia. }
  intros H2 k x Hk. destruct (Z.ltb_spec 1 num) as [_|]; [|lia].
  destruct (decide (k = (n - 1)%nat)) as [->|Hne].
  - rewrite list_lookup_insert_eq in Hk by (rewrite Hlen; unfold n; lia).
    injection Hk as <-.
    assert (Hd : ~ inject_Z (num - 1) == 0).
    { unfold Qeq. simpl. lia. }
    replace (Z.of_nat (n - 1)) with (num - 1)%Z by (unfold n; lia).
    field. done.
  - rewrite list_lookup_insert_ne in Hk by done.
    by apply Hy.
Qed.

Ltac ne_sfx :=
  let H := fresh in
  intros H; first [discriminate H | by vm_compute in H].

(** X4.  The scan block for a batch index of the table whose source
    attribute is bound: [batchStart] is the source value,
    [batchDestination] is rescaled in place, and [batchVector] is a new
    array of [Nsims] samples from the one to the other. *)
Theorem batch_axis_linspace sfx self (i : Z) (source : option string)
    (factor : option Q) (start : value) (s destination : Q) (Nsims : Z) :
  let stop := Spec2.scaled_destination factor destination in
  attrs self !! ("batchIndex" +:+ sfx)%string = Some (VInt i) ->
  batch_branch i = Some (source, factor) ->
  Spec2.branch_start self source start ->
  as_float start = Ok s ->
  attrs self !! ("batchDestination" +:+ sfx)%string
  = Some (VFloat destination) ->
  attrs self !! ("Nsims" +:+ sfx)%string = Some (VInt Nsims) ->
  (1 <= Nsims)%Z ->
  exists self' v,
    batch_axis sfx self = Ok self'
    /\ attrs self' !! ("batchStart" +:+ sfx)%string = Some start
    /\ attrs self' !! ("batchDestination" +:+ sfx)%string
       = Some (VFloat stop)
    /\ attrs self' !! ("batchVector" +:+ sfx)%string
       = Some (VView (length (bufs self)) 0 (Z.to_nat Nsims))
    /\ bufs self' = (bufs self ++ [v])%list
    /\ length v = Z.to_nat Nsims
    /\ (Nsims = 1%Z -> exists x, v = [x] /\ x == s)
    /\ ((2 <= Nsims)%Z -> v !! (Z.to_nat Nsims - 1)%nat = Some stop)
    /\ ((2 <= Nsims)%Z ->
        forall (k : nat) x,
          v !! k = Some x ->
          x == s + inject_Z (Z.of_nat k) * (stop - s)
                   / inject_Z (Nsims - 1)).
Proof.
  intros stop Hi Hbranch Hstart Hs Hdest Hn HN.
  destruct (linspace_spec s stop Nsims) as (v & Hv & Hlen & H1 & Hlast & Hk);
    [lia|].
  set (bs := ("batchStart" +:+ sfx)%string).
  set (bd := ("batchDestination" +:+ sfx)%string).
  set (ns := ("Nsims" +:+ sfx)%string).
  set (bv := ("batchVector" +:+ sfx)%string).
  assert (Hne1 : bs <> bd) by (unfold bs, bd; ne_sfx).
  assert (Hne2 : bs <> ns) by (unfold bs, ns; ne_sfx).
  assert (Hne3 : bd <> ns) by (unfold bd, ns; ne_sfx).
  assert (Hne4 : bv <> bs) by (unfold bv, bs; ne_sfx).
  assert (Hne5 : bv <> bd) by (unfold bv, bd; ne_sfx).
  set (self1 := setattr self bs start).
  set (self2 := setattr self1 bd (VFloat stop)).
  assert (Hg : match source with
               | None => Ok (VInt 0)
               | Some name => getattr self name
               end = Ok start).
  { destruct source as [name|]; cbn in Hstart.
    - by apply getattr_lookup.
    - by subst. }
  assert (Hd1 : attrs self1 !! bd = Some (VFloat destination)).
  { unfold self1. cbn [attrs setattr].
    by rewrite lookup_insert_ne by done. }
  set (self3 := match factor with Some _ => self2 | None => self1 end).
  assert (A1 : attrs self3 !! bs = Some start).
  { unfold self3, self2, self1. destruct factor; cbn [attrs setattr].
    - rewrite lookup_insert_ne by done. by rewrite lookup_insert_eq.
    - by rewrite lookup_insert_eq. }
  assert (A2 : attrs self3 !! bd = Some (VFloat stop)).
  { unfold self3, self2, self1, stop. destruct factor; cbn [attrs setattr].
    - by rewrite lookup_insert_eq.
    - rewrite lookup_insert_ne by done. exact Hdest. }
  assert (A3 : attrs self3 !! ns = Some (VInt Nsims)).
  { unfold self3, self2, self1. destruct factor; cbn [attrs setattr];
      by rewrite !lookup_insert_ne by done. }
  assert (A4 : bufs self3 = bufs self).
  { unfold self3, self2, self1. by destruct factor. }
  exists (new_array self3 bv v), v.
  split.
  { unfold batch_axis. rewrite (get_int_lookup _ _ _ Hi). py_step.
    fold bs bd ns bv. rewrite Hbranch, Hg. py_step. cbv zeta.
    fold self1.
    assert (Hblock :
      match factor with
      | Some c =>
          d ← get_float self1 bd; Ok (setattr self1 bd (VFloat (d * c)))
      | None => Ok self1
      end = Ok self3).
    { unfold self3. destruct factor as [c|]; [|done].
      unfold get_float, getattr. rewrite Hd1. py_step.
      cbn [as_float]. py_step. reflexivity. }
    rewrite Hblock. py_step.
    unfold get_float, getattr. rewrite A1. py_step. rewrite Hs. py_step.
    rewrite A2. py_step. cbn [as_float]. py_step.
    rewrite (get_int_lookup _ _ _ A3). py_step.
    rewrite Hv. reflexivity. }
  cbn [attrs bufs new_array]. rewrite A4, Hlen.
  split; [by rewrite lookup_insert_ne by done|].
  split; [by rewrite lookup_insert_ne by done|].
  split; [by rewrite lookup_insert_eq|].
  split; [done|]. split; [done|]. split; [done|]. split; done.
Qed.

(** A scan of [delay1] in four steps. *)
Lemma batch_axis_linspace_witness :
  exists self' v,
    batch_axis "" Ex2.scan_delay = Ok self'
    /\ attrs self' !! "batchDestination"%string
       = Some (VFloat (20 * (1 # 10 ^ 15)))
    /\ bufs self' = [v]
    /\ length v = 4%nat
    /\ v !! 3%nat = Some (20 * (1 # 10 ^ 15)).
Proof.
  destruct (batch_axis_linspace "" Ex2.scan_delay 9 (Some "delay1"%string)
              (Some (1 # 10 ^ 15)) (VFloat 5) 5 20 4)
    as (self' & v & H1 & _ & H3 & _ & H5 & H6 & _ & H8 & _);
    [by vm_compute | reflexivity | by vm_compute | reflexivity
    | by vm_compute | by vm_compute | lia |].
  exists self', v. split; [exact H1|]. split; [exact H3|].
  split; [exact H5|]. split; [exact H6|]. apply H8. lia.
Defined.

(** X5.  A batch index outside the table leaves [batchStart] unset, and the
    constructor raises [AttributeError] when it builds the axis. *)
Theorem batch_axis_outside_table sfx self (i : Z) :
  attrs self !! ("batchIndex" +:+ sfx)%string = Some (VInt i) ->
  (i < 0 \/ 37 < i)%Z ->
  attrs self !! ("batchStart" +:+ sfx)%string = None ->
  batch_axis sfx self = Raise AttributeError.
Proof.
  intros Hi Hout Hnone. unfold batch_axis.
  rewrite (get_int_lookup _ _ _ Hi). py_step.
  assert (Hb : batch_branch i = None).
  { unfold batch_branch. destruct i as [|p|p]; [lia| |done].
    repeat match goal with
           | |- context [match ?q with _ => _ end] => destruct q
           end; first [done | lia]. }
  rewrite Hb. py_step. unfold get_float, getattr. by rewrite Hnone.
Qed.

Lemma batch_axis_outside_table_witness :
  batch_axis "" Ex2.scan_unknown = Raise AttributeError.
Proof.
  apply (batch_axis_outside_table "" Ex2.scan_unknown 38);
    [by vm_compute | lia | by vm_compute].
Defined.

End scan_axes.

(** * Fusing twice *)

Section fuse_again.

Import LWE Spec.
Local Open Scope string_scope.

Implicit Types (fs : gmap string file).

Lemma py_foldl_ext {A S} (f g : S -> A -> py S) (l : list A) (s : S) :
  (forall s x, x ∈ l -> f s x = g s x) ->
  py_foldl f s l = py_foldl g s l.
Proof.
  revert s. induction l as [|x l IH]; intros s H; [done|].
  cbn [py_foldl]. rewrite (H s x) by left.
  destruct (g s x) as [s'|]; [|done]. py_step.
  apply IH. intros s0 y Hy. apply H. by right.
Qed.

(** What [fuseFile] writes depends on the files with the ending
    only, the output apart. *)
Lemma fuseFile_ext baseName ending fs fs' r :
  (forall name, name <> baseName +:+ ending ->
                Str.endswith name ending = true ->
                fs !! name = fs' !! name) ->
  fuseFile baseName ending fs = Ok r ->
  exists output,
    r = <[baseName +:+ ending := Plain output]>
          (delete (baseName +:+ ending) fs)
    /\ fuseFile baseName ending fs'
       = Ok (<[baseName +:+ ending := Plain output]>
               (delete (baseName +:+ ending) fs')).
Proof.
  intros Hagree H. unfold fuseFile in *. cbv zeta in *.
  set (out := baseName +:+ ending) in *.
  assert (Hsel : select_files (delete out fs') baseName ending
                 = select_files (delete out fs) baseName ending).
  { apply select_files_ext. intros name _ Hend.
    destruct (decide (name = out)) as [->|Hne].
    - by rewrite !lookup_delete_eq.
    - by rewrite !lookup_delete_ne, Hagree by done. }
  rewrite Hsel.
  rewrite (py_foldl_ext
             (fun output file =>
                current ← read_bytes (delete out fs') file;
                Ok (copy_pieces (S (length current)) current output))
             (fun output file =>
                current ← read_bytes (delete out fs) file;
                Ok (copy_pieces (S (length current)) current output))).
  - apply py_bind_Ok in H as (output & Hout & [= <-]).
    exists output. split; [done|]. by rewrite Hout.
  - intros s name Hin.
    apply elem_of_select_files in Hin as ([v Hv] & _ & _ & Hend).
    assert (Hne : name <> out).
    { intros ->. by rewrite lookup_delete_eq in Hv. }
    unfold read_bytes.
    by rewrite !lookup_delete_ne, Hagree by done.
Qed.

Lemma endswith_spectrum_Ext (base : string) :
  Str.endswith (base +:+ "_spectrum.dat") "_Ext.dat" = false.
Proof.
  unfold Str.endswith, String.rev. rewrite rev_app_append. reflexivity.
Qed.

(** X6.  [fuseBinaries] changes the two destination files only, and a
    second run leaves the directory as the first one made it: the
    destinations are removed before the shards are collected, so they
    are not fused into themselves. *)
Theorem fuseBinaries_again fs (outputTextFile : string) fs1 :
  let base := fst (OsPath.splitext (OsPath.basename outputTextFile)) in
  fuseBinaries fs outputTextFile = Ok fs1 ->
  (forall name, name <> base +:+ "_Ext.dat" ->
                name <> base +:+ "_spectrum.dat" ->
                fs1 !! name = fs !! name)
  /\ fuseBinaries fs1 outputTextFile = Ok fs1.
Proof.
  intros base H. unfold fuseBinaries in *. fold base in H |- *.
  apply py_bind_Ok in H as (fsA & HA & HB).
  set (oE := base +:+ "_Ext.dat") in *.
  set (oS := base +:+ "_spectrum.dat") in *.
  assert (HES : oE <> oS) by apply Ext_ne_spectrum.
  destruct (fuseFile_ext base "_Ext.dat" fs fs fsA) as (cE & -> & _);
    [done | done |].
  destruct (fuseFile_ext base "_spectrum.dat" _ _ fs1 (fun _ _ _ => eq_refl) HB)
    as (cS & -> & _).
  fold oE oS in HA, HB |- *.
  set (fsA := <[oE := Plain cE]> (delete oE fs)) in *.
  set (fs1 := <[oS := Plain cS]> (delete oS fsA)).
  split.
  { intros name HnE HnS. unfold fs1, fsA.
    by rewrite lookup_insert_ne, lookup_delete_ne, lookup_insert_ne,
      lookup_delete_ne by done. }
  destruct (fuseFile_ext base "_Ext.dat" fs fs1 fsA) as (cE' & HcE & ->);
    [|exact HA|].
  { intros name Hne Hend. fold oE in Hne. unfold fs1, fsA.
    assert (name <> oS).
    { intros ->. unfold oS in Hend.
      by rewrite endswith_spectrum_Ext in Hend. }
    by rewrite lookup_insert_ne, lookup_delete_ne, lookup_insert_ne,
      lookup_delete_ne by done. }
  fold oE in HcE |- *.
  assert (cE' = cE) as ->.
  { apply (f_equal (fun m => m !! oE)) in HcE. unfold fsA in HcE.
    rewrite !lookup_insert_eq in HcE. by injection HcE. }
  py_step.
  assert (Hid : <[oE := Plain cE]> (delete oE fs1) = fs1).
  { apply insert_delete_id. unfold fs1, fsA.
    rewrite lookup_insert_ne, lookup_delete_ne by done.
    by rewrite lookup_insert_eq. }
  rewrite Hid.
  destruct (fuseFile_ext base "_spectrum.dat" fsA fs1 fs1) as (cS' & HcS & ->);
    [|exact HB|].
  { intros name Hne _. fold oS in Hne. unfold fs1.
    by rewrite lookup_insert_ne, lookup_delete_ne by done. }
  fold oS in HcS |- *. f_equal.
  assert (cS' = cS) as ->.
  { apply (f_equal (fun m => m !! oS)) in HcS. unfold fs1 in HcS.
    rewrite !lookup_insert_eq in HcS. by injection HcS. }
  apply insert_delete_id. unfold fs1. by rewrite lookup_insert_eq.
Qed.

(** The two example shards. *)
Lemma fuseBinaries_again_witness :
  exists fs1,
    fuseBinaries Ex.flat_shards "R.txt" = Ok fs1
    /\ fuseBinaries fs1 "R.txt" = Ok fs1.
Proof.
  py_run (fuseBinaries Ex.flat_shards "R.txt") as fs1 H.
  exists fs1. split; [reflexivity|].
  destruct (fuseBinaries_again Ex.flat_shards "R.txt" fs1 H) as [_ H2].
  exact H2.
Defined.

End fuse_again.

(** * Reading the manifest *)

Section manifest_lines.

Import LWE Spec.
Local Open Scope nat_scope.

Implicit Types (s line : string) (c : ascii).

(** X7.  The parser reads the first 59 lines of a manifest and nothing
    behind them. *)
Theorem parse_manifest_first_lines (lines : list string) :
  parse_manifest (take 59 lines) = parse_manifest lines.
Proof.
  unfold parse_manifest, read_parameters. rewrite length_parameterNames.
  rewrite (py_foldl_ext (read_parameter (take 59 lines))
             (read_parameter lines)); [done|].
  intros self i Hi. apply elem_of_seq in Hi.
  unfold read_parameter. by rewrite lookup_take_lt by lia.
Qed.









End manifest_lines.

(** * The batch vector of [loadSplit] *)

Section split_batch.

Import Np LWE Spec.
Local Open Scope nat_scope.

Implicit Types (o base : obj) (names : list string).

(** The attributes the loop of [loadSplit] assigns to. *)
Lemma py_foldl_count {A S} (P : nat -> S -> Prop) (body : S -> A -> py S)
    (l : list A) (s s' : S) (j : nat) :
  (forall j s x s', P j s -> body s x = Ok s' -> P (Datatypes.S j) s') ->
  P j s -> py_foldl body s l = Ok s' -> P (j + length l) s'.
Proof.
  intros Hstep. revert s j. induction l as [|x l IH]; intros s j Hs H.
  - injection H as <-. by rewrite Nat.add_0_r.
  - cbn [py_foldl] in H. apply py_bind_Ok in H as (s1 & H1 & H).
    cbn [length]. rewrite Nat.add_succ_r, <- Nat.add_succ_l. eauto.
Qed.

Lemma assign_slot_attrs name ax k v o o' m :
  assign_slot name ax k v o = Ok o' -> m <> name ->
  attrs o' !! m = attrs o !! m /\ bufs o' = bufs o.
Proof.
  intros H Hne. unfold assign_slot in H. py_invert H. injection H as <-.
  cbn [attrs bufs setattr]. by rewrite lookup_insert_ne.
Qed.

Lemma ravel_scalar o v x : as_float v = Ok x -> ravel o v = Ok [x].
Proof. destruct v; intros H; simplify_eq/=; done. Qed.

Lemma ravel_bufs o o' v l :
  bufs o' = bufs o -> ravel o v = Ok l -> ravel o' v = Ok l.
Proof. intros Hb. destruct v; try done. cbn. by rewrite Hb. Qed.

Lemma add_shard_repeats fs listOfFileNames stackAxis batchType v q j o i o' :
  batchType ∉ mutated_names -> as_float v = Ok q ->
  Spec2.repeats batchType v q j o ->
  add_shard fs listOfFileNames stackAxis batchType o i = Ok o' ->
  Spec2.repeats batchType v q (S j) o'.
Proof.
  intros Hnot Hv (Ht & Hs & bv & Hbv & Hr) H.
  assert (Hne : forall m, m ∈ mutated_names -> batchType <> m)
    by (intros m Hm ->; done).
  unfold add_shard in H. py_invert H. injection H as <-.
  assert (Hkeep : forall m,
            m <> "Ext_x"%string -> m <> "Ext_y"%string ->
            m <> "spectrum_x"%string -> m <> "spectrum_y"%string ->
            m <> "spectrumTotal"%string ->
            attrs x10 !! m = attrs o !! m).
  { intros m N1 N2 N3 N4 N5.
    rewrite (proj1 (assign_slot_attrs _ _ _ _ _ _ m Hx10 N5)).
    rewrite (proj1 (assign_slot_attrs _ _ _ _ _ _ m Hx8 N4)).
    rewrite (proj1 (assign_slot_attrs _ _ _ _ _ _ m Hx6 N3)).
    rewrite (proj1 (assign_slot_attrs _ _ _ _ _ _ m Hx4 N2)).
    by rewrite (proj1 (assign_slot_attrs _ _ _ _ _ _ m Hx2 N1)). }
  assert (Hbufs : bufs x10 = bufs o).
  { rewrite (proj2 (assign_slot_attrs _ _ _ _ _ _ "" Hx10 ltac:(done))).
    rewrite (proj2 (assign_slot_attrs _ _ _ _ _ _ "" Hx8 ltac:(done))).
    rewrite (proj2 (assign_slot_attrs _ _ _ _ _ _ "" Hx6 ltac:(done))).
    rewrite (proj2 (assign_slot_attrs _ _ _ _ _ _ "" Hx4 ltac:(done))).
    by rewrite (proj2 (assign_slot_attrs _ _ _ _ _ _ "" Hx2 ltac:(done))). }
  assert (Ht' : attrs x10 !! batchType = Some v).
  { rewrite Hkeep; [done|..]; apply Hne; compute_done. }
  unfold getattr in Hx11, Hx13.
  rewrite Hkeep, Hbv in Hx11 by done. injection Hx11 as <-.
  rewrite Ht' in Hx13. injection Hx13 as <-.
  rewrite (ravel_bufs o x10 bv _ Hbufs Hr) in Hx12. injection Hx12 as <-.
  rewrite (ravel_scalar x10 v q Hv) in Hx14. injection Hx14 as <-.
  split; [|split].
  - cbn [attrs new_array]. rewrite lookup_insert_ne; [done|].
    apply not_eq_sym, Hne. compute_done.
  - cbn [attrs new_array]. rewrite lookup_insert_ne by done.
    rewrite Hkeep by done. exact Hs.
  - eexists. split; [cbn [attrs new_array]; by rewrite lookup_insert_eq|].
    cbn [ravel view_elems bufs new_array].
    rewrite lookup_app_r by done. rewrite Nat.sub_diag. cbn [lookup].
    py_step. cbn [list_lookup]. py_step. rewrite drop_0, firstn_all.
    f_equal. change [q] with (replicate 1 q).
    rewrite <- replicate_add. f_equal. lia.
Qed.

(** X9.  When [loadSplit] returns for a scanned attribute that is a number
    in the first shard, [batchStart] is that attribute of the first
    shard and [batchVector] holds it [Ntotal] times: the loop appends
    the attribute of the structure it accumulates in. *)
Theorem loadSplit_batchVector (fs : gmap string file) (baseName : string)
    (Ntotal : Z) (batchType : string) (result first : obj)
    (v : value) (x : Q) :
  loadSplit fs baseName Ntotal batchType = Ok result ->
  load fs (baseName +:+ "0000.txt")%string true = Ok first ->
  attrs first !! batchType = Some v ->
  as_float v = Ok x ->
  batchType ∉ mutated_names ->
  (1 <= Ntotal)%Z
  /\ attrs result !! "batchStart"%string = Some v
  /\ exists batchVector,
       attrs result !! "batchVector"%string = Some batchVector
       /\ ravel result batchVector = Ok (replicate (Z.to_nat Ntotal) x).
Proof.
  intros H Hfirst Hv Hx Hnot.
  unfold loadSplit in H. cbv zeta in H.
  set (names := map _ (seq 0 (Z.to_nat Ntotal))) in H.
  py_invert H.
  assert (HN : (1 <= Ntotal)%Z).
  { unfold names in Hx0. destruct (Z.to_nat Ntotal) eqn:E; [done|]. lia. }
  split; [done|].
  assert (Hname : x0 = (baseName +:+ "0000.txt")%string).
  { unfold names in Hx0. destruct (Z.to_nat Ntotal); [discriminate|].
    simpl in Hx0. by injection Hx0 as <-. }
  subst x0. rewrite Hfirst in Hx1. injection Hx1 as <-.
  apply stack_field_frame in Hx3 as [F1 _].
  apply stack_spectra_frame in Hx4 as [[F2 _] _].
  assert (Hv4 : attrs x4 !! batchType = Some v)
    by (by rewrite F2, F1).
  unfold getattr in Hx5. rewrite Hv4 in Hx5. injection Hx5 as <-.
  unfold getattr in Hx6. cbn [attrs setattr] in Hx6.
  rewrite lookup_insert_eq in Hx6. injection Hx6 as <-.
  assert (Hne : batchType <> "batchVector"%string
                /\ batchType <> "batchStart"%string).
  { split; intros ->; apply Hnot; compute_done. }
  destruct Hne as [Hne1 Hne2].
  pose proof (py_foldl_count (Spec2.repeats batchType v x)
                (add_shard fs names (length (shape x2)) batchType)
                (seq 1 (Z.to_nat Ntotal - 1))
                (setattr (setattr x4 "batchVector" v) "batchStart" v)
                result 1) as Hloop.
  rewrite length_seq in Hloop.
  replace (1 + (Z.to_nat Ntotal - 1)) with (Z.to_nat Ntotal) in Hloop by lia.
  destruct Hloop as (_ & Hs & bv & Hbv & Hr); [| |exact H|].
  - intros j s i s' Hrep Hbody. by eapply add_shard_repeats.
  - split; [|split].
    + cbn [attrs setattr]. by rewrite !lookup_insert_ne by done.
    + cbn [attrs setattr]. by rewrite lookup_insert_eq.
    + exists v. split.
      * cbn [attrs setattr]. rewrite lookup_insert_ne by done.
        by rewrite lookup_insert_eq.
      * by apply ravel_scalar.
  - split; [done|]. by exists bv.
Qed.

(** Two example shards with [frequency1] 100 and 200. *)
Lemma loadSplit_batchVector_witness :
  exists result batchVector,
    loadSplit Ex.flat_shards "R" 2 "frequency1" = Ok result
    /\ attrs result !! "batchVector"%string = Some batchVector
    /\ ravel result batchVector = Ok [100%Q; 100%Q].
Proof.
  assert (H2 : (first ← load Ex.flat_shards "R0000.txt" true;
                getattr first "frequency1") = Ok (VFloat 100))
    by (vm_compute; reflexivity).
  py_run (load Ex.flat_shards "R0000.txt" true) as first H1.
  cbn [mbind py_mbind py_bind] in H2. unfold getattr in H2.
  destruct (attrs first !! "frequency1"%string) as [v|] eqn:Hv;
    [|discriminate H2].
  injection H2 as ->.
  py_run (loadSplit Ex.flat_shards "R" 2 "frequency1") as result H.
  destruct (loadSplit_batchVector Ex.flat_shards "R" 2 "frequency1"
              result first (VFloat 100) 100 H H1 Hv eq_refl)
    as (_ & _ & bv & Hbv & Hr); [compute_done|].
  exists result, bv. split; [reflexivity|]. split; [exact Hbv | exact Hr].
Defined.

(** X10.  Without a shard to start from, [loadSplit] raises [IndexError]
    before it reads a file. *)
Theorem loadSplit_no_shard (fs : gmap string file) (baseName : string)
    (Ntotal : Z) (batchType : string) :
  (Ntotal <= 0)%Z ->
  loadSplit fs baseName Ntotal batchType = Raise IndexError.
Proof.
  intros H. unfold loadSplit.
  by replace (Z.to_nat Ntotal) with 0 by lia.
Qed.

Lemma loadSplit_no_shard_witness :
  loadSplit Ex.flat_shards "R" 0 "frequency1" = Raise IndexError.
Proof. apply loadSplit_no_shard. lia. Defined.

End split_batch.

(** * The slots of [loadSplit] *)

Section assign_index.

Import Np Spec.
Local Open Scope nat_scope.

Implicit Types (sh pre post ix : list nat) (a v : ndarray).

Local Arguments size : simpl never.

Lemma broadcastable_refl sh : broadcastable sh sh = true.
Proof.
  unfold broadcastable. rewrite Nat.sub_diag, take_0, drop_0. cbn [forallb].
  cbn [andb]. induction (rev sh) as [|n l IH]; [done|].
  cbn [zip zip_with forallb fst snd]. by rewrite Nat.eqb_refl, IH.
Qed.

Lemma broadcast_index_same sh ix :
  in_bounds sh ix = true -> broadcast_index sh sh ix = ix.
Proof.
  unfold broadcast_index. rewrite Nat.sub_diag, !drop_0. cbn [repeat app].
  revert ix. induction sh as [|n sh IH]; intros ix H.
  - by apply in_bounds_inv_nil in H as ->.
  - apply in_bounds_inv_cons in H as (i & ix' & -> & Hi & Hix).
    cbn [zip zip_with map fst snd]. rewrite (IH _ Hix). f_equal.
    destruct (Nat.eqb_spec n 1); [lia | done].
Qed.

(** An index into the target from one into the slot. *)
Lemma in_bounds_insert pre n post ix i :
  in_bounds (pre ++ post) ix = true -> i < n ->
  in_bounds (pre ++ n :: post)
    (take (length pre) ix ++ i :: drop (length pre) ix) = true
  /\ nth (length pre) (take (length pre) ix ++ i :: drop (length pre) ix) 0
     = i
  /\ take (length pre) (take (length pre) ix ++ i :: drop (length pre) ix)
     ++ drop (S (length pre))
          (take (length pre) ix ++ i :: drop (length pre) ix)
     = ix.
Proof.
  intros Hix Hi.
  apply in_bounds_app_inv in Hix as (ix1 & ix2 & -> & H1 & H2).
  pose proof (in_bounds_length _ _ H1) as L1.
  rewrite <- L1, take_app_length, drop_app_length.
  split; [|split].
  - apply in_bounds_app; [done|]. rewrite in_bounds_cons, H2.
    by apply Nat.ltb_lt in Hi as ->.
  - by rewrite nth_app_length.
  - rewrite take_app_length.
    replace (S (length ix1)) with (length (ix1 ++ [i]))
      by (rewrite length_app; cbn; lia).
    replace (ix1 ++ i :: ix2) with ((ix1 ++ [i]) ++ ix2)
      by (by rewrite <- app_assoc).
    by rewrite drop_app_length.
Qed.

Lemma shape_split pre n post :
  take (length pre) (pre ++ n :: post)
  ++ drop (S (length pre)) (pre ++ n :: post) = pre ++ post
  /\ nth (length pre) (pre ++ n :: post) 0 = n.
Proof.
  split; [|by rewrite nth_app_length].
  rewrite take_app_length.
  replace (S (length pre)) with (length (pre ++ [n]))
    by (rewrite length_app; cbn; lia).
  replace (pre ++ n :: post) with ((pre ++ [n]) ++ post)
    by (by rewrite <- app_assoc).
  by rewrite drop_app_length.
Qed.

(** [a[..., k, ...] = v] followed by [a[..., k, ...]] gives [v]. *)
Lemma assign_index_same pre n post k v a :
  shape a = pre ++ n :: post -> k < n -> shape v = pre ++ post -> wf v ->
  exists a',
    assign_index_axis (length pre) k v a = Ok a'
    /\ shape a' = shape a /\ wf a'
    /\ index_axis (length pre) k a' = Ok v.
Proof.
  intros Hsh Hk Hv Hwf. unfold assign_index_axis.
  destruct (shape_split pre n post) as [Htsh Hn].
  rewrite Hsh, Htsh, Hn, Hv, broadcastable_refl.
  apply Nat.ltb_lt in Hk as Hk'. rewrite Hk'. cbn [negb].
  eexists. split; [reflexivity|]. cbn [shape].
  split; [done|]. split; [unfold wf; cbn; by rewrite length_map, length_seq|].
  unfold index_axis. cbn [shape]. rewrite Hn, Hk', Htsh. f_equal.
  symmetry. apply ndarray_ext; [done | apply gather_wf | done |].
  intros ix Hix. rewrite Hv in Hix. rewrite get_gather by done.
  cbn [shape data].
  destruct (in_bounds_insert pre n post ix k Hix Hk) as (Hb & Hnth & Hrest).
  rewrite nth_map_seq by by apply offset_lt.
  cbv zeta. rewrite unravel_offset by done. rewrite Hnth, Nat.eqb_refl.
  rewrite Hrest, broadcast_index_same by done.
  rewrite <- Hv. apply get_nth; [done | by rewrite Hv].
Qed.

(** [a[..., k, ...] = v] leaves [a[..., i, ...]] for another [i]. *)
Lemma assign_index_other pre n post k i v a a' :
  shape a = pre ++ n :: post ->
  assign_index_axis (length pre) k v a = Ok a' -> i <> k ->
  shape a' = shape a /\ wf a'
  /\ index_axis (length pre) i a' = index_axis (length pre) i a.
Proof.
  intros Hsh H Hne. unfold assign_index_axis in H.
  destruct (shape_split pre n post) as [Htsh Hn].
  rewrite Hsh, Htsh, Hn in H.
  destruct (negb (k <? n)); [done|].
  destruct (negb (broadcastable _ _)); [done|]. injection H as <-.
  cbn [shape]. split; [done|].
  split; [unfold wf; cbn; by rewrite length_map, length_seq|].
  unfold index_axis. cbn [shape]. rewrite Hsh, Hn, Htsh.
  destruct (Nat.ltb_spec i n) as [Hi|]; [|done]. f_equal.
  apply gather_ext. intros ix Hix. cbn [shape data].
  destruct (in_bounds_insert pre n post ix i Hix Hi) as (Hb & Hnth & _).
  rewrite nth_map_seq by by apply offset_lt.
  cbv zeta. rewrite unravel_offset by done. rewrite Hnth.
  rewrite Hsh. by destruct (Nat.eqb_spec i k).
Qed.

End assign_index.

Section data_wf.

Import Np LWE Spec Spec2.
Local Open Scope nat_scope.

Implicit Types (o self : obj) (name : string) (a : ndarray).

Lemma size_reshape_shape (q : nat) (newshape : list Z) :
  size (map (fun d => if (0 <=? d)%Z then Z.to_nat d else q) newshape)
  = size (map Z.to_nat (filter (fun d => (0 <=? d)%Z) newshape))
    * q ^ (length newshape
           - length (filter (fun d => (0 <=? d)%Z) newshape)).
Proof.
  induction newshape as [|d l IH]; [done|].
  pose proof (length_filter (fun d => (0 <=? d)%Z) l) as Hle.
  rewrite filter_cons. cbn [map]. rewrite size_cons, IH.
  destruct (decide _) as [Hd|Hd].
  - apply Is_true_true in Hd. rewrite Hd. cbn [map length].
    rewrite size_cons. cbn [Nat.sub]. lia.
  - apply Is_true_false in Hd. rewrite Hd.
    replace (length (d :: l) - length (filter (fun d => (0 <=? d)%Z) l))
      with (S (length l - length (filter (fun d => (0 <=? d)%Z) l)))
      by (cbn [length]; lia).
    cbn [Nat.pow]. lia.
Qed.

Lemma size_known_shape (newshape : list Z) :
  length newshape - length (filter (fun d => (0 <=? d)%Z) newshape) = 0 ->
  map Z.to_nat newshape
  = map (fun d => if (0 <=? d)%Z then Z.to_nat d else 0) newshape.
Proof.
  induction newshape as [|d l IH]; [done|].
  pose proof (length_filter (fun d => (0 <=? d)%Z) l) as Hle.
  rewrite filter_cons. destruct (decide _) as [Hd|Hd]; cbn [length map].
  - apply Is_true_true in Hd. rewrite Hd. intros H. f_equal. apply IH. lia.
  - lia.
Qed.

Lemma reshape_wf (v : list f64) newshape a :
  reshape v newshape = Ok a -> wf a.
Proof.
  unfold reshape. cbv zeta.
  set (known := filter (fun d => (0 <=? d)%Z) newshape).
  destruct (length newshape - length known) as [|[|?]] eqn:E; [| |done].
  - destruct (Nat.eqb_spec (size (map Z.to_nat known)) (length v)) as [Hs|];
      [|done].
    intros [= <-]. unfold wf. cbn [shape data].
    rewrite size_known_shape, size_reshape_shape by done.
    fold known. rewrite E. cbn [Nat.pow]. lia.
  - destruct (Nat.eqb_spec (size (map Z.to_nat known)) 0) as [|Hs0];
      [done|].
    destruct (Nat.eqb_spec (length v mod size (map Z.to_nat known)) 0)
      as [Hm|]; [|done].
    cbn [orb negb]. intros [= <-]. unfold wf. cbn [shape data].
    rewrite size_reshape_shape. fold known. rewrite E. cbn [Nat.pow].
    rewrite Nat.mul_1_r.
    pose proof (Nat.div_mod (length v) _ Hs0). lia.
Qed.

Lemma decode_field_wf volumetric Ntime Nspace Nspace2 Ngrid Nsims Nsims2
    raw Ext_x Ext_y :
  decode_field volumetric Ntime Nspace Nspace2 Ngrid Nsims Nsims2 raw
  = Ok (Ext_x, Ext_y) ->
  wf Ext_x /\ wf Ext_y.
Proof.
  intros H. unfold decode_field in H. py_invert H.
  injection H as <- <-. split; apply squeeze_wf, slice_axis_wf.
Qed.

Lemma spectrum_channel_wf c RawSpectrum a :
  spectrum_channel c RawSpectrum = Ok a -> wf a.
Proof.
  intros H. unfold spectrum_channel in H. py_invert H.
  injection H as <-. apply gather_wf.
Qed.

Lemma data_wf_setattr o name v :
  data_wf o -> (forall a, v = VData a -> wf a) ->
  data_wf (setattr o name v).
Proof.
  intros Ho Hv n a. cbn [attrs setattr].
  destruct (decide (name = n)) as [->|Hne].
  - rewrite lookup_insert_eq. intros [= ->]. by apply Hv.
  - rewrite lookup_insert_ne by done. apply Ho.
Qed.

Lemma data_wf_new_array o name v :
  data_wf o -> data_wf (new_array o name v).
Proof.
  intros Ho n a. cbn [attrs new_array].
  destruct (decide (name = n)) as [->|Hne].
  - by rewrite lookup_insert_eq.
  - rewrite lookup_insert_ne by done. apply Ho.
Qed.

Lemma data_wf_getattr o name v a :
  data_wf o -> getattr o name = Ok v -> v = VData a -> wf a.
Proof.
  intros Ho H ->. unfold getattr in H.
  destruct (attrs o !! name) as [w|] eqn:E; [|done].
  injection H as ->. by eapply Ho.
Qed.

Lemma read_parameter_data_wf lines o i o' :
  data_wf o -> read_parameter lines o i = Ok o' -> data_wf o'.
Proof.
  intros Ho H. unfold read_parameter in H. py_invert H.
  injection H as <-. by apply data_wf_setattr.
Qed.

Lemma cast_int_data_wf name o o' :
  data_wf o -> cast_int name o = Ok o' -> data_wf o'.
Proof.
  intros Ho H. unfold cast_int in H. py_invert H.
  destruct x; simplify_eq; [by apply data_wf_setattr | done].
Qed.

Lemma parse_manifest_data_wf lines o :
  parse_manifest lines = Ok o -> data_wf o.
Proof.
  intros H. unfold parse_manifest, cast_ints in H. py_invert H.
  assert (H0 : data_wf x).
  { eapply (py_foldl_invariant data_wf); [| |exact Hx].
    - intros s i s' Hs Hb. by eapply read_parameter_data_wf.
    - intros n a. cbn [attrs]. by rewrite lookup_empty. }
  eauto 10 using cast_int_data_wf.
Qed.

Lemma derive_grid_data_wf o o' :
  data_wf o -> derive_grid o = Ok o' -> data_wf o'.
Proof.
  intros Ho H. unfold derive_grid in H. py_invert H.
  injection H as <-. by repeat (apply data_wf_setattr; [|done]).
Qed.

Lemma load_field_data_wf isZip fs archive fileBase o o' :
  data_wf o -> load_field isZip fs archive fileBase o = Ok o' ->
  data_wf o'.
Proof.
  intros Ho H. unfold load_field in H. py_invert H.
  destruct x7 as [Ext_x Ext_y]. injection H as <-.
  apply decode_field_wf in Hx7 as [Wx Wy].
  apply data_wf_setattr; [apply data_wf_setattr|]; [done|..];
    by intros a [= <-].
Qed.

Lemma load_spectrum_data_wf isZip fs archive fileBase o o' :
  data_wf o -> load_spectrum isZip fs archive fileBase o = Ok o' ->
  data_wf o'.
Proof.
  intros Ho H. unfold load_spectrum in H. py_invert H.
  destruct x3 as [[St Sx] Sy]. injection H as <-.
  unfold decode_spectrum in Hx3. py_invert Hx3. injection Hx3 as <- <- <-.
  repeat (apply data_wf_setattr;
          [|intros a [= <-]; by eapply spectrum_channel_wf]).
  done.
Qed.

Lemma batch_axis_data_wf sfx o o' :
  data_wf o -> batch_axis sfx o = Ok o' -> data_wf o'.
Proof.
  intros Ho H. unfold batch_axis in H. py_invert H.
  injection H as <-. apply data_wf_new_array.
  destruct (batch_branch x) as [[source factor]|]; [|by simplify_eq].
  py_invert Hx0.
  assert (Hs : data_wf (setattr o ("batchStart" +:+ sfx) x5)).
  { apply data_wf_setattr; [done|]. intros a ->.
    destruct source as [name|]; [|done]. by eapply data_wf_getattr. }
  destruct factor as [c|]; [|by simplify_eq].
  py_invert Hx0. injection Hx0 as <-. by apply data_wf_setattr.
Qed.

Lemma sampling_axes_data_wf o o' :
  data_wf o -> sampling_axes o = Ok o' -> data_wf o'.
Proof.
  intros Ho H. unfold sampling_axes in H. py_invert H.
  injection H as <-. apply data_wf_new_array.
  unfold imul_last in Hx4. py_invert Hx4.
  destruct x7 as [| | |b off len]; try done.
  destruct (len =? 0); [done|]. py_invert Hx4. injection Hx4 as <-.
  unfold slice_view in Hx3. py_invert Hx3.
  destruct x4 as [| | |b' off' len']; try done. injection Hx3 as <-.
  intros n a. cbn [attrs]. apply data_wf_setattr; [|done].
  by do 2 apply data_wf_new_array.
Qed.

Lemma load_data_wf fs filePath loadFieldArray o :
  load fs filePath loadFieldArray = Ok o -> data_wf o.
Proof.
  intros H. unfold load, init in H. cbv zeta in H.
  apply py_bind_Ok in H as ([[archive fileBase] text] & _ & H).
  py_invert H.
  eapply sampling_axes_data_wf; [|exact H].
  eapply batch_axis_data_wf; [|exact Hx4].
  eapply batch_axis_data_wf; [|exact Hx3].
  eapply load_spectrum_data_wf; [|exact Hx2].
  assert (H1 : data_wf x0).
  { eapply derive_grid_data_wf; [|exact Hx0].
    by eapply parse_manifest_data_wf. }
  destruct loadFieldArray; [|by simplify_eq].
  by eapply load_field_data_wf.
Qed.

End data_wf.

Section slots.

Import Np LWE Spec Spec2.
Local Open Scope nat_scope.

Implicit Types (o base : obj) (name : string) (a v : ndarray).

Lemma of_option_Ok {A} (e : exn) (x : option A) (y : A) :
  of_option e x = Ok y -> x = Some y.
Proof. destruct x; [by intros [= ->] | done]. Qed.

Lemma assign_index_split ax k v a a' :
  assign_index_axis ax k v a = Ok a' ->
  exists n,
    shape a = take ax (shape a) ++ n :: drop (S ax) (shape a)
    /\ length (take ax (shape a)) = ax /\ k < n.
Proof.
  unfold assign_index_axis. intros H.
  destruct (Nat.ltb_spec k (nth ax (shape a) 0)) as [Hk|]; [|done].
  clear H. rewrite nth_lookup in Hk.
  destruct (shape a !! ax) as [n|] eqn:E; [|cbn in Hk; lia].
  exists n. split; [by rewrite take_drop_middle|]. split; [|done].
  apply lookup_lt_Some in E. rewrite length_take. lia.
Qed.

Lemma assign_then_index ax k v a a' :
  assign_index_axis ax k v a = Ok a' ->
  shape v = take ax (shape a) ++ drop (S ax) (shape a) -> wf v ->
  index_axis ax k a' = Ok v.
Proof.
  intros H Hv Hwf.
  destruct (assign_index_split _ _ _ _ _ H) as (n & Hsh & Hax & Hk).
  destruct (assign_index_same _ n _ k v a Hsh Hk Hv Hwf)
    as (a'' & H' & _ & _ & Hi).
  rewrite Hax in H', Hi. rewrite H in H'. by injection H' as ->.
Qed.

Lemma assign_keeps_index ax k i v a a' :
  assign_index_axis ax k v a = Ok a' -> i <> k ->
  index_axis ax i a' = index_axis ax i a.
Proof.
  intros H Hne.
  destruct (assign_index_split _ _ _ _ _ H) as (n & Hsh & Hax & Hk).
  rewrite <- Hax in H.
  destruct (assign_index_other _ n _ k i v a a' Hsh H Hne) as (_ & _ & Hi).
  by rewrite Hax in Hi.
Qed.

Section shards.

Variables (fs : gmap string file) (names : list string).

Lemma slots_hold_step name ax j fname shard v a a' :
  slots_hold fs names name ax j a ->
  names !! j = Some fname -> load fs fname true = Ok shard ->
  get_data shard name = Ok v ->
  assign_index_axis ax j v a = Ok a' ->
  slots_hold fs names name ax (S j) a'.
Proof.
  intros Hold Hj Hload Hv Ha i fname' shard' v' Hi Hn Hl Hg Hs.
  rewrite (assign_index_axis_shape _ _ _ _ _ Ha) in Hs.
  destruct (decide (i = j)) as [->|Hne].
  - rewrite Hj in Hn. injection Hn as <-.
    rewrite Hload in Hl. injection Hl as <-.
    rewrite Hv in Hg. injection Hg as <-.
    eapply assign_then_index; [exact Ha | exact Hs |].
    eapply load_data_wf; [exact Hload|]. by apply get_data_inv.
  - rewrite (assign_keeps_index _ _ _ _ _ _ Ha Hne).
    eapply Hold; [lia|done..].
Qed.

Lemma assign_slot_inv name ax k v o o' :
  assign_slot name ax k v o = Ok o' ->
  exists a a',
    attrs o !! name = Some (VData a)
    /\ assign_index_axis ax k v a = Ok a'
    /\ o' = setattr o name (VData a').
Proof.
  intros H. unfold assign_slot in H. py_invert H. injection H as <-.
  apply get_data_inv in Hx. by exists x, x0.
Qed.

Lemma stacked_step stackAxis name j fname shard v o o' a a' :
  stacked fs names stackAxis name j o ->
  names !! j = Some fname -> load fs fname true = Ok shard ->
  get_data shard name = Ok v ->
  attrs o !! name = Some (VData a) ->
  assign_index_axis (loop_axis stackAxis name) j v a = Ok a' ->
  attrs o' !! name = Some (VData a') ->
  stacked fs names stackAxis name (S j) o'.
Proof.
  intros (a0 & Ha0 & Hlen & Hold) Hj Hload Hv Ha Has Ha'.
  simplify_eq. exists a'. split; [done|].
  split; [by rewrite (assign_index_axis_shape _ _ _ _ _ Has)|].
  by eapply slots_hold_step.
Qed.

Ltac attr_simpl :=
  cbn [attrs setattr new_array] in *;
  repeat match goal with
         | H : context [<[?n := _]> _ !! ?m] |- _ =>
             first [rewrite (lookup_insert_ne _ n m) in H by done
                   | rewrite lookup_insert_eq in H]
         | |- context [<[?n := _]> _ !! ?m] =>
             first [rewrite (lookup_insert_ne _ n m) by done
                   | rewrite lookup_insert_eq]
         end.

Lemma add_shard_stacked stackAxis batchType name j o o' :
  name ∈ field_names ++ spectrum_names ->
  stacked fs names stackAxis name j o ->
  add_shard fs names stackAxis batchType o j = Ok o' ->
  stacked fs names stackAxis name (S j) o'.
Proof.
  intros Hin Hst H. unfold add_shard in H. cbv zeta in H. py_invert H.
  injection H as <-.
  apply of_option_Ok in Hx.
  apply assign_slot_inv in Hx2 as (a1 & a1' & A1 & S1 & ->).
  apply assign_slot_inv in Hx4 as (a2 & a2' & A2 & S2 & ->).
  apply assign_slot_inv in Hx6 as (a3 & a3' & A3 & S3 & ->).
  apply assign_slot_inv in Hx8 as (a4 & a4' & A4 & S4 & ->).
  apply assign_slot_inv in Hx10 as (a5 & a5' & A5 & S5 & ->).
  attr_simpl.
  unfold field_names, spectrum_names in Hin. cbn [app] in Hin.
  rewrite !elem_of_cons, elem_of_nil in Hin.
  destruct Hin as [->|[->|[->|[->|[->|[]]]]]];
    (eapply stacked_step;
     [exact Hst | exact Hx | exact Hx0 | eassumption | eassumption
     | eassumption | by attr_simpl]).
Qed.

Lemma get_data_intro o name a :
  attrs o !! name = Some (VData a) -> get_data o name = Ok a.
Proof. intros H. unfold get_data, getattr. by rewrite H. Qed.

Lemma slots_hold_none name ax a : slots_hold fs names name ax 0 a.
Proof. intros i ? ? ? Hi. lia. Qed.

Lemma stacked_first stackAxis name fname first v z a' o' :
  names !! 0 = Some fname -> load fs fname true = Ok first ->
  attrs first !! name = Some (VData v) ->
  length (shape z) = loop_rank stackAxis name ->
  assign_index_axis (loop_axis stackAxis name) 0 v z = Ok a' ->
  attrs o' !! name = Some (VData a') ->
  stacked fs names stackAxis name 1 o'.
Proof.
  intros H0 Hload Hv Hlen Has Ha'. exists a'. split; [done|].
  split; [by rewrite (assign_index_axis_shape _ _ _ _ _ Has)|].
  eapply slots_hold_step;
    [apply slots_hold_none | exact H0 | exact Hload
    | by apply get_data_intro | exact Has].
Qed.

Lemma stack_field_attrs stackAxis Ntotal o o' :
  stack_field stackAxis Ntotal o = Ok o' ->
  exists vx vy zx zy ax ay,
    attrs o !! "Ext_x"%string = Some (VData vx)
    /\ attrs o !! "Ext_y"%string = Some (VData vy)
    /\ length (shape zx) = S (if stackAxis =? 2 then 2 else 3)
    /\ length (shape zy) = S (if stackAxis =? 2 then 2 else 3)
    /\ assign_index_axis (if stackAxis =? 2 then 2 else 3) 0 vx zx = Ok ax
    /\ assign_index_axis (if stackAxis =? 2 then 2 else 3) 0 vy zy = Ok ay
    /\ attrs o' !! "Ext_x"%string = Some (VData ax)
    /\ attrs o' !! "Ext_y"%string = Some (VData ay)
    /\ (forall n, n ∉ field_names -> attrs o' !! n = attrs o !! n).
Proof.
  intros H1.
  unfold stack_field in H1. cbv zeta in H1. py_invert H1.
  unfold zeros_stack in Hx1.
  destruct (Ntotal <? 0)%Z; [done|]. injection Hx1 as <-.
  apply assign_slot_inv in Hx2 as (z1 & a1 & Z1 & S1 & ->).
  apply assign_slot_inv in H1 as (z2 & a2 & Z2 & S2 & ->).
  apply get_data_inv in Hx, Hx3, Hx4.
  attr_simpl. simplify_eq.
  assert (Hd : length x0 = if stackAxis =? 2 then 2 else 3).
  { destruct (stackAxis =? 2); py_invert Hx0; by injection Hx0 as <-. }
  rewrite Hd in S1, S2.
  exists x, x3, (zeros (x0 ++ [Z.to_nat Ntotal])), (zeros (shape x4)),
         x4, a2.
  split_and!; try done.
  - unfold zeros. cbn [shape]. rewrite length_app, Hd. cbn [length]. lia.
  - rewrite (assign_index_axis_shape _ _ _ _ _ S1).
    unfold zeros. cbn [shape]. rewrite length_app, Hd. cbn [length]. lia.
  - intros n Hn. rewrite !lookup_insert_ne; [done|..]; intros <-;
      apply Hn; by apply (bool_decide_unpack _).
Qed.

Lemma stack_spectra_attrs Ntotal o o' :
  stack_spectra Ntotal o = Ok o' ->
  (forall name, name ∈ spectrum_names ->
     exists v z a,
       attrs o !! name = Some (VData v)
       /\ length (shape z) = 2
       /\ assign_index_axis 0 0 v z = Ok a
       /\ attrs o' !! name = Some (VData a))
  /\ (forall n, n ∉ spectrum_names -> attrs o' !! n = attrs o !! n).
Proof.
  intros H2.
  unfold stack_spectra in H2. cbv zeta in H2. py_invert H2.
  destruct (Ntotal <? 0)%Z; [done|]. injection Hx1 as <-.
  apply assign_slot_inv in Hx2 as (z3 & a3 & Z3 & S3 & ->).
  apply assign_slot_inv in Hx5 as (z4 & a4 & Z4 & S4 & ->).
  apply assign_slot_inv in H2 as (z5 & a5 & Z5 & S5 & ->).
  apply get_data_inv in Hx, Hx3, Hx4, Hx6.
  attr_simpl. simplify_eq.
  pose proof (assign_index_axis_shape _ _ _ _ _ S3) as Hs3.
  unfold zeros in Hs3. cbn [shape] in Hs3.
  split.
  - intros name Hin. unfold spectrum_names in Hin.
    rewrite !elem_of_cons, elem_of_nil in Hin.
    destruct Hin as [->|[->|[->|[]]]]; attr_simpl.
    + by exists x, (zeros [Z.to_nat Ntotal; x0]), x3.
    + exists x4, (zeros (shape x3)), a4. split_and!; try done.
      unfold zeros. cbn [shape]. by rewrite Hs3.
    + exists x6, (zeros (shape x3)), a5. split_and!; try done.
      unfold zeros. cbn [shape]. by rewrite Hs3.
  - intros n Hn. rewrite !lookup_insert_ne; [done|..]; intros <-;
      apply Hn; by apply (bool_decide_unpack _).
Qed.

Lemma loadSplit_start stackAxis Ntotal fname first o1 o2 bv bs name :
  names !! 0 = Some fname -> load fs fname true = Ok first ->
  stack_field stackAxis Ntotal first = Ok o1 ->
  stack_spectra Ntotal o1 = Ok o2 ->
  name ∈ field_names ++ spectrum_names ->
  stacked fs names stackAxis name 1
    (setattr (setattr o2 "batchVector" bv) "batchStart" bs).
Proof.
  intros H0 Hload H1 H2 Hin.
  destruct (stack_field_attrs _ _ _ _ H1)
    as (vx & vy & zx & zy & ax & ay
        & Vx & Vy & Lx & Ly & Sx & Sy & Ax & Ay & F1).
  destruct (stack_spectra_attrs _ _ _ H2) as [Hspec F2].
  apply elem_of_app in Hin as [Hin|Hin].
  - unfold field_names in Hin.
    rewrite !elem_of_cons, elem_of_nil in Hin.
    destruct Hin as [->|[->|[]]].
    + eapply (stacked_first stackAxis "Ext_x" fname first vx zx ax);
        [done..|].
      attr_simpl. rewrite F2; [done|]. by apply (bool_decide_unpack _).
    + eapply (stacked_first stackAxis "Ext_y" fname first vy zy ay);
        [done..|].
      attr_simpl. rewrite F2; [done|]. by apply (bool_decide_unpack _).
  - destruct (Hspec name Hin) as (v & z & a & Hv & Hl & Hs & Ha).
    assert (Hnf : (name ∉ field_names)
                  /\ name <> "batchVector"%string
                  /\ name <> "batchStart"%string).
    { unfold spectrum_names in Hin.
      rewrite !elem_of_cons, elem_of_nil in Hin.
      destruct Hin as [->|[->|[->|[]]]];
        (split; [by apply (bool_decide_unpack _) | done]). }
    destruct Hnf as (Hnf & Hn1 & Hn2).
    rewrite (F1 _ Hnf) in Hv.
    assert (Hax : loop_axis stackAxis name = 0
                  /\ loop_rank stackAxis name = 2).
    { unfold loop_axis, loop_rank.
      by rewrite bool_decide_eq_false_2 by done. }
    destruct Hax as [Hax Hrk].
    eapply (stacked_first stackAxis name fname first v z a);
      [done | done | done | by rewrite Hrk | by rewrite Hax |].
    cbn [attrs setattr]. by rewrite !lookup_insert_ne by done.
Qed.

Lemma loop_stacked stackAxis batchType name m :
  name ∈ field_names ++ spectrum_names ->
  forall j o o',
    stacked fs names stackAxis name j o ->
    py_foldl (add_shard fs names stackAxis batchType) o (seq j m)
    = Ok o' ->
    stacked fs names stackAxis name (j + m) o'.
Proof.
  intros Hin. induction m as [|m IH]; intros j o o' Hst H.
  - injection H as <-. by rewrite Nat.add_0_r.
  - cbn [seq py_foldl] in H. apply py_bind_Ok in H as (o1 & H1 & H).
    replace (j + S m) with (S j + m) by lia.
    eapply IH; [|exact H]. by eapply add_shard_stacked.
Qed.

End shards.

(** X11.  When [loadSplit] returns, slot [i] of a stacked array is the array
    of shard [i], for the shards whose array has the shape of a slot:
    [Ext_x[..., i]] and [Ext_y[..., i]] on the new last axis,
    [spectrum_x[i]], [spectrum_y[i]] and [spectrumTotal[i]] on the new
    first one. *)
Theorem loadSplit_slots (fs : gmap string file) (baseName : string)
    (Ntotal : Z) (batchType : string) (result : obj) (i : nat)
    (shard : obj) (name : string) (v a : ndarray) :
  loadSplit fs baseName Ntotal batchType = Ok result ->
  i < Z.to_nat Ntotal ->
  load fs (baseName +:+ Str.format_04d i +:+ ".txt")%string true
  = Ok shard ->
  name ∈ field_names ++ spectrum_names ->
  get_data shard name = Ok v ->
  get_data result name = Ok a ->
  shape a = stacked_shape name v (Z.to_nat Ntotal) ->
  index_axis (stack_axis name v) i a = Ok v.
Proof.
  intros H Hi Hload Hin Hv Ha Hsh.
  unfold loadSplit in H. cbv zeta in H.
  set (names := map _ (seq 0 (Z.to_nat Ntotal))) in H.
  py_invert H. apply of_option_Ok in Hx.
  set (stackAxis := length (shape x1)) in *.
  assert (Hst : stacked fs names stackAxis name (1 + (Z.to_nat Ntotal - 1))
                  result).
  { eapply loop_stacked; [done| |exact H].
    by eapply loadSplit_start. }
  replace (1 + (Z.to_nat Ntotal - 1)) with (Z.to_nat Ntotal) in Hst by lia.
  destruct Hst as (a0 & Ha0 & Hlen & Hold).
  apply get_data_inv in Ha. rewrite Ha in Ha0. injection Ha0 as <-.
  assert (Hname : names !! i
                  = Some (baseName +:+ Str.format_04d i +:+ ".txt")%string).
  { unfold names. rewrite list_lookup_fmap, lookup_seq_lt by done.
    reflexivity. }
  unfold stack_axis, stacked_shape, loop_rank, loop_axis in *.
  destruct (bool_decide (name ∈ field_names)).
  - set (c := if stackAxis =? 2 then 2 else 3) in *.
    assert (Hc : length (shape v) = c).
    { rewrite Hsh, length_app in Hlen. cbn [length] in Hlen. lia. }
    rewrite Hc.
    eapply (Hold i); [done..|].
    rewrite Hsh, <- Hc, take_app_length.
    rewrite drop_ge by (rewrite length_app; cbn [length]; lia).
    by rewrite app_nil_r.
  - eapply (Hold i); [done..|]. by rewrite Hsh.
Qed.

(** Slot 1 of the stacked [spectrum_x] of the two example shards. *)
Lemma loadSplit_slots_witness :
  exists result shard v a,
    loadSplit Ex.flat_shards "R" 2 "frequency1" = Ok result
    /\ load Ex.flat_shards "R0001.txt" true = Ok shard
    /\ get_data shard "spectrum_x" = Ok v
    /\ get_data result "spectrum_x" = Ok a
    /\ index_axis 0 1 a = Ok v.
Proof.
  assert (K : (shard ← load Ex.flat_shards "R0001.txt" true;
               v ← get_data shard "spectrum_x";
               result ← loadSplit Ex.flat_shards "R" 2 "frequency1";
               a ← get_data result "spectrum_x";
               Ok (bool_decide
                     (shape a = stacked_shape "spectrum_x" v 2)))
              = Ok true)
    by (vm_compute; reflexivity).
  destruct (load Ex.flat_shards "R0001.txt" true) as [shard|] eqn:Hl;
    cbn [mbind py_mbind py_bind] in K; [|discriminate K].
  destruct (get_data shard "spectrum_x") as [v|] eqn:Hv;
    cbn [mbind py_mbind py_bind] in K; [|discriminate K].
  destruct (loadSplit Ex.flat_shards "R" 2 "frequency1") as [result|] eqn:H;
    cbn [mbind py_mbind py_bind] in K; [|discriminate K].
  destruct (get_data result "spectrum_x") as [a|] eqn:Ha;
    cbn [mbind py_mbind py_bind] in K; [|discriminate K].
  injection K as K. apply bool_decide_eq_true_1 in K.
  exists result, shard, v, a.
  split; [reflexivity|]. split; [reflexivity|].
  split; [exact Hv|]. split; [exact Ha|].
  apply (loadSplit_slots Ex.flat_shards "R" 2 "frequency1" result 1 shard
           "spectrum_x" v a H);
    [vm_compute; lia | exact Hl | by apply (bool_decide_unpack _)
    | exact Hv | exact Ha | exact K].
Defined.

End slots.

(** * Normalising arrays *)

Section normalise.

Import Tools.
Local Open Scope Q_scope.

Implicit Types (v w : list Q) (m x y : Q).

Lemma foldl_Qmax_ge l x : x <= foldl Qmax x l.
Proof.
  revert x. induction l as [|a l IH]; intros x; cbn [foldl].
  - apply Qle_refl.
  - eapply Qle_trans; [|apply IH]. apply Q.le_max_l.
Qed.

Lemma foldl_Qmax_upper l x y : y ∈ l -> y <= foldl Qmax x l.
Proof.
  revert x. induction l as [|a l IH]; intros x Hy.
  - by apply elem_of_nil in Hy.
  - cbn [foldl]. apply elem_of_cons in Hy as [->|Hy]; [|by apply IH].
    eapply Qle_trans; [|apply foldl_Qmax_ge]. apply Q.le_max_r.
Qed.

Lemma foldl_Qmax_attained l x :
  exists y, y ∈ x :: l /\ y == foldl Qmax x l.
Proof.
  revert x. induction l as [|a l IH]; intros x; cbn [foldl].
  - exists x. split; [left | reflexivity].
  - destruct (IH (Qmax x a)) as (y & Hy & Hyv).
    apply elem_of_cons in Hy as [->|Hy].
    + destruct (Q.max_spec x a) as [[_ E]|[_ E]].
      * exists a. split; [right; left|]. by rewrite <- Hyv, E.
      * exists x. split; [left|]. by rewrite <- Hyv, E.
    + exists y. split; [|done]. by do 2 right.
Qed.

Lemma np_max_upper v m y : np_max v = Ok m -> y ∈ v -> y <= m.
Proof.
  destruct v as [|x l]; [done|]. intros [= <-] Hy.
  apply elem_of_cons in Hy as [->|Hy].
  - apply foldl_Qmax_ge.
  - by apply foldl_Qmax_upper.
Qed.

Lemma np_max_attained v m : np_max v = Ok m -> exists y, y ∈ v /\ y == m.
Proof.
  destruct v as [|x l]; [done|]. intros [= <-]. apply foldl_Qmax_attained.
Qed.

Lemma norma_divides v m :
  np_max v = Ok m -> ~ m == 0 ->
  exists w,
    norma v = Ok w
    /\ length w = length v
    /\ (forall i x, v !! i = Some x -> w !! i = Some (x / m))
    /\ (exists y, y ∈ w /\ y == 1)
    /\ (0 < m -> forall y, y ∈ w -> y <= 1)
    /\ (m < 0 -> forall y, y ∈ w -> 1 <= y).
Proof.
  intros Hm Hne. unfold norma. rewrite Hm. py_step. unfold np_divide.
  destruct (Qeq_bool m 0) eqn:E; [by apply Qeq_bool_iff in E|].
  eexists. split; [reflexivity|].
  split; [by rewrite length_map|].
  split; [intros i x Hi; by rewrite list_lookup_fmap, Hi|].
  split.
  { destruct (np_max_attained v m Hm) as (y & Hy & Hyv).
    exists (y / m). split; [by apply (list_elem_of_fmap_2 (fun x => x / m))|].
    rewrite Hyv. by field. }
  split.
  - intros Hpos y Hy. apply list_elem_of_fmap in Hy as (x & -> & Hx).
    apply (np_max_upper v m x Hm) in Hx.
    apply Qle_shift_div_r; [done|]. by rewrite Qmult_1_l.
  - intros Hneg y Hy. apply list_elem_of_fmap in Hy as (x & -> & Hx).
    apply (np_max_upper v m x Hm) in Hx.
    assert (Hm' : 0 < - m) by lra.
    assert (Heq : x / m == (- x) / (- m)) by (field; lra).
    rewrite Heq. apply Qle_shift_div_l; [done|]. lra.
Qed.

(** X12.  [norma] divides by the largest element.  When that is positive the
    result has the largest element 1; when it is negative, every
    element of the result is at least 1 and the smallest is 1. *)
Theorem norma_largest v m :
  np_max v = Ok m -> ~ m == 0 ->
  exists w,
    norma v = Ok w
    /\ length w = length v
    /\ (forall i x, v !! i = Some x -> w !! i = Some (x / m))
    /\ (exists y, y ∈ w /\ y == 1)
    /\ (0 < m -> forall y, y ∈ w -> y <= 1)
    /\ (m < 0 -> forall y, y ∈ w -> 1 <= y).
Proof. apply norma_divides. Qed.

Lemma norma_largest_witness :
  exists w,
    norma [1; 4; 2] = Ok w
    /\ w !! 0%nat = Some (1 / 4)
    /\ forall y, y ∈ w -> y <= 1.
Proof.
  destruct (norma_largest [1; 4; 2] 4) as (w & H1 & _ & H3 & _ & H5 & _);
    [reflexivity | discriminate |].
  exists w. split; [exact H1|]. split; [by apply H3|].
  apply H5. reflexivity.
Defined.

(** An array without elements has no largest one. *)
Lemma norma_empty : norma [] = Raise ValueError.
Proof. reflexivity. Qed.

Lemma norma_length v w : norma v = Ok w -> length w = length v.
Proof.
  unfold norma, np_divide. intros H. py_invert H.
  destruct (Qeq_bool x 0); [done|]. injection H as <-.
  by rewrite length_map.
Qed.

Lemma py_mapM_lookup {A B} (f : A -> py B) (l : list A) (bs : list B) :
  py_mapM f l = Ok bs ->
  length bs = length l
  /\ forall i a, l !! i = Some a ->
                 exists b, f a = Ok b /\ bs !! i = Some b.
Proof.
  revert bs. induction l as [|a l IH]; intros bs H.
  - injection H as <-. split; [done|]. intros i a Hi.
    by rewrite lookup_nil in Hi.
  - cbn [py_mapM] in H. py_invert H. injection H as <-.
    destruct (IH _ Hx0) as [Hlen Hl]. split; [cbn; by rewrite Hlen|].
    intros [|i] a' Hi.
    + injection Hi as <-. by exists x.
    + by apply Hl.
Qed.

(** The loop of [normaM] after the rows [done]: the rows to come are
    still zero. *)
Lemma normaM_loop (pre rest : list (list Q)) (done : list (list Q)) :
  length done = length pre ->
  py_foldl (fun out i =>
              row ← of_option IndexError ((pre ++ rest) !! i);
              r ← norma row;
              Ok (<[i := r]> out))
           (done ++ map (fun row => map (fun _ => 0) row) rest)
           (seq (length pre) (length rest))
  = (rs ← py_mapM norma rest; Ok (done ++ rs)).
Proof.
  revert pre done. induction rest as [|row rest IH]; intros pre done Hlen.
  - cbn. by rewrite !app_nil_r.
  - cbn [length seq py_foldl py_mapM map].
    rewrite lookup_app_r, Nat.sub_diag by done. cbn [lookup list_lookup].
    py_step. destruct (norma row) as [r|]; [|done]. py_step.
    rewrite <- Hlen, insert_app_r_alt, Nat.sub_diag by done.
    cbn [list_insert insert].
    change (done ++ r :: ?l) with (done ++ [r] ++ l).
    rewrite (app_assoc done [r]).
    replace (pre ++ row :: rest) with ((pre ++ [row]) ++ rest)
      by (by rewrite <- app_assoc).
    replace (S (length done)) with (length (pre ++ [row]))
      by (rewrite length_app; cbn; lia).
    rewrite IH by (rewrite !length_app; cbn; lia).
    destruct (py_mapM norma rest) as [rs|]; [|done]. py_step.
    by rewrite <- app_assoc.
Qed.

(** [normaM] normalises every row [v[i,:]] by itself, and fails when
    [norma] fails on a row. *)
Theorem normaM_rows (v : list (list Q)) :
  normaM v = py_mapM norma v.
Proof.
  unfold normaM.
  pose proof (normaM_loop [] v [] eq_refl) as H. cbn [app length] in H.
  rewrite H. by destruct (py_mapM norma v).
Qed.

(** X13.  Every row of the result has the extent of the row it comes from
    and, when the largest element of that row is positive, the largest
    element 1. *)
Theorem normaM_largest (v out : list (list Q)) :
  normaM v = Ok out ->
  length out = length v
  /\ forall i row m,
       v !! i = Some row -> np_max row = Ok m -> 0 < m ->
       exists r, out !! i = Some r
                 /\ length r = length row
                 /\ (exists y, y ∈ r /\ y == 1)
                 /\ (forall y, y ∈ r -> y <= 1).
Proof.
  rewrite normaM_rows. intros H.
  destruct (py_mapM_lookup _ _ _ H) as [Hlen Hrows]. split; [done|].
  intros i row m Hi Hm Hpos.
  destruct (Hrows i row Hi) as (r & Hr & Hout).
  destruct (norma_divides row m Hm) as (w & Hw & Hl & _ & H1 & Hle & _);
    [lra|].
  rewrite Hr in Hw. injection Hw as <-.
  exists r. split; [done|]. split; [done|]. split; [done|]. by apply Hle.
Qed.

Lemma normaM_largest_witness :
  exists out,
    normaM [[1; 4]; [3; 2]] = Ok out
    /\ length out = 2%nat
    /\ exists r, out !! 1%nat = Some r /\ forall y, y ∈ r -> y <= 1.
Proof.
  py_run (normaM [[1; 4]; [3; 2]]) as out H.
  destruct (normaM_largest _ out H) as [Hlen Hrows].
  destruct (Hrows 1%nat [3; 2] 3 eq_refl eq_refl eq_refl)
    as (r & Hr & _ & _ & Hle).
  exists out. split; [reflexivity|]. split; [exact Hlen|]. by exists r.
Defined.

End normalise.

(** * The coefficients a fit adjusts *)

Section expand_coeffs.

Import Tools.
Local Open Scope nat_scope.

Implicit Types (start x : list Q) (active : list Z).

Lemma np_index_lt n i j : np_index n i = Ok j -> j < n.
Proof.
  unfold np_index. intros H.
  destruct ((0 <=? i)%Z && (i <? Z.of_nat n)%Z) eqn:E1.
  - injection H as <-. lia.
  - destruct ((- Z.of_nat n <=? i)%Z && (i <? 0)%Z) eqn:E2; [|done].
    injection H as <-. lia.
Qed.

(** The loop of [expandCoeffs] from its [k]-th step on. *)
Lemma expandCoeffs_loop active x (x1 : list Q) k r :
  py_foldl (fun x1 i =>
              xi ← of_option IndexError (x !! i);
              a ← of_option IndexError (active !! i);
              j ← np_index (length x1) a;
              Ok (<[j := xi]> x1))
           x1 (seq k (length active - k)) = Ok r ->
  length r = length x1
  /\ forall j, (forall i a, k <= i -> active !! i = Some a ->
                            np_index (length x1) a <> Ok j) ->
               r !! j = x1 !! j.
Proof.
  remember (length active - k) as n eqn:Hn.
  revert k x1 Hn. induction n as [|n IH]; intros k x1 Hn H.
  - injection H as <-. done.
  - cbn [seq py_foldl] in H.
    apply py_bind_Ok in H as (x2 & Hbody & H).
    apply IH in H as [Hlen Hkeep]; [|lia].
    apply py_bind_Ok in Hbody as (xi & _ & Hbody).
    apply py_bind_Ok in Hbody as (a & Ha & Hbody).
    apply py_bind_Ok in Hbody as (j0 & Hj0 & [= <-]).
    rewrite length_insert in Hlen, Hkeep. split; [done|].
    intros j Hj. rewrite Hkeep.
    + apply list_lookup_insert_ne. intros ->.
      destruct (active !! k) as [a'|] eqn:Ha'; [|done].
      injection Ha as <-. by apply (Hj k a').
    + intros i a' Hi. apply Hj. lia.
Qed.

(** X14.  [expandCoeffs] keeps the number of coefficients and changes the
    active elements only; it raises [IndexError] rather than extend
    the array. *)
Theorem expandCoeffs_frame start active x r :
  expandCoeffs start active x = Ok r ->
  length r = length start
  /\ forall j, (forall a, a ∈ active -> np_index (length start) a <> Ok j) ->
               r !! j = start !! j.
Proof.
  intros H. unfold expandCoeffs in H.
  replace (length active) with (length active - 0) in H by lia.
  apply expandCoeffs_loop in H as [Hlen Hkeep]. split; [done|].
  intros j Hj. apply Hkeep. intros i a _ Hi. apply Hj.
  by eapply list_elem_of_lookup_2.
Qed.

Lemma expandCoeffs_frame_witness :
  exists r,
    expandCoeffs [1; 2; 3; 4]%Q [2; -1]%Z [7; 9]%Q = Ok r
    /\ length r = 4
    /\ r !! 0 = Some 1%Q.
Proof.
  py_run (expandCoeffs [1; 2; 3; 4]%Q [2; -1]%Z [7; 9]%Q) as r H.
  destruct (expandCoeffs_frame _ _ _ r H) as [Hlen Hkeep].
  exists r. split; [reflexivity|]. split; [exact Hlen|].
  apply (Hkeep 0). intros a Ha.
  rewrite !elem_of_cons, elem_of_nil in Ha.
  by destruct Ha as [->|[->|[]]].
Defined.

(** X15.  The fit starts where it is told to: [expandCoeffs] at
    [startingCoefficients[activeElements]] gives back the starting
    coefficients, whatever the active elements, repeated ones
    included. *)
Theorem expandCoeffs_start start active x0 :
  take_active start active = Ok x0 ->
  expandCoeffs start active x0 = Ok start.
Proof.
  intros H. unfold take_active in H.
  apply py_mapM_lookup in H as [Hlen Hx0].
  unfold expandCoeffs.
  assert (Hloop : forall k n,
            k + n = length active ->
            py_foldl (fun x1 i =>
                        xi ← of_option IndexError (x0 !! i);
                        a ← of_option IndexError (active !! i);
                        j ← np_index (length x1) a;
                        Ok (<[j := xi]> x1))
                     start (seq k n) = Ok start).
  { intros k n. revert k. induction n as [|n IH]; intros k Hk; [done|].
    cbn [seq py_foldl].
    destruct (lookup_lt_is_Some_2 active k ltac:(lia)) as [a Ha].
    destruct (Hx0 k a Ha) as (b & Hb & Hxk).
    rewrite Hxk, Ha. py_step. py_invert Hb. rewrite Hx. py_step.
    rewrite list_insert_id; [apply IH; lia|].
    destruct (start !! x); [by injection Hb as -> | done]. }
  apply (Hloop 0). lia.
Qed.

Lemma expandCoeffs_start_witness :
  take_active [1; 2; 3; 4]%Q [2; -1; 2]%Z = Ok [3; 4; 3]%Q
  /\ expandCoeffs [1; 2; 3; 4]%Q [2; -1; 2]%Z [3; 4; 3]%Q
     = Ok [1; 2; 3; 4]%Q.
Proof.
  split; [reflexivity|]. by apply expandCoeffs_start.
Defined.

End expand_coeffs.

(** * The Dawson function *)

Section dawson.

Import Tools.
Local Open Scope Q_scope.

Variable exp : Q -> Q.
Variable sqrt_pi : Q.

(** X16.  Below 0.2 in absolute value [deviceDawson] is the Maclaurin series
    of the Dawson function up to the power 11, and odd. *)
Theorem deviceDawson_small (x : Q) :
  Qabs x < 2 # 10 ->
  deviceDawson exp sqrt_pi x == Spec2.dawson_maclaurin 6 x
  /\ deviceDawson exp sqrt_pi (- x) == - deviceDawson exp sqrt_pi x.
Proof.
  intros Hx. unfold deviceDawson.
  assert (Hx' : Qabs (- x) < 2 # 10) by (by rewrite Qabs_opp).
  destruct (Qlt_le_dec (Qabs x) (2 # 10)) as [_|H];
    [|exfalso; by apply (Qlt_not_le _ _ Hx)].
  destruct (Qlt_le_dec (Qabs (- x)) (2 # 10)) as [_|H];
    [|exfalso; by apply (Qlt_not_le _ _ Hx')].
  split.
  - unfold dawson_series, Spec2.dawson_maclaurin. cbn [seq foldr].
    cbv zeta.
    change (Spec2.odd_factorial 0) with 1%Z.
    change (Spec2.odd_factorial 1) with 3%Z.
    change (Spec2.odd_factorial 2) with 15%Z.
    change (Spec2.odd_factorial 3) with 105%Z.
    change (Spec2.odd_factorial 4) with 945%Z.
    change (Spec2.odd_factorial 5) with 10395%Z.
    change (inject_Z ((-2) ^ Z.of_nat 0)) with 1.
    change (inject_Z ((-2) ^ Z.of_nat 1)) with (- (2)).
    change (inject_Z ((-2) ^ Z.of_nat 2)) with 4.
    change (inject_Z ((-2) ^ Z.of_nat 3)) with (- (8)).
    change (inject_Z ((-2) ^ Z.of_nat 4)) with 16.
    change (inject_Z ((-2) ^ Z.of_nat 5)) with (- (32)).
    change (2 * Z.of_nat 0 + 1)%Z with 1%Z.
    change (2 * Z.of_nat 1 + 1)%Z with 3%Z.
    change (2 * Z.of_nat 2 + 1)%Z with 5%Z.
    change (2 * Z.of_nat 3 + 1)%Z with 7%Z.
    change (2 * Z.of_nat 4 + 1)%Z with 9%Z.
    change (2 * Z.of_nat 5 + 1)%Z with 11%Z.
    change (inject_Z 1) with 1. change (inject_Z 3) with 3.
    change (inject_Z 15) with 15. change (inject_Z 105) with 105.
    change (inject_Z 945) with 945. change (inject_Z 10395) with 10395.
    field.
  - unfold dawson_series. cbv zeta. field.
Qed.

End dawson.

Section dawson_grid.

Import Tools.
Local Open Scope Q_scope.



(** The argument one tenth. *)
Lemma deviceDawson_small_witness :
  deviceDawson (fun _ => 0) 1 (1 # 10)
  == Spec2.dawson_maclaurin 6 (1 # 10).
Proof.
  by destruct (deviceDawson_small (fun _ => 0) 1 (1 # 10) eq_refl).
Defined.

End dawson_grid.

(** * The time and space axes *)

Section time_space.

Import LWE Spec.
Local Open Scope Q_scope.

Implicit Types (self : obj).

Ltac attr_lookup :=
  cbn [attrs setattr new_array];
  rewrite ?lookup_insert_ne by done;
  first [apply lookup_insert_eq | eassumption].

(** The object [sampling_axes] builds for an even number of samples. *)
Lemma sampling_axes_even self (timeStep spatialStep : Q) (h : nat)
    (Nspace : Z) fv y :
  attrs self !! "timeStep"%string = Some (VFloat timeStep) ->
  attrs self !! "Ntime"%string = Some (VInt (Z.of_nat (2 * h))) ->
  attrs self !! "Nfreq"%string = Some (VInt (Z.of_nat (h + 1))) ->
  attrs self !! "spatialStep"%string = Some (VFloat spatialStep) ->
  attrs self !! "Nspace"%string = Some (VInt Nspace) ->
  fftfreq (Z.of_nat (2 * h)) timeStep = Ok fv ->
  length fv = (2 * h)%nat -> fv !! h = Some y -> (1 <= h)%nat ->
  let tv := map (fun k => timeStep * k) (arange (Z.of_nat (2 * h))) in
  let sv := map (fun k => spatialStep * (k - inject_Z Nspace / 2)
                          + (1 # 4) * spatialStep) (arange Nspace) in
  let b := S (length (bufs self)) in
  sampling_axes self
  = Ok (new_array
          (mkobj
             (<["frequencyVectorSpectrum"%string := VView b 0 (h + 1)]>
                (<["frequencyVector"%string := VView b 0 (2 * h)]>
                   (<["timeVector"%string
                      := VView (length (bufs self)) 0 (length tv)]>
                      (attrs self))))
             (<[b := <[h := y * -1]> fv]> ((bufs self ++ [tv]) ++ [fv])))
          "spaceVector" sv).
Proof.
  intros Htp Hnt Hnf Hsp Hns Hfv Hlen Hy Hh tv sv b.
  assert (Hb : ((bufs self ++ [tv]) ++ [fv]) !! b = Some fv).
  { rewrite lookup_app_r by (rewrite length_app; simpl; unfold b; lia).
    rewrite length_app. simpl. unfold b.
    replace (S (length (bufs self)) - (length (bufs self) + 1))%nat
      with 0%nat by lia.
    reflexivity. }
  unfold sampling_axes.
  rewrite (get_float_lookup _ _ _ Htp). py_step.
  rewrite (get_int_lookup _ _ _ Hnt). py_step. fold tv.
  rewrite Hfv. py_step.
  erewrite (get_int_lookup _ "Nfreq") by attr_lookup. py_step.
  unfold slice_view.
  erewrite (getattr_lookup _ "frequencyVector") by attr_lookup. py_step.
  rewrite slice_to_nat, length_take, length_seq, Hlen.
  replace (Nat.min (h + 1) (2 * h)) with (h + 1)%nat by lia.
  cbn [bufs new_array]. rewrite length_app. cbn [length].
  replace (length (bufs self) + 1)%nat with b by (unfold b; lia).
  unfold imul_last.
  erewrite (getattr_lookup _ "frequencyVectorSpectrum") by attr_lookup.
  py_step.
  destruct (Nat.eqb_spec (h + 1) 0) as [|_]; [lia|].
  cbn [bufs setattr new_array]. rewrite Hb. py_step.
  replace (0 + (h + 1 - 1))%nat with h by lia.
  rewrite Hy. py_step. cbn [attrs setattr new_array].
  erewrite (get_float_lookup _ "spatialStep") by attr_lookup. py_step.
  erewrite (get_int_lookup _ "Nspace") by attr_lookup. py_step.
  cbn [bufs new_array]. rewrite ?length_app, ?Hlen. cbn [length].
  replace (length (bufs self) + 1)%nat with b by (unfold b; lia).
  reflexivity.
Qed.

(** X18.  For an even [Ntime = 2*h >= 2] and [Nspace] grid points,
    [timeVector] holds the [Ntime] times [k * timeStep] and
    [spaceVector] the [Nspace] positions
    [spatialStep * (k - Nspace/2) + spatialStep/4]: the space axis is
    a quarter of a step off centre, two mirrored positions add up to
    minus half a step. *)
Theorem sampling_axes_vectors self (timeStep spatialStep : Q)
    (h Nspace : nat) :
  attrs self !! "timeStep"%string = Some (VFloat timeStep) ->
  attrs self !! "Ntime"%string = Some (VInt (Z.of_nat (2 * h))) ->
  attrs self !! "Nfreq"%string = Some (VInt (Z.of_nat (h + 1))) ->
  attrs self !! "spatialStep"%string = Some (VFloat spatialStep) ->
  attrs self !! "Nspace"%string = Some (VInt (Z.of_nat Nspace)) ->
  ~ timeStep == 0 -> (1 <= h)%nat ->
  exists self' timeVector spaceVector,
    sampling_axes self = Ok self'
    /\ (v ← getattr self' "timeVector"; view_elems self' v) = Ok timeVector
    /\ (v ← getattr self' "spaceVector"; view_elems self' v)
       = Ok spaceVector
    /\ length timeVector = (2 * h)%nat
    /\ length spaceVector = Nspace
    /\ (forall k, (k < 2 * h)%nat ->
          timeVector !! k = Some (timeStep * inject_Z (Z.of_nat k)))
    /\ (forall k, (k < Nspace)%nat ->
          spaceVector !! k
          = Some (spatialStep * (inject_Z (Z.of_nat k)
                                 - inject_Z (Z.of_nat Nspace) / 2)
                  + (1 # 4) * spatialStep))
    /\ (forall k x x',
          spaceVector !! k = Some x ->
          spaceVector !! (Nspace - 1 - k)%nat = Some x' ->
          x + x' == - ((1 # 2) * spatialStep)).
Proof.
  intros Htp Hnt Hnf Hsp Hns Hd Hh.
  destruct (fftfreq (Z.of_nat (2 * h)) timeStep) as [fv|e] eqn:Hfv;
    [|by rewrite fftfreq_even in Hfv].
  destruct (fftfreq_even_lookup h timeStep fv Hd Hh Hfv)
    as (Hlen & y & Hy & _).
  set (tv := map (fun k => timeStep * k) (arange (Z.of_nat (2 * h)))).
  set (sv := map (fun k => spatialStep * (k - inject_Z (Z.of_nat Nspace) / 2)
                           + (1 # 4) * spatialStep)
               (arange (Z.of_nat Nspace))).
  assert (Ltv : length tv = (2 * h)%nat).
  { unfold tv, arange. by rewrite !length_map, length_seq, Nat2Z.id. }
  assert (Lsv : length sv = Nspace).
  { unfold sv, arange. by rewrite !length_map, length_seq, Nat2Z.id. }
  assert (Hsv : forall k, (k < Nspace)%nat ->
            sv !! k = Some (spatialStep * (inject_Z (Z.of_nat k)
                                           - inject_Z (Z.of_nat Nspace) / 2)
                            + (1 # 4) * spatialStep)).
  { intros k Hk. unfold sv, arange.
    by rewrite !list_lookup_fmap, Nat2Z.id, lookup_seq_lt by done. }
  eexists _, tv, sv. split.
  { by apply (sampling_axes_even self timeStep spatialStep h
                (Z.of_nat Nspace) fv y). }
  fold tv sv.
  split.
  { unfold getattr. cbn [attrs new_array].
    rewrite !lookup_insert_ne by done. rewrite lookup_insert_eq. py_step.
    cbn [view_elems bufs new_array].
    rewrite lookup_app_l
      by (rewrite length_insert, !length_app; cbn; lia).
    rewrite list_lookup_insert_ne by lia.
    rewrite lookup_app_l by (rewrite length_app; cbn; lia).
    rewrite lookup_app_r, Nat.sub_diag by done. cbn [lookup list_lookup].
    py_step. by rewrite drop_0, firstn_all. }
  split.
  { unfold getattr. cbn [attrs new_array]. rewrite lookup_insert_eq.
    py_step. cbn [view_elems bufs new_array].
    rewrite lookup_app_r, Nat.sub_diag by done. cbn [lookup list_lookup].
    py_step. by rewrite drop_0, firstn_all. }
  split; [done|]. split; [done|]. split.
  { intros k Hk. unfold tv, arange.
    by rewrite !list_lookup_fmap, Nat2Z.id, lookup_seq_lt by done. }
  split; [exact Hsv|].
  intros k x x' Hx Hx'.
  assert (Hk : (k < Nspace)%nat)
    by (rewrite <- Lsv; by eapply lookup_lt_Some).
  rewrite Hsv in Hx by done. rewrite Hsv in Hx' by lia.
  injection Hx as <-. injection Hx' as <-.
  replace (Z.of_nat (Nspace - 1 - k))
    with (Z.of_nat Nspace + - (1) + - Z.of_nat k)%Z by lia.
  rewrite !inject_Z_plus, !inject_Z_opp. change (inject_Z 1) with 1.
  field.
Qed.

(** The 8 by 8 grid with unit steps. *)
Lemma sampling_axes_vectors_witness :
  exists self' spaceVector,
    sampling_axes Ex.grid8 = Ok self'
    /\ (v ← getattr self' "spaceVector"; view_elems self' v)
       = Ok spaceVector
    /\ spaceVector !! 0%nat = Some (1 * (0 - 8 / 2) + (1 # 4) * 1).
Proof.
  destruct (sampling_axes_vectors Ex.grid8 1 1 4 8)
    as (self' & tv & sv & H1 & _ & H3 & _ & _ & _ & H7 & _);
    [by vm_compute | by vm_compute | by vm_compute | by vm_compute
    | by vm_compute | discriminate | lia |].
  exists self', sv. split; [exact H1|]. split; [exact H3|].
  apply (H7 0%nat). lia.
Defined.

End time_space.

(** * Coefficients from refractiveindex.info *)

Section rii.

Import RII.
Local Open Scope nat_scope.

Implicit Types (types : list string) (t : string) (c r : list Q).

Lemma first_true_found types t k :
  types !! k = Some t ->
  (forall j ty, j < k -> types !! j = Some ty -> ty <> t) ->
  first_true (map (fun n => (n =? 1)%Z)
                (cumsum (cumsum (map (fun ty => if String.eqb ty t
                                                then 1%Z else 0%Z) types))))
  = Some k.
Proof.
  unfold cumsum. revert types. induction k as [|k IH]; intros types Hk Hbefore.
  - destruct types as [|ty rest]; [done|]. injection Hk as ->.
    cbn [map cumsum_from]. rewrite String.eqb_refl. reflexivity.
  - destruct types as [|ty rest]; [done|].
    assert (Hty : String.eqb ty t = false).
    { apply String.eqb_neq. apply (Hbefore 0 ty); [lia | done]. }
    cbn [map cumsum_from]. rewrite Hty, !Z.add_0_l.
    cbn [first_true Z.eqb].
    rewrite IH; [done | exact Hk |].
    intros j ty' Hj. apply (Hbefore (S j)). lia.
Qed.

Lemma first_true_absent types t :
  t ∉ types ->
  first_true (map (fun n => (n =? 1)%Z)
                (cumsum (cumsum (map (fun ty => if String.eqb ty t
                                                then 1%Z else 0%Z) types))))
  = None.
Proof.
  unfold cumsum. induction types as [|ty rest IH]; intros Hnot; [done|].
  apply not_elem_of_cons in Hnot as [Hne Hnot].
  assert (Hty : String.eqb ty t = false) by (by apply String.eqb_neq).
  cbn [map cumsum_from]. rewrite Hty, !Z.add_0_l. cbn [first_true Z.eqb].
  by rewrite IH.
Qed.

Lemma firstTrue_found types t k :
  types !! k = Some t ->
  (forall j ty, j < k -> types !! j = Some ty -> ty <> t) ->
  firstTrue types t = Ok k.
Proof.
  intros Hk Hbefore. unfold firstTrue, argmax.
  rewrite (first_true_found types t k Hk Hbefore).
  destruct types; [done|]. reflexivity.
Qed.

Lemma firstTrue_absent types t :
  types <> [] -> t ∉ types -> firstTrue types t = Ok 0.
Proof.
  intros Hne Hnot. unfold firstTrue, argmax.
  rewrite (first_true_absent types t Hnot).
  destruct types; [done|]. reflexivity.
Qed.

(** X19.  The expression [((types == t).cumsum().cumsum() == 1).argmax()]
    is the position of the first entry of type [t], and 0 when no
    entry has that type. *)
Theorem firstTrue_first types t :
  (forall k, types !! k = Some t ->
             (forall j ty, j < k -> types !! j = Some ty -> ty <> t) ->
             firstTrue types t = Ok k)
  /\ (types <> [] -> (t ∉ types) -> firstTrue types t = Ok 0).
Proof.
  split; [apply firstTrue_found | apply firstTrue_absent].
Qed.

Lemma firstTrue_first_witness :
  firstTrue ["tabulated k"; "formula 2"; "formula 2"]%string "formula 2"
  = Ok 1
  /\ firstTrue ["tabulated k"]%string "formula 2" = Ok 0.
Proof.
  destruct (firstTrue_first
              ["tabulated k"; "formula 2"; "formula 2"]%string
              "formula 2") as [H1 _].
  destruct (firstTrue_first ["tabulated k"]%string "formula 2") as [_ H2].
  split.
  - apply H1; [reflexivity|]. intros [|j] ty Hj Hty; [|lia].
    by injection Hty as <-.
  - apply H2; [done|]. by apply (bool_decide_unpack _).
Defined.

Lemma py_foldl_snoc {A S} (body : S -> A -> py S) (s : S) (l : list A) x :
  py_foldl body s (l ++ [x]) = (s' ← py_foldl body s l; body s' x).
Proof.
  revert s. induction l as [|a l IH]; intros s.
  - cbn. by destruct (body s x).
  - cbn [app py_foldl]. destruct (body s a) as [s1|]; [|done]. py_step.
    apply IH.
Qed.

Lemma item_lt c i : i < length c -> exists x, c !! i = Some x /\ item c i = Ok x.
Proof.
  intros H. destruct (lookup_lt_is_Some_2 c i H) as [x Hx].
  exists x. split; [done|]. unfold item. by rewrite Hx.
Qed.

Lemma setitem_lt r i x : i < length r -> setitem r i x = Ok (<[i := x]> r).
Proof. intros H. unfold setitem. by apply Nat.ltb_lt in H as ->. Qed.

(** The loop over the resonances of the formulas 1 and 2. *)
Lemma from_formula12_loop (square : bool) c r0 n :
  2 * n < length c -> 3 * n < length r0 ->
  exists r,
    py_foldl (fun r i =>
                x ← item c (1 + 2 * i);
                r ← setitem r (i * 3 + 2) x;
                y ← item c (2 + 2 * i);
                setitem r (i * 3 + 3)
                  (if square then - (y ^ 2) else - y)%Q)
             r0 (seq 0 n) = Ok r
    /\ length r = length r0
    /\ (forall i, i < n ->
          exists x y,
            c !! (1 + 2 * i) = Some x /\ c !! (2 + 2 * i) = Some y
            /\ r !! (i * 3 + 2) = Some x
            /\ r !! (i * 3 + 3)
               = Some (if square then - (y ^ 2) else - y)%Q)
    /\ (forall j, j < 2 \/ 3 * n < j \/ j mod 3 = 1 -> r !! j = r0 !! j).
Proof.
  induction n as [|n IH]; intros Hc Hr.
  - exists r0. split; [done|]. split; [done|]. split; [lia | done].
  - destruct IH as (r & Hloop & Hlen & Hset & Hkeep); [lia | lia |].
    destruct (item_lt c (1 + 2 * n)) as (x & Hx & Hix); [lia|].
    destruct (item_lt c (2 + 2 * n)) as (y & Hy & Hiy); [lia|].
    set (v := (if square then - (y ^ 2) else - y)%Q).
    exists (<[n * 3 + 3 := v]> (<[n * 3 + 2 := x]> r)).
    split.
    { rewrite seq_S, py_foldl_snoc, Hloop. py_step.
      change (0 + n) with n. rewrite Hix. py_step.
      rewrite setitem_lt by lia. py_step. rewrite Hiy. py_step.
      rewrite setitem_lt by (rewrite length_insert; lia). reflexivity. }
    split; [by rewrite !length_insert|]. split.
    + intros i Hi. destruct (decide (i = n)) as [->|Hne].
      * exists x, y. split; [done|]. split; [done|]. split.
        -- rewrite list_lookup_insert_ne by lia.
           apply list_lookup_insert_eq. lia.
        -- apply list_lookup_insert_eq. rewrite length_insert. lia.
      * destruct (Hset i) as (x' & y' & H1 & H2 & H3 & H4); [lia|].
        exists x', y'. split; [done|]. split; [done|].
        rewrite !list_lookup_insert_ne by lia. done.
    + intros j Hj.
      assert (Hmod2 : (n * 3 + 2) mod 3 = 2).
      { rewrite Nat.add_comm, Nat.Div0.mod_add. reflexivity. }
      assert (Hmod0 : (n * 3 + 3) mod 3 = 0).
      { replace (n * 3 + 3) with ((n + 1) * 3) by lia.
        apply Nat.Div0.mod_mul. }
      assert (j <> n * 3 + 2 /\ j <> n * 3 + 3) as [N1 N2].
      { split; intros ->; lia. }
      rewrite !list_lookup_insert_ne by done. apply Hkeep. lia.
Qed.

Lemma lookup_repeat {A} (x : A) (n j : nat) :
  j < n -> repeat x n !! j = Some x.
Proof.
  revert j. induction n as [|n IH]; intros j Hj; [lia|].
  destruct j as [|j]; [done|]. cbn. apply IH. lia.
Qed.

Lemma has_type_true types t : has_type types t = true <-> t ∈ types.
Proof.
  unfold has_type. rewrite existsb_exists. split.
  - intros (ty & Hin & E). apply String.eqb_eq in E as ->.
    by apply list_elem_of_In.
  - intros Hin. exists t. split; [by apply list_elem_of_In|].
    apply String.eqb_refl.
Qed.

Variable pow : Q -> Q -> Q.

(** X20.  A document without a formula 1 whose first formula 2 has the
    coefficients [c]: the constant term is [c[0] + 1], the resonance
    [i] gives the coefficients [3*i+2] and [3*i+3] of the result, up
    to seven resonances, and every other of the 22 coefficients is
    zero.  The function raises only for an empty coefficient list. *)
Theorem getSellmeierFromRII_formula2 (DATA : list entry) (k : nat)
    (e : entry) c (c0 : Q) :
  let n := Z.to_nat (Z.min 7 (resonances (length c) 2)) in
  has_type (map type DATA) "formula 1" = false ->
  DATA !! k = Some e -> type e = "formula 2"%string ->
  (forall j e', j < k -> DATA !! j = Some e' ->
                type e' <> "formula 2"%string) ->
  coefficients e = Some c -> c !! 0 = Some c0 ->
  exists r,
    getSellmeierFromRII pow DATA = Ok r
    /\ length r = 22
    /\ r !! 0 = Some (c0 + 1)%Q
    /\ (forall i, i < n ->
          exists x y,
            c !! (1 + 2 * i) = Some x /\ c !! (2 + 2 * i) = Some y
            /\ r !! (i * 3 + 2) = Some x
            /\ r !! (i * 3 + 3) = Some (- y)%Q)
    /\ (forall j, j < 22 -> j = 1 \/ 3 * n < j \/ j mod 3 = 1 ->
                  r !! j = Some 0%Q).
Proof.
  intros n H1 Hk Hty Hfirst Hc Hc0.
  assert (Hlenc : 1 <= length c).
  { apply lookup_lt_Some in Hc0. lia. }
  assert (Hn : 2 * n < length c /\ n <= 7).
  { unfold n, resonances.
    pose proof (Z.div_mod (Z.of_nat (length c) - 1) 2 ltac:(lia)).
    pose proof (Z.mod_pos_bound (Z.of_nat (length c) - 1) 2 ltac:(lia)).
    lia. }
  destruct Hn as [Hn Hn7].
  destruct (from_formula12_loop false c
              (<[0 := (c0 + 1)%Q]> (repeat 0%Q 22)) n)
    as (r & Hloop & Hlen & Hset & Hkeep);
    [done | rewrite length_insert, repeat_length; lia |].
  exists r.
  assert (H2 : has_type (map type DATA) "formula 2" = true).
  { apply has_type_true. rewrite <- Hty.
    apply list_elem_of_fmap_2. by eapply list_elem_of_lookup_2. }
  split.
  { unfold getSellmeierFromRII.
    rewrite H1, H2, (firstTrue_found (map type DATA) "formula 2" k).
    - py_step. unfold coefficients_at. rewrite Hk. py_step.
      rewrite Hc. py_step. unfold from_formula12.
      assert (Hi0 : item c 0 = Ok c0) by (unfold item; by rewrite Hc0).
      rewrite Hi0. py_step.
      rewrite setitem_lt by (rewrite repeat_length; lia). py_step.
      fold n. exact Hloop.
    - by rewrite list_lookup_fmap, Hk, <- Hty.
    - intros j ty Hj Hlook. rewrite list_lookup_fmap in Hlook.
      destruct (DATA !! j) as [e'|] eqn:He'; [|done].
      injection Hlook as <-. by eapply Hfirst. }
  rewrite length_insert, repeat_length in Hlen.
  split; [done|]. split.
  { rewrite Hkeep by lia. apply list_lookup_insert_eq.
    rewrite repeat_length. lia. }
  split; [exact Hset|].
  intros j Hj22 Hj. rewrite Hkeep by lia.
  rewrite list_lookup_insert_ne by (destruct Hj as [->|[?|?]]; [lia|lia|];
    intros <-; by rewrite Nat.Div0.mod_0_l in *).
  by apply lookup_repeat.
Qed.

(** X21.  With a formula 1 in the document the entry that is read is the
    first formula 2, or entry 0 without one: a formula 1 behind a
    first entry that has no coefficients is not found, and the
    function raises [KeyError]. *)
Theorem getSellmeierFromRII_formula1_behind (DATA : list entry)
    (e0 : entry) :
  has_type (map type DATA) "formula 1" = true ->
  "formula 2"%string ∉ map type DATA ->
  DATA !! 0 = Some e0 -> coefficients e0 = None ->
  getSellmeierFromRII pow DATA = Raise KeyError.
Proof.
  intros H1 H2 H0 Hc. unfold getSellmeierFromRII. rewrite H1.
  rewrite firstTrue_absent; [|by destruct DATA|done]. py_step.
  unfold coefficients_at. rewrite H0. py_step. by rewrite Hc.
Qed.

End rii.

Section rii_examples.

Import RII.

(** A Sellmeier formula with two resonances. *)
Lemma getSellmeierFromRII_formula2_witness :
  exists r,
    getSellmeierFromRII (fun _ _ => 0%Q)
      [mk_entry "formula 2" (Some [0; 1; 2; 3; 4]%Q)] = Ok r
    /\ length r = 22%nat
    /\ r !! 0%nat = Some (0 + 1)%Q.
Proof.
  destruct (getSellmeierFromRII_formula2 (fun _ _ => 0%Q)
              [mk_entry "formula 2" (Some [0; 1; 2; 3; 4]%Q)] 0
              (mk_entry "formula 2" (Some [0; 1; 2; 3; 4]%Q))
              [0; 1; 2; 3; 4]%Q 0%Q)
    as (r & Hr & Hlen & H0 & _);
    [reflexivity | reflexivity | reflexivity | intros j e' Hj; lia
    | reflexivity | reflexivity |].
  exists r. split; [exact Hr|]. split; [exact Hlen | exact H0].
Defined.

(** A tabulated entry in front of a formula 1. *)
Lemma getSellmeierFromRII_formula1_behind_witness :
  getSellmeierFromRII (fun _ _ => 0%Q)
    [mk_entry "tabulated k" None; mk_entry "formula 1" (Some [0; 1; 2]%Q)]
  = Raise KeyError.
Proof.
  apply (getSellmeierFromRII_formula1_behind (fun _ _ => 0%Q) _
           (mk_entry "tabulated k" None)); try reflexivity.
  by apply (bool_decide_unpack _).
Defined.

End rii_examples.

(** * The dispersion formula 4 *)

Section rii4.

Import RII.
Local Open Scope nat_scope.

Implicit Types (c r : list Q).

Variable pow : Q -> Q -> Q.

(** The loop over the resonances of the formula 4. *)
Lemma from_formula4_resonances c r0 n :
  4 * n < length c -> 3 * n < length r0 ->
  exists r,
    py_foldl (fun r i =>
                z ← item c (2 + 4 * i);
                x ← item c (1 + 4 * i);
                r ← (if Qeq_bool z 0 then setitem r (i * 3 + 1) x
                     else setitem r (i * 3 + 2) x);
                b ← item c (3 + 4 * i);
                e ← item c (4 + 4 * i);
                setitem r (i * 3 + 3) (- pow b e)%Q)
             r0 (seq 0 n) = Ok r
    /\ length r = length r0
    /\ (forall i, i < n ->
          exists x z b e,
            c !! (1 + 4 * i) = Some x /\ c !! (2 + 4 * i) = Some z
            /\ c !! (3 + 4 * i) = Some b /\ c !! (4 + 4 * i) = Some e
            /\ r !! (i * 3 + 3) = Some (- pow b e)%Q
            /\ (if Qeq_bool z 0
                then r !! (i * 3 + 1) = Some x
                     /\ r !! (i * 3 + 2) = r0 !! (i * 3 + 2)
                else r !! (i * 3 + 2) = Some x
                     /\ r !! (i * 3 + 1) = r0 !! (i * 3 + 1)))
    /\ (forall j, j = 0 \/ 3 * n < j -> r !! j = r0 !! j).
Proof.
  induction n as [|n IH]; intros Hc Hr.
  - exists r0. split; [done|]. split; [done|]. split; [lia | done].
  - destruct IH as (r & Hloop & Hlen & Hset & Hkeep); [lia | lia |].
    destruct (item_lt c (1 + 4 * n)) as (x & Hx & Hix); [lia|].
    destruct (item_lt c (2 + 4 * n)) as (z & Hz & Hiz); [lia|].
    destruct (item_lt c (3 + 4 * n)) as (b & Hb & Hib); [lia|].
    destruct (item_lt c (4 + 4 * n)) as (e & He & Hie); [lia|].
    set (p := if Qeq_bool z 0 then n * 3 + 1 else n * 3 + 2).
    assert (Hp : (p = n * 3 + 1 \/ p = n * 3 + 2) /\ p < length r).
    { unfold p. destruct (Qeq_bool z 0); lia. }
    destruct Hp as [Hp Hpl].
    exists (<[n * 3 + 3 := (- pow b e)%Q]> (<[p := x]> r)).
    split.
    { rewrite seq_S, py_foldl_snoc, Hloop. py_step.
      change (0 + n) with n. rewrite Hiz. py_step. rewrite Hix. py_step.
      assert (Hs : (if Qeq_bool z 0 then setitem r (n * 3 + 1) x
                    else setitem r (n * 3 + 2) x) = Ok (<[p := x]> r)).
      { unfold p. destruct (Qeq_bool z 0); apply setitem_lt; lia. }
      rewrite Hs. py_step. rewrite Hib. py_step. rewrite Hie. py_step.
      apply setitem_lt. rewrite length_insert. lia. }
    split; [by rewrite !length_insert|]. split.
    + intros i Hi. destruct (decide (i = n)) as [->|Hne].
      * exists x, z, b, e. split_and!; try done.
        -- apply list_lookup_insert_eq. rewrite length_insert. lia.
        -- unfold p. destruct (Qeq_bool z 0).
           ++ split.
              ** rewrite list_lookup_insert_ne by lia.
                 apply list_lookup_insert_eq. lia.
              ** rewrite !list_lookup_insert_ne by lia. apply Hkeep. lia.
           ++ split.
              ** rewrite list_lookup_insert_ne by lia.
                 apply list_lookup_insert_eq. lia.
              ** rewrite !list_lookup_insert_ne by lia. apply Hkeep. lia.
      * destruct (Hset i) as (x' & z' & b' & e' & H1 & H2 & H3 & H4 & H5 & H6);
          [lia|].
        exists x', z', b', e'. split_and!; try done.
        -- rewrite !list_lookup_insert_ne by lia. done.
        -- destruct (Qeq_bool z' 0);
             rewrite !list_lookup_insert_ne by lia; done.
    + intros j Hj. rewrite !list_lookup_insert_ne by lia. apply Hkeep. lia.
Qed.

(** The loop over the polynomial terms of the formula 4. *)
Lemma from_formula4_polynomial c r0 m :
  5 + 2 * m <= length c -> length r0 = 22 ->
  exists r,
    py_foldl (fun r i =>
                p ← item c (5 + 2 * i + 1);
                r ← (if Qeq_bool p 2 then
                       x ← item c (5 + 2 * i); setitem r 13 x
                     else Ok r);
                p ← item c (5 + 2 * i + 1);
                r ← (if Qeq_bool p 4 then
                       x ← item c (5 + 2 * i); setitem r 14 x
                     else Ok r);
                p ← item c (5 + 2 * i + 1);
                if Qeq_bool p 6 then
                  x ← item c (5 + 2 * i); setitem r 15 x
                else Ok r)
             r0 (seq 0 m) = Ok r
    /\ length r = 22
    /\ (forall j, j < 13 \/ 15 < j -> r !! j = r0 !! j).
Proof.
  induction m as [|m IH]; intros Hc Hr.
  - by exists r0.
  - destruct IH as (r & Hloop & Hlen & Hkeep); [lia | done |].
    destruct (item_lt c (5 + 2 * m)) as (x & Hx & Hix); [lia|].
    destruct (item_lt c (5 + 2 * m + 1)) as (p & Hp & Hip); [lia|].
    rewrite seq_S, py_foldl_snoc, Hloop. py_step.
    change (0 + m) with m. rewrite Hip. py_step.
    set (r1 := if Qeq_bool p 2 then <[13 := x]> r else r).
    assert (H1 : (if Qeq_bool p 2 then x ← item c (5 + 2 * m); setitem r 13 x
                  else Ok r) = Ok r1
                 /\ length r1 = 22
                 /\ forall j, j < 13 \/ 15 < j -> r1 !! j = r !! j).
    { unfold r1. destruct (Qeq_bool p 2); [|done].
      rewrite Hix. py_step. rewrite setitem_lt by lia.
      split; [done|]. split; [by rewrite length_insert|].
      intros j Hj. apply list_lookup_insert_ne. lia. }
    destruct H1 as (-> & Hl1 & K1). py_step.
    set (r2 := if Qeq_bool p 4 then <[14 := x]> r1 else r1).
    assert (H2 : (if Qeq_bool p 4 then x ← item c (5 + 2 * m); setitem r1 14 x
                  else Ok r1) = Ok r2
                 /\ length r2 = 22
                 /\ forall j, j < 13 \/ 15 < j -> r2 !! j = r1 !! j).
    { unfold r2. destruct (Qeq_bool p 4); [|done].
      rewrite Hix. py_step. rewrite setitem_lt by lia.
      split; [done|]. split; [by rewrite length_insert|].
      intros j Hj. apply list_lookup_insert_ne. lia. }
    destruct H2 as (-> & Hl2 & K2). py_step.
    destruct (Qeq_bool p 6).
    + rewrite Hix. py_step. rewrite setitem_lt by lia.
      eexists. split; [done|]. split; [by rewrite length_insert|].
      intros j Hj. rewrite list_lookup_insert_ne by lia.
      by rewrite K2, K1, Hkeep.
    + exists r2. split; [done|]. split; [done|].
      intros j Hj. by rewrite K2, K1, Hkeep.
Qed.

(** X22.  A document without formula 1 and 2 whose first formula 4 has the
    coefficients [c], not empty: the function returns 22 coefficients
    and raises for no such list.  The constant term is [c[0]], without
    the 1 that the formulas 1 and 2 add.  Of at most two resonances,
    resonance [i] puts [c[1+4i]] at [3i+1] when [c[2+4i]] is zero and
    at [3i+2] otherwise, and [-(c[3+4i] ** c[4+4i])] at [3i+3].
    Nothing else is written outside the positions 13, 14 and 15 of the
    polynomial terms. *)
Theorem getSellmeierFromRII_formula4 (DATA : list entry) (k : nat)
    (e : entry) c (c0 : Q) :
  let n := Z.to_nat (Z.min (resonances (length c) 4) 2) in
  has_type (map type DATA) "formula 1" = false ->
  has_type (map type DATA) "formula 2" = false ->
  DATA !! k = Some e -> type e = "formula 4"%string ->
  (forall j e', j < k -> DATA !! j = Some e' ->
                type e' <> "formula 4"%string) ->
  coefficients e = Some c -> c !! 0 = Some c0 ->
  exists r,
    getSellmeierFromRII pow DATA = Ok r
    /\ length r = 22
    /\ r !! 0 = Some c0
    /\ (forall i, i < n ->
          exists x z b y,
            c !! (1 + 4 * i) = Some x /\ c !! (2 + 4 * i) = Some z
            /\ c !! (3 + 4 * i) = Some b /\ c !! (4 + 4 * i) = Some y
            /\ r !! (i * 3 + 3) = Some (- pow b y)%Q
            /\ (if Qeq_bool z 0
                then r !! (i * 3 + 1) = Some x
                     /\ r !! (i * 3 + 2) = Some 0%Q
                else r !! (i * 3 + 2) = Some x
                     /\ r !! (i * 3 + 1) = Some 0%Q))
    /\ (forall j, 3 * n < j < 22 -> j < 13 \/ 15 < j -> r !! j = Some 0%Q).
Proof.
  intros n H1 H2 Hk Hty Hfirst Hc Hc0.
  assert (Hlenc : 1 <= length c).
  { apply lookup_lt_Some in Hc0. lia. }
  assert (Hn : 4 * n < length c /\ n <= 2).
  { unfold n, resonances.
    pose proof (Z.div_mod (Z.of_nat (length c) - 1) 4 ltac:(lia)).
    pose proof (Z.mod_pos_bound (Z.of_nat (length c) - 1) 4 ltac:(lia)).
    lia. }
  destruct Hn as [Hn Hn2].
  set (r0 := <[0 := c0]> (repeat 0%Q 22)).
  assert (Hl0 : length r0 = 22).
  { unfold r0. by rewrite length_insert, repeat_length. }
  assert (Hz0 : forall j, 0 < j < 22 -> r0 !! j = Some 0%Q).
  { intros j Hj. unfold r0. rewrite list_lookup_insert_ne by lia.
    apply lookup_repeat. lia. }
  destruct (from_formula4_resonances c r0 n)
    as (r1 & Hloop & Hlen & Hset & Hkeep); [done | lia |].
  rewrite Hl0 in Hlen.
  set (m := Z.to_nat ((Z.of_nat (length c) - 5) / 2)).
  assert (Hpoly : exists r,
            (if 5 <? length c then
               py_foldl (fun r i =>
                p ← item c (5 + 2 * i + 1);
                r ← (if Qeq_bool p 2 then
                       x ← item c (5 + 2 * i); setitem r 13 x
                     else Ok r);
                p ← item c (5 + 2 * i + 1);
                r ← (if Qeq_bool p 4 then
                       x ← item c (5 + 2 * i); setitem r 14 x
                     else Ok r);
                p ← item c (5 + 2 * i + 1);
                if Qeq_bool p 6 then
                  x ← item c (5 + 2 * i); setitem r 15 x
                else Ok r) r1 (seq 0 m)
             else Ok r1) = Ok r
            /\ length r = 22
            /\ (forall j, j < 13 \/ 15 < j -> r !! j = r1 !! j)).
  { destruct (Nat.ltb_spec 5 (length c)) as [H5|H5]; [|by exists r1].
    apply from_formula4_polynomial; [|done].
    unfold m.
    pose proof (Z.div_mod (Z.of_nat (length c) - 5) 2 ltac:(lia)).
    pose proof (Z.mod_pos_bound (Z.of_nat (length c) - 5) 2 ltac:(lia)).
    lia. }
  destruct Hpoly as (r & Hr & Hlr & Hkr).
  exists r.
  assert (H4 : has_type (map type DATA) "formula 4" = true).
  { apply has_type_true. rewrite <- Hty.
    apply list_elem_of_fmap_2. by eapply list_elem_of_lookup_2. }
  split.
  { unfold getSellmeierFromRII.
    rewrite H1, H2, H4, (firstTrue_found (map type DATA) "formula 4" k).
    - py_step. unfold coefficients_at. rewrite Hk. py_step.
      rewrite Hc. py_step. unfold from_formula4.
      assert (Hi0 : item c 0 = Ok c0) by (unfold item; by rewrite Hc0).
      rewrite Hi0. py_step.
      rewrite setitem_lt by (rewrite repeat_length; lia). py_step.
      fold r0. fold n. rewrite Hloop. py_step. fold m. exact Hr.
    - by rewrite list_lookup_fmap, Hk, <- Hty.
    - intros j ty Hj Hlook. rewrite list_lookup_fmap in Hlook.
      destruct (DATA !! j) as [e'|] eqn:He'; [|done].
      injection Hlook as <-. by eapply Hfirst. }
  split; [done|]. split.
  { rewrite Hkr, Hkeep by lia. unfold r0.
    apply list_lookup_insert_eq. rewrite repeat_length. lia. }
  split.
  - intros i Hi.
    destruct (Hset i Hi) as (x & z & b & y & G1 & G2 & G3 & G4 & G5 & G6).
    exists x, z, b, y. split_and!; try done.
    + by rewrite Hkr by lia.
    + destruct (Qeq_bool z 0); destruct G6 as [G6 G7];
        (split; [by rewrite Hkr by lia|]);
        rewrite Hkr, G7 by lia; apply Hz0; lia.
  - intros j Hj Hj'. rewrite Hkr, Hkeep by lia. apply Hz0. lia.
Qed.

End rii4.

Section rii4_examples.

Import RII.

(** One resonance and the polynomial term of the power 2. *)
Lemma getSellmeierFromRII_formula4_witness :
  exists r,
    getSellmeierFromRII (fun _ _ => 0%Q)
      [mk_entry "formula 4" (Some [3; 1; 0; 2; 2; 5; 2]%Q)] = Ok r
    /\ length r = 22%nat
    /\ r !! 0%nat = Some 3%Q.
Proof.
  destruct (getSellmeierFromRII_formula4 (fun _ _ => 0%Q)
              [mk_entry "formula 4" (Some [3; 1; 0; 2; 2; 5; 2]%Q)] 0
              (mk_entry "formula 4" (Some [3; 1; 0; 2; 2; 5; 2]%Q))
              [3; 1; 0; 2; 2; 5; 2]%Q 3%Q)
    as (r & Hr & Hlen & H0 & _);
    [reflexivity | reflexivity | reflexivity | reflexivity
    | intros j e' Hj; lia | reflexivity | reflexivity |].
  exists r. split; [exact Hr|]. split; [exact Hlen | exact H0].
Defined.

End rii4_examples.
